(** * Backbone modules of DQ-DETR-DiNOv2: a shallow embedding of
      [models/dqdetr/backbone.py] and the properties of its specification.

    The file follows the source top-down: the Python and torch notions the
    source relies on ([Py], [Torch]), then [FrozenBatchNorm2d],
    [BackboneBase], [Backbone], [Joiner], [VitBackboneAdapter] and
    [build_backbone], and finally the theorems. *)

From Stdlib Require Import String Ascii Bool Arith ZArith QArith Lia List.
From Stdlib Require Import Permutation DecimalString DecimalZ.
From Stdlib Require Import Reals Lra.
Import ListNotations.

Close Scope Q_scope.
Close Scope R_scope.
Close Scope Z_scope.
Open Scope nat_scope.
Open Scope string_scope.
Open Scope list_scope.

(* ================================================================== *)
(** ** Python values, exceptions and containers used by the source     *)
(* ================================================================== *)

Module Py.

(** The exception classes that the source raises, or that the operations
    it calls raise.  [UnboundLocalError] carries the name of the local. *)
Inductive exn : Type :=
| AssertionError (msg : string)
| ValueError (msg : string)
| NotImplementedError (msg : string)
| UnboundLocalError (var : string)
| TypeError (msg : string)
| IndexError (msg : string)
| RuntimeError (msg : string).

(** A call either returns a value or raises. *)
Inductive result (T : Type) : Type :=
| Ok (v : T)
| Raise (e : exn).

Arguments Ok {T} v.
Arguments Raise {T} e.

Definition bind {T U : Type} (c : result T) (k : T -> result U) : result U :=
  match c with
  | Ok v => k v
  | Raise e => Raise e
  end.

(** [assert c, msg] *)
Definition assert (c : bool) (msg : string) : result unit :=
  if c then Ok tt else Raise (AssertionError msg).

(** [str(i)] for an integer, as used by [str.format] and f-strings. *)
Definition str_of_Z (z : Z) : string := NilZero.string_of_int (Z.to_int z).

Definition str_of_nat (n : nat) : string := str_of_Z (Z.of_nat n).

(** [sub in s] for two strings: [sub] occurs in [s] as a substring. *)
Fixpoint str_in (sub s : string) : bool :=
  if String.prefix sub s then true
  else match s with
       | EmptyString => false
       | String _ s' => str_in sub s'
       end.

(** [x in l] for a list, with the equality test of the elements. *)
Definition list_in {T : Type} (eqb : T -> T -> bool) (x : T) (l : list T) : bool :=
  existsb (eqb x) l.

(** [l1 == l2] for lists. *)
Fixpoint list_eqb {T : Type} (eqb : T -> T -> bool) (l1 l2 : list T) : bool :=
  match l1, l2 with
  | [], [] => true
  | x :: l1', y :: l2' => eqb x y && list_eqb eqb l1' l2'
  | _, _ => false
  end.

(** [l[start:]], where a negative [start] counts from the end. *)
Definition slice_from {T : Type} (start : Z) (l : list T) : list T :=
  let len := Z.of_nat (length l) in
  let start' := if (start <? 0)%Z then Z.max 0 (len + start) else start in
  skipn (Z.to_nat start') l.

(** [dict] / [OrderedDict] with string keys: insertion order is kept, and
    assigning to a key that is present replaces its value in place. *)
Definition OrderedDict (V : Type) : Type := list (string * V).

Fixpoint od_set {V : Type} (d : OrderedDict V) (k : string) (v : V) : OrderedDict V :=
  match d with
  | [] => [(k, v)]
  | (k', v') :: d' =>
      if String.eqb k' k then (k, v) :: d' else (k', v') :: od_set d' k v
  end.

Fixpoint od_get {V : Type} (d : OrderedDict V) (k : string) : option V :=
  match d with
  | [] => None
  | (k', v') :: d' => if String.eqb k' k then Some v' else od_get d' k
  end.

(** [del d[k]] for a key that may or may not be present (the callers test
    membership first). *)
Definition od_del {V : Type} (d : OrderedDict V) (k : string) : OrderedDict V :=
  filter (fun kv => negb (String.eqb (fst kv) k)) d.

Definition od_keys {V : Type} (d : OrderedDict V) : list string := map fst d.

Definition od_values {V : Type} (d : OrderedDict V) : list V := map snd d.

Definition od_mem {V : Type} (d : OrderedDict V) (k : string) : bool :=
  match od_get d k with Some _ => true | None => false end.

(** Reading a local variable of a function: a local that no executed
    statement has assigned raises [UnboundLocalError]. *)
Definition load_fast {T : Type} (var : string) (slot : option T) : result T :=
  match slot with
  | Some v => Ok v
  | None => Raise (UnboundLocalError var)
  end.

End Py.

Import Py.

Notation "x <- c ;; k" := (Py.bind c (fun x => k))
  (at level 61, c at next level, right associativity).
Notation "c ;;; k" := (Py.bind c (fun _ => k))
  (at level 61, right associativity).

(* ================================================================== *)
(** ** The torch notions used by the source                            *)
(* ================================================================== *)

Module Torch.

Inductive DType : Type :=
| torch_bool
| torch_float16
| torch_float32
| torch_float64.

Definition dtype_eqb (a b : DType) : bool :=
  match a, b with
  | torch_bool, torch_bool
  | torch_float16, torch_float16
  | torch_float32, torch_float32
  | torch_float64, torch_float64 => true
  | _, _ => false
  end.

Definition is_floating_point (d : DType) : bool :=
  match d with torch_bool => false | _ => true end.

(** Result type of an operation on two tensors (type promotion). *)
Definition promote_types (a b : DType) : DType :=
  match a, b with
  | torch_float64, _ | _, torch_float64 => torch_float64
  | torch_float32, _ | _, torch_float32 => torch_float32
  | torch_float16, _ | _, torch_float16 => torch_float16
  | torch_bool, torch_bool => torch_bool
  end.

(** The values a tensor holds.  [of_Q] injects a literal, [nonzero] is the
    truth value of an entry, [round_to d] converts an entry to the floating
    type [d]. *)
Class Scalar (A : Type) : Type := {
  of_Q : Q -> A;
  nonzero : A -> bool;
  round_to : DType -> A -> A
}.

(** The arithmetic of a floating type [d] on entries. *)
Class FloatArith (A : Type) : Type := {
  fadd : DType -> A -> A -> A;
  fsub : DType -> A -> A -> A;
  fmul : DType -> A -> A -> A;
  frsqrt : DType -> A -> A
}.

Section Tensors.

Context {A : Type} {SA : Scalar A}.

(** A tensor: its dtype, its shape, and its entry at every index. *)
Record Tensor : Type := mkTensor {
  dtype : DType;
  shape : list nat;
  item : list nat -> A
}.

Definition numel (t : Tensor) : nat := fold_right Nat.mul 1 (shape t).

Definition of_bool (b : bool) : A := of_Q (if b then 1%Q else 0%Q).

(** [torch.ones(n)], [torch.zeros(n)] (default dtype). *)
Definition ones (n : nat) : Tensor :=
  mkTensor torch_float32 [n] (fun _ => of_Q 1%Q).

Definition zeros (n : nat) : Tensor :=
  mkTensor torch_float32 [n] (fun _ => of_Q 0%Q).

(** Conversion of an entry to dtype [d]. *)
Definition convert (d : DType) (v : A) : A :=
  match d with
  | torch_bool => of_bool (nonzero v)
  | _ => round_to d v
  end.

(** [t.to(d)]: the tensor itself when it already has dtype [d]. *)
Definition to (d : DType) (t : Tensor) : Tensor :=
  if dtype_eqb (dtype t) d then t
  else mkTensor d (shape t) (fun idx => convert d (item t idx)).

(** [t.float()] *)
Definition float (t : Tensor) : Tensor := to torch_float32 t.

(** [t[None]]: a new leading dimension of size 1. *)
Definition unsqueeze0 (t : Tensor) : Tensor :=
  mkTensor (dtype t) (1 :: shape t) (fun idx => item t (tl idx)).

(** [t[0]] *)
Definition select0 (t : Tensor) : result Tensor :=
  match shape t with
  | [] => Raise (IndexError "invalid index of a 0-dim tensor")
  | O :: _ => Raise (IndexError "index 0 is out of bounds for dimension 0 with size 0")
  | S _ :: rest => Ok (mkTensor (dtype t) rest (fun idx => item t (0 :: idx)))
  end.

(** Index in a dimension of size [in_size] read by nearest-neighbour
    resampling for position [dst] of a dimension of size [out_size]
    (torch evaluates the quotient [in_size / out_size] in floating point). *)
Definition nearest_src (in_size out_size dst : nat) : nat :=
  Nat.min (dst * in_size / out_size) (in_size - 1).

Fixpoint nearest_index (in_sizes out_sizes idx : list nat) : list nat :=
  match in_sizes, out_sizes, idx with
  | i :: in_sizes', o :: out_sizes', d :: idx' =>
      nearest_src i o d :: nearest_index in_sizes' out_sizes' idx'
  | _, _, _ => []
  end.

(** [F.interpolate(input, size=size)] and
    [F.interpolate(input, size=size, mode="nearest")]: nearest is the
    default mode.  The input has a batch and a channel dimension followed by
    one to three spatial ones, as many as [size] has entries; it is a
    floating tensor and none of the sizes involved is zero. *)
Definition interpolate (input : Tensor) (size : list nat) : result Tensor :=
  let spatial := skipn 2 (shape input) in
  if negb (Nat.eqb (length spatial) (length size)) then
    Raise (ValueError "Input and output must have the same number of spatial dimensions")
  else if negb (Nat.leb 1 (length spatial) && Nat.leb (length spatial) 3) then
    Raise (NotImplementedError "Input Error: Only 3D, 4D and 5D input Tensors supported")
  else if negb (is_floating_point (dtype input)) then
    Raise (RuntimeError "upsample_nearest not implemented for Bool")
  else if existsb (Nat.eqb 0) (tl (shape input)) || existsb (Nat.eqb 0) size then
    Raise (RuntimeError "Input and output sizes should be greater than 0")
  else
    Ok (mkTensor (dtype input) (firstn 2 (shape input) ++ size)
          (fun idx => item input (firstn 2 idx ++ nearest_index spatial size (skipn 2 idx)))).

(** Flat (row-major) position [k] as an index of a tensor of shape [s];
    the leading index takes what is left. *)
Fixpoint unravel_rev (rev_shape : list nat) (k : nat) : list nat :=
  match rev_shape with
  | [] => []
  | [_] => [k]
  | d :: rest => (k mod d) :: unravel_rev rest (k / d)
  end.

Definition unravel (s : list nat) (k : nat) : list nat := rev (unravel_rev (rev s) k).

(** [t.reshape(1, -1, 1, 1)] *)
Definition reshape_1_m1_1_1 (t : Tensor) : Tensor :=
  mkTensor (dtype t) [1; numel t; 1; 1]
    (fun idx => item t (unravel (shape t) (nth 1 idx 0))).

(** Broadcasting of two shapes, aligned at their last dimension. *)
Fixpoint broadcast_rev (r1 r2 : list nat) : option (list nat) :=
  match r1, r2 with
  | [], r => Some r
  | r, [] => Some r
  | a :: r1', b :: r2' =>
      match broadcast_rev r1' r2' with
      | None => None
      | Some r =>
          if Nat.eqb a b then Some (a :: r)
          else if Nat.eqb a 1 then Some (b :: r)
          else if Nat.eqb b 1 then Some (a :: r)
          else None
      end
  end.

Definition broadcast_shapes (s1 s2 : list nat) : option (list nat) :=
  option_map (@rev nat) (broadcast_rev (rev s1) (rev s2)).

(** The index of an operand of shape [s] that an index of the broadcast
    result reads: the last [length s] components, with 0 in the dimensions
    of size 1. *)
Definition broadcast_index (s idx : list nat) : list nat :=
  map (fun di => if Nat.eqb (fst di) 1 then 0 else snd di)
      (combine s (skipn (length idx - length s) idx)).

(** An entry-wise binary operation on two tensors. *)
Definition binary_op (f : DType -> A -> A -> A) (t1 t2 : Tensor) : result Tensor :=
  match broadcast_shapes (shape t1) (shape t2) with
  | None => Raise (RuntimeError "The size of tensor a must match the size of tensor b")
  | Some s =>
      let d := promote_types (dtype t1) (dtype t2) in
      Ok (mkTensor d s (fun idx =>
            f d (convert d (item t1 (broadcast_index (shape t1) idx)))
                (convert d (item t2 (broadcast_index (shape t2) idx)))))
  end.

(** An entry-wise operation of a tensor and a Python float. *)
Definition scalar_op (f : DType -> A -> A -> A) (t : Tensor) (c : Q) : Tensor :=
  let d := if is_floating_point (dtype t) then dtype t else torch_float32 in
  mkTensor d (shape t) (fun idx => f d (convert d (item t idx)) (round_to d (of_Q c))).

Definition unary_op (f : DType -> A -> A) (t : Tensor) : Tensor :=
  let d := if is_floating_point (dtype t) then dtype t else torch_float32 in
  mkTensor d (shape t) (fun idx => f d (convert d (item t idx))).

(** Modelled from the spec: [util.misc.NestedTensor] is not among the
    sources; it is the ImageBatch / FeatureMap of the data model, a dense
    tensor [tensors] travelling with its validity mask [mask], which the
    source allows to be [None]. *)
Record NestedTensor : Type := mkNestedTensor {
  tensors : Tensor;
  mask : option Tensor
}.

(** An [nn.Parameter] under the name [named_parameters] gives it. *)
Record NamedParameter : Type := mkNamedParameter {
  p_name : string;
  requires_grad : bool
}.

(** [parameter.requires_grad_(b)] *)
Definition requires_grad_ (p : NamedParameter) (b : bool) : NamedParameter :=
  mkNamedParameter (p_name p) b.

(** An encoder [nn.Module]: its direct children in registration order, each
    with its forward function, and its named parameters. *)
Record NNModule : Type := mkNNModule {
  named_children : list (string * (Tensor -> Tensor));
  named_parameters : list NamedParameter
}.

(** [torchvision.models._utils.IntermediateLayerGetter]. *)
Record IntermediateLayerGetter : Type := mkIntermediateLayerGetter {
  layers : list (string * (Tensor -> Tensor));
  return_layers : OrderedDict string
}.

(** The children kept by the getter: all up to the one that exhausts the
    requested names. *)
Fixpoint collect_layers (children : list (string * (Tensor -> Tensor)))
    (remaining : OrderedDict string) : list (string * (Tensor -> Tensor)) :=
  match children with
  | [] => []
  | (name, module) :: rest =>
      let remaining' := if od_mem remaining name then od_del remaining name else remaining in
      (name, module) ::
        match remaining' with
        | [] => []
        | _ :: _ => collect_layers rest remaining'
        end
  end.

Definition IntermediateLayerGetter_init (model : NNModule) (return_layers : OrderedDict string)
  : result IntermediateLayerGetter :=
  if forallb (fun k => list_in String.eqb k (map fst (named_children model)))
             (od_keys return_layers)
  then Ok (mkIntermediateLayerGetter
             (collect_layers (named_children model) return_layers) return_layers)
  else Raise (ValueError "return_layers are not present in model").

Fixpoint IntermediateLayerGetter_loop (ls : list (string * (Tensor -> Tensor)))
    (return_layers : OrderedDict string) (x : Tensor) (out : OrderedDict Tensor)
  : OrderedDict Tensor :=
  match ls with
  | [] => out
  | (name, module) :: rest =>
      let x := module x in
      let out := match od_get return_layers name with
                 | Some out_name => od_set out out_name x
                 | None => out
                 end in
      IntermediateLayerGetter_loop rest return_layers x out
  end.

Definition IntermediateLayerGetter_forward (self : IntermediateLayerGetter) (x : Tensor)
  : OrderedDict Tensor :=
  IntermediateLayerGetter_loop (layers self) (return_layers self) x [].

End Tensors.

Arguments Tensor A : clear implicits.
Arguments NestedTensor A : clear implicits.
Arguments NNModule A : clear implicits.
Arguments IntermediateLayerGetter A : clear implicits.

End Torch.

Import Torch.

(* ================================================================== *)
(** ** Configuration and construction effects                          *)
(* ================================================================== *)

(** The fields of [args] that [build_backbone] reads. *)
Module Args.
Record t : Type := mk {
  backbone : string;
  lr_backbone : Q;
  return_interm_indices : list Z;
  dilation : bool;
  backbone_freeze_keywords : option (list string);
  use_checkpoint : option bool;
  img_size : Z;
  patch_size : Z;
  embed_dim : Z;
  depth : Z;
  num_heads : Z;
  drop_path_rate : Q;
  mlp_ratio : Q;
  qkv_bias : bool;
  pretrained : option string;
  out_indices : list Z;
  frozen_stages : Z
}.
End Args.

(** The keyword arguments [build_backbone] passes to
    [SSLVisionTransformer]. *)
Module VitKwargs.
Record t : Type := mk {
  img_size : Z;
  patch_size : Z;
  embed_dim : Z;
  depth : Z;
  num_heads : Z;
  drop_path_rate : Q;
  mlp_ratio : Q;
  qkv_bias : bool;
  pretrained : option string;
  out_indices : list Z;
  frozen_stages : Z;
  init_cfg : string * string
}.
End VitKwargs.

(** The constructors of other modules that the source calls, in the order
    in which a run calls them. *)
Inductive Event : Type :=
| Call_build_position_encoding
| Call_torchvision_models (name : string) (replace_stride_with_dilation : list bool)
    (pretrained : bool)
| Call_SSLVisionTransformer (kwargs : VitKwargs.t).

Definition constructs_encoder (ev : Event) : bool :=
  match ev with
  | Call_build_position_encoding => false
  | Call_torchvision_models _ _ _ => true
  | Call_SSLVisionTransformer _ => true
  end.

(** Construction code: it returns or raises, and extends the trace of the
    constructor calls made so far. *)
Definition M (T : Type) : Type := list Event -> result T * list Event.

Definition ret {T : Type} (v : T) : M T := fun log => (Ok v, log).

Definition raise {T : Type} (e : exn) : M T := fun log => (Raise e, log).

Definition lift {T : Type} (r : result T) : M T := fun log => (r, log).

Definition call {T : Type} (ev : Event) (r : result T) : M T :=
  fun log => (r, log ++ [ev]).

Definition bindM {T U : Type} (c : M T) (k : T -> M U) : M U :=
  fun log =>
    match c log with
    | (Ok v, log') => k v log'
    | (Raise e, log') => (Raise e, log')
    end.

Notation "x <~ c ;; k" := (bindM c (fun x => k))
  (at level 61, c at next level, right associativity).

(** A run from the empty trace. *)
Definition run {T : Type} (c : M T) : result T * list Event := c [].

Definition Qltb (x y : Q) : bool := negb (Qle_bool y x).

(* ================================================================== *)
(** ** models/dqdetr/backbone.py                                       *)
(* ================================================================== *)

Section Backbone_py.

Context {A : Type} {SA : Scalar A}.

(** *** class FrozenBatchNorm2d *)

Record FrozenBatchNorm2d : Type := mkFrozenBatchNorm2d {
  weight : Tensor A;
  bias : Tensor A;
  running_mean : Tensor A;
  running_var : Tensor A
}.

(** [FrozenBatchNorm2d.__init__]: the four buffers. *)
Definition FrozenBatchNorm2d_init (n : nat) : FrozenBatchNorm2d :=
  mkFrozenBatchNorm2d (ones n) (zeros n) (zeros n) (ones n).

(** [FrozenBatchNorm2d.forward] *)
Definition FrozenBatchNorm2d_forward {FA : FloatArith A}
    (self : FrozenBatchNorm2d) (x : Tensor A) : result (Tensor A) :=
  let w := reshape_1_m1_1_1 (weight self) in
  let b := reshape_1_m1_1_1 (bias self) in
  let rv := reshape_1_m1_1_1 (running_var self) in
  let rm := reshape_1_m1_1_1 (running_mean self) in
  let eps := (1 # 100000)%Q in
  scale <- binary_op fmul w (unary_op frsqrt (scalar_op fadd rv eps)) ;;
  rm_scale <- binary_op fmul rm scale ;;
  bias <- binary_op fsub b rm_scale ;;
  x_scale <- binary_op fmul x scale ;;
  binary_op fadd x_scale bias.

(** The type of the [norm_layer] argument of the torchvision encoders: a
    module class, called with a channel count. *)
Definition NormLayer : Type := nat -> Tensor A -> result (Tensor A).

(** The class [FrozenBatchNorm2d] as a [norm_layer]. *)
Definition FrozenBatchNorm2d_class {FA : FloatArith A} : NormLayer :=
  fun n => FrozenBatchNorm2d_forward (FrozenBatchNorm2d_init n).

(** *** class BackboneBase *)

Record BackboneBase : Type := mkBackboneBase {
  wrapped : NNModule A;   (* the encoder given to [__init__], after freezing *)
  body : IntermediateLayerGetter A;
  num_channels : list Z
}.

(** The loop over [backbone.named_parameters()] of [__init__], for one
    parameter. *)
Definition freeze (train_backbone : bool) (parameter : NamedParameter) : NamedParameter :=
  let name := p_name parameter in
  if negb train_backbone
     || (negb (str_in "layer2" name) && negb (str_in "layer3" name)
         && negb (str_in "layer4" name))
  then requires_grad_ parameter false
  else parameter.

(** The [return_layers] dictionary built by [__init__]. *)
Definition make_return_layers (return_interm_indices : list Z) : OrderedDict string :=
  fold_left
    (fun return_layers (il : nat * Z) =>
       let (idx, layer_index) := il in
       od_set return_layers
         ("layer" ++ str_of_Z (5 - Z.of_nat (length return_interm_indices) + Z.of_nat idx)%Z)
         (str_of_Z layer_index))
    (combine (seq 0 (length return_interm_indices)) return_interm_indices)
    [].

(** [BackboneBase.__init__].  The parameters of [backbone] are frozen in
    place before the layer getter is built, so the encoder as the call
    leaves it is returned next to the outcome. *)
Definition BackboneBase_init (backbone : NNModule A) (train_backbone : bool)
    (num_channels : list Z) (return_interm_indices : list Z)
  : NNModule A * result BackboneBase :=
  let backbone :=
    mkNNModule (named_children backbone)
             (map (freeze train_backbone) (named_parameters backbone)) in
  let return_layers := make_return_layers return_interm_indices in
  (backbone,
   body <- IntermediateLayerGetter_init backbone return_layers ;;
   Ok (mkBackboneBase backbone body num_channels)).

(** The loop of [BackboneBase.forward] over [xs.items()]. *)
Fixpoint BackboneBase_forward_loop (tensor_list : NestedTensor A)
    (xs : OrderedDict (Tensor A)) (out : OrderedDict (NestedTensor A))
  : result (OrderedDict (NestedTensor A)) :=
  match xs with
  | [] => Ok out
  | (name, x) :: rest =>
      match mask tensor_list with
      | None => Raise (AssertionError "")
      | Some m =>
          r <- interpolate (float (unsqueeze0 m)) (slice_from (-2) (shape x)) ;;
          mask <- select0 (to torch_bool r) ;;
          BackboneBase_forward_loop tensor_list rest
            (od_set out name (mkNestedTensor x (Some mask)))
      end
  end.

(** [BackboneBase.forward] *)
Definition BackboneBase_forward (self : BackboneBase) (tensor_list : NestedTensor A)
  : result (OrderedDict (NestedTensor A)) :=
  let xs := IntermediateLayerGetter_forward (body self) (tensors tensor_list) in
  BackboneBase_forward_loop tensor_list xs [].

(** *** class Backbone(BackboneBase) *)

(** [torchvision.models.<name>(replace_stride_with_dilation=..,
    pretrained=.., norm_layer=..)], which returns an encoder or raises, and
    the value of [util.misc.is_main_process()] during the call. *)
Variable torchvision_models :
  string -> list bool -> bool -> NormLayer -> result (NNModule A).
Variable is_main_process : bool.

Definition legal_return_interm_indices : list (list Z) :=
  [[0; 1; 2; 3]; [1; 2; 3]; [3]]%Z.

(** [Backbone.__init__] *)
Definition Backbone_init (name : string) (train_backbone : bool) (dilation : bool)
    (return_interm_indices : list Z) (batch_norm : NormLayer) : M BackboneBase :=
  backbone <~
    (if list_in String.eqb name ["resnet18"; "resnet34"; "resnet50"; "resnet101"]
     then call (Call_torchvision_models name [false; false; dilation] is_main_process)
               (torchvision_models name [false; false; dilation] is_main_process batch_norm)
     else raise (NotImplementedError ("Why you can get here with name " ++ name))) ;;
  _ <~ lift (assert (negb (list_in String.eqb name ["resnet18"; "resnet34"]))
                    "Only resnet50 and resnet101 are available.") ;;
  _ <~ lift (assert (list_in (list_eqb Z.eqb) return_interm_indices
                             legal_return_interm_indices) "") ;;
  let num_channels_all := [256; 512; 1024; 2048]%Z in
  let num_channels :=
    slice_from (4 - Z.of_nat (length return_interm_indices))%Z num_channels_all in
  lift (snd (BackboneBase_init backbone train_backbone num_channels return_interm_indices)).

(** *** class VitBackboneAdapter *)

(** Modelled from the spec: [SSLVisionTransformer] is not among the
    sources; called on an image batch it returns an ordered sequence of
    feature tensors of shape (B, C_i, H_i, W_i). *)
Record SSLVisionTransformer : Type := mkSSLVisionTransformer {
  vit_forward : Tensor A -> list (Tensor A)
}.

Record VitBackboneAdapter : Type := mkVitBackboneAdapter {
  vit : SSLVisionTransformer;
  out_indices : list Z;
  patch_size : Z * Z
}.

(** [VitBackboneAdapter.__init__] *)
Definition VitBackboneAdapter_init (vit : SSLVisionTransformer) (out_indices : list Z)
    (patch_size : Z * Z) : VitBackboneAdapter :=
  mkVitBackboneAdapter vit out_indices patch_size.

(** The loop of [VitBackboneAdapter.forward] over
    [zip(self.out_indices, feats)]. *)
Fixpoint VitBackboneAdapter_forward_loop (mask : option (Tensor A))
    (pairs : list (Z * Tensor A)) (out : OrderedDict (NestedTensor A))
  : result (OrderedDict (NestedTensor A)) :=
  match pairs with
  | [] => Ok out
  | (idx, feat) :: rest =>
      match shape feat with
      | [_; C; H; W] =>
          m1 <- match mask with
                | None => Raise (TypeError "'NoneType' object is not subscriptable")
                | Some mask => Ok (unsqueeze0 mask)
                end ;;
          r <- interpolate (float m1) [H; W] ;;
          r0 <- select0 r ;;
          let m := to torch_bool r0 in
          VitBackboneAdapter_forward_loop mask rest
            (od_set out ("stage" ++ str_of_Z idx) (mkNestedTensor feat (Some m)))
      | _ => Raise (ValueError "wrong number of values to unpack (expected 4)")
      end
  end.

(** [VitBackboneAdapter.forward] *)
Definition VitBackboneAdapter_forward (self : VitBackboneAdapter)
    (tensor_list : NestedTensor A) : result (OrderedDict (NestedTensor A)) :=
  let x := tensors tensor_list in
  let mask := mask tensor_list in
  let feats := vit_forward (vit self) x in
  VitBackboneAdapter_forward_loop mask (combine (out_indices self) feats) [].

(** *** class Joiner(nn.Sequential) *)

(** The two families of backbones a [Joiner] is built over. *)
Inductive BackboneModule : Type :=
| ConvBackbone (b : BackboneBase)
| VitBackbone (v : VitBackboneAdapter).

Definition backbone_forward (backbone : BackboneModule) (tensor_list : NestedTensor A)
  : result (OrderedDict (NestedTensor A)) :=
  match backbone with
  | ConvBackbone b => BackboneBase_forward b tensor_list
  | VitBackbone v => VitBackboneAdapter_forward v tensor_list
  end.

(** Modelled from the spec: the position-encoding generator built by
    [position_encoding.build_position_encoding], which is not among the
    sources; a function from a feature map with its mask to an encoding
    tensor. *)
Definition PositionEmbedding : Type := NestedTensor A -> Tensor A.

Record Joiner : Type := mkJoiner {
  joiner_backbone : BackboneModule;            (* self[0] *)
  joiner_position_embedding : PositionEmbedding;  (* self[1] *)
  joiner_num_channels : option (list Z)        (* attribute set by the factory *)
}.

(** [Joiner.__init__] *)
Definition Joiner_init (backbone : BackboneModule) (position_embedding : PositionEmbedding)
  : Joiner :=
  mkJoiner backbone position_embedding None.

(** The loop of [Joiner.forward] over [xs.items()]. *)
Fixpoint Joiner_forward_loop (self : Joiner) (xs : OrderedDict (NestedTensor A))
    (out : list (NestedTensor A)) (pos : list (Tensor A))
  : list (NestedTensor A) * list (Tensor A) :=
  match xs with
  | [] => (out, pos)
  | (name, x) :: rest =>
      let out := out ++ [x] in
      let pos := pos ++ [to (dtype (tensors x)) (joiner_position_embedding self x)] in
      Joiner_forward_loop self rest out pos
  end.

(** [Joiner.forward] *)
Definition Joiner_forward (self : Joiner) (tensor_list : NestedTensor A)
  : result (list (NestedTensor A) * list (Tensor A)) :=
  xs <- backbone_forward (joiner_backbone self) tensor_list ;;
  Ok (Joiner_forward_loop self xs [] []).

(** *** def build_backbone(args) *)

Context {FA : FloatArith A}.

(** [position_encoding.build_position_encoding(args)] and the constructor
    [SSLVisionTransformer] called with keyword arguments; neither is among the sources:
    each returns its module or raises. *)
Variable build_position_encoding : Args.t -> result PositionEmbedding.
Variable SSLVisionTransformer_init : VitKwargs.t -> result SSLVisionTransformer.

(** The locals of [build_backbone] that are read after the branches; a
    local is unbound until a statement that assigns it has run. *)
Record Locals : Type := mkLocals {
  l_position_embedding : option PositionEmbedding;
  l_backbone : option BackboneModule;
  l_bb_num_channels : option (list Z);
  l_num_channels : option (list Z)
}.

Definition checkpoint_path : string :=
  "/Volumes/Macintosh HD/Users/work/Documents/GitHub/HighResCanopyHeight-main/saved_checkpoints/SSLhuge_satellite.pth".

(** The keyword arguments of the call of [SSLVisionTransformer]. *)
Definition SSLVisionTransformer_kwargs (args : Args.t) : VitKwargs.t :=
  VitKwargs.mk (Args.img_size args) (Args.patch_size args) (Args.embed_dim args)
    (Args.depth args) (Args.num_heads args) (Args.drop_path_rate args)
    (Args.mlp_ratio args) (Args.qkv_bias args) (Args.pretrained args)
    (Args.out_indices args) (Args.frozen_stages args)
    ("Pretrained", checkpoint_path).

(** The [if] / [elif] / [else] statement of [build_backbone]. *)
Definition build_backbone_branches (args : Args.t) : M Locals :=
  if list_in String.eqb (Args.backbone args) ["resnet50"; "resnet101"] then
    position_embedding <~
      call Call_build_position_encoding (build_position_encoding args) ;;
    let train_backbone := Qltb 0 (Args.lr_backbone args) in
    if negb train_backbone then raise (ValueError "Please set lr_backbone > 0")
    else
      let return_interm_indices := Args.return_interm_indices args in
      _ <~ lift (assert (list_in (list_eqb Z.eqb) return_interm_indices
                                 legal_return_interm_indices) "") ;;
      let backbone_freeze_keywords := Args.backbone_freeze_keywords args in
      let use_checkpoint :=
        match Args.use_checkpoint args with Some b => b | None => false end in
      backbone <~
        (if list_in String.eqb (Args.backbone args) ["resnet50"; "resnet101"]
         then Backbone_init (Args.backbone args) train_backbone (Args.dilation args)
                return_interm_indices FrozenBatchNorm2d_class
         else raise (NotImplementedError ("Unknown backbone " ++ Args.backbone args))) ;;
      let bb_num_channels := num_channels backbone in
      _ <~ lift (assert (Nat.eqb (length bb_num_channels) (length return_interm_indices))
                   ("len(bb_num_channels) " ++ str_of_nat (length bb_num_channels)
                    ++ " != len(return_interm_indices) "
                    ++ str_of_nat (length return_interm_indices))) ;;
      ret (mkLocals (Some position_embedding) (Some (ConvBackbone backbone))
                    (Some bb_num_channels) None)
  else if list_in String.eqb (Args.backbone args) ["SSLVisionTransformer"; "ssl_vit"] then
    let kwargs := SSLVisionTransformer_kwargs args in
    vit <~ call (Call_SSLVisionTransformer kwargs) (SSLVisionTransformer_init kwargs) ;;
    let backbone :=
      VitBackboneAdapter_init vit (Args.out_indices args)
        (Args.patch_size args, Args.patch_size args) in
    let num_channels := [320; 640; Args.embed_dim args; Args.embed_dim args]%Z in
    ret (mkLocals None (Some (VitBackbone backbone)) None (Some num_channels))
  else raise (NotImplementedError ("Unknown backbone " ++ Args.backbone args)).

(** [build_backbone]: the branches, then the statements that follow them.
    [num_channels] is a list in this embedding, so the final [isinstance]
    assertion holds whenever it is reached. *)
Definition build_backbone (args : Args.t) : M Joiner :=
  locals <~ build_backbone_branches args ;;
  backbone <~ lift (load_fast "backbone" (l_backbone locals)) ;;
  position_embedding <~
    lift (load_fast "position_embedding" (l_position_embedding locals)) ;;
  let model := Joiner_init backbone position_embedding in
  num_channels <~ lift (load_fast "num_channels" (l_num_channels locals)) ;;
  let model :=
    mkJoiner (joiner_backbone model) (joiner_position_embedding model)
             (Some num_channels) in
  ret model.

End Backbone_py.

Arguments FrozenBatchNorm2d A : clear implicits.
Arguments NormLayer A : clear implicits.
Arguments BackboneBase A : clear implicits.
Arguments SSLVisionTransformer A : clear implicits.
Arguments VitBackboneAdapter A : clear implicits.
Arguments BackboneModule A : clear implicits.
Arguments PositionEmbedding A : clear implicits.
Arguments Joiner A : clear implicits.
Arguments Locals A : clear implicits.

(* ================================================================== *)
(** ** FrozenBatchNorm2d: restoring persisted state                    *)
(* ================================================================== *)

(** [s[n:]] for a string. *)
Definition str_drop (n : nat) (s : string) : string :=
  String.substring n (String.length s - n) s.

(** [s.split(".", 1)]: the part before the first dot, and whether there is
    a dot at all. *)
Fixpoint split_dot (s : string) : string * bool :=
  match s with
  | EmptyString => (EmptyString, false)
  | String c s' =>
      if Ascii.eqb c "."%char then (EmptyString, true)
      else let (h, dotted) := split_dot s' in (String c h, dotted)
  end.

(** An entry of [error_msgs]: "size mismatch for key: copying a param with
    shape .. from checkpoint, the shape in current model is ..". *)
Inductive LoadError : Type :=
| size_mismatch (key : string) (checkpoint_shape model_shape : list nat).

Section Load_state.

Context {A : Type} {SA : Scalar A}.

(** The arguments of [_load_from_state_dict] that a call updates in place:
    the state dict and the three lists of findings. *)
Record LoadState : Type := mkLoadState {
  state_dict : OrderedDict (Tensor A);
  missing_keys : list string;
  unexpected_keys : list string;
  error_msgs : list LoadError
}.

(** [param.copy_(input_param)] for an input of the shape of [param]: the
    entries of the input in the dtype of [param]. *)
Definition copy_ (param input_param : Tensor A) : Tensor A :=
  mkTensor (dtype param) (shape param) (item (to (dtype param) input_param)).

(** The body of the loop of [nn.Module._load_from_state_dict] over the
    parameters and persistent buffers, for the one called [name]. *)
Definition load_param (prefix : string) (strict : bool) (name : string)
    (param : Tensor A) (st : LoadState) : result (Tensor A * LoadState) :=
  let key := (prefix ++ name)%string in
  match od_get (state_dict st) key with
  | Some input_param =>
      input_param <-
        (if Nat.eqb (length (shape param)) 0 && Nat.eqb (length (shape input_param)) 1
         then select0 input_param else Ok input_param) ;;
      if negb (list_eqb Nat.eqb (shape input_param) (shape param)) then
        Ok (param,
            mkLoadState (state_dict st) (missing_keys st) (unexpected_keys st)
              (error_msgs st ++ [size_mismatch key (shape input_param) (shape param)]))
      else Ok (copy_ param input_param, st)
  | None =>
      if strict then
        Ok (param,
            mkLoadState (state_dict st) (missing_keys st ++ [key]) (unexpected_keys st)
              (error_msgs st))
      else Ok (param, st)
  end.

Fixpoint load_local_state (prefix : string) (strict : bool)
    (local_state : list (string * Tensor A)) (st : LoadState)
  : result (list (string * Tensor A) * LoadState) :=
  match local_state with
  | [] => Ok ([], st)
  | (name, param) :: rest =>
      r <- load_param prefix strict name param st ;;
      rs <- load_local_state prefix strict rest (snd r) ;;
      Ok ((name, fst r) :: fst rs, snd rs)
  end.

(** Whether the strict check of [nn.Module._load_from_state_dict] reports
    [key] as unexpected: it starts with the prefix, is not the extra-state
    key, and what follows the prefix names neither a submodule (when it has
    a dot) nor a parameter or buffer (when it has none). *)
Definition is_unexpected (prefix : string) (modules local_names : list string)
    (key : string) : bool :=
  String.prefix prefix key
  && negb (String.eqb key (prefix ++ "_extra_state"))
  && (let (input_name, dotted) := split_dot (str_drop (String.length prefix) key) in
      if dotted then negb (list_in String.eqb input_name modules)
      else negb (list_in String.eqb input_name local_names)).

(** [nn.Module._load_from_state_dict] for a module with the parameters and
    persistent buffers [local_state], the submodules [modules], no load
    hooks and no extra state: the new values of [local_state] and the
    updated arguments. *)
Definition Module_load_from_state_dict (local_state : list (string * Tensor A))
    (modules : list string) (st : LoadState) (prefix : string) (strict : bool)
  : result (list (string * Tensor A) * LoadState) :=
  r <- load_local_state prefix strict local_state st ;;
  let st := snd r in
  let extra_state_key := (prefix ++ "_extra_state")%string in
  let st :=
    if strict && od_mem (state_dict st) extra_state_key then
      mkLoadState (state_dict st) (missing_keys st)
        (unexpected_keys st ++ [extra_state_key]) (error_msgs st)
    else st in
  let st :=
    if strict then
      mkLoadState (state_dict st) (missing_keys st)
        (unexpected_keys st
         ++ filter (is_unexpected prefix modules (map fst local_state))
                   (od_keys (state_dict st)))
        (error_msgs st)
    else st in
  Ok (fst r, st).

(** The four buffers in the order [__init__] registers them. *)
Definition FrozenBatchNorm2d_buffers (self : FrozenBatchNorm2d A) : list (string * Tensor A) :=
  [("weight", weight self); ("bias", bias self);
   ("running_mean", running_mean self); ("running_var", running_var self)].

Definition FrozenBatchNorm2d_set_buffers (self : FrozenBatchNorm2d A)
    (buffers : list (string * Tensor A)) : FrozenBatchNorm2d A :=
  let get name old := match od_get buffers name with Some t => t | None => old end in
  mkFrozenBatchNorm2d (get "weight" (weight self)) (get "bias" (bias self))
    (get "running_mean" (running_mean self)) (get "running_var" (running_var self)).

(** [FrozenBatchNorm2d._load_from_state_dict]: the module and the arguments
    as the call leaves them. *)
Definition FrozenBatchNorm2d_load_from_state_dict (self : FrozenBatchNorm2d A)
    (st : LoadState) (prefix : string) (strict : bool)
  : result (FrozenBatchNorm2d A * LoadState) :=
  let num_batches_tracked_key := (prefix ++ "num_batches_tracked")%string in
  let st :=
    if od_mem (state_dict st) num_batches_tracked_key then
      mkLoadState (od_del (state_dict st) num_batches_tracked_key)
        (missing_keys st) (unexpected_keys st) (error_msgs st)
    else st in
  r <- Module_load_from_state_dict (FrozenBatchNorm2d_buffers self) [] st prefix strict ;;
  Ok (FrozenBatchNorm2d_set_buffers self (fst r), snd r).

End Load_state.

Arguments LoadState A : clear implicits.

(* ================================================================== *)
(** ** Entries: exact values                                           *)
(* ================================================================== *)

(** Real entries, with the arithmetic of every floating type taken exact. *)
#[export] Instance Scalar_R : Scalar R := {|
  of_Q := Q2R;
  nonzero := fun v => if Req_dec_T v 0%R then false else true;
  round_to := fun _ v => v
|}.

#[export] Instance FloatArith_R : FloatArith R := {|
  fadd := fun _ => Rplus;
  fsub := fun _ => Rminus;
  fmul := fun _ => Rmult;
  frsqrt := fun _ v => (/ sqrt v)%R
|}.

(** Rational entries, for masks and for running the wrappers. *)
#[export] Instance Scalar_Q : Scalar Q := {|
  of_Q := fun q => q;
  nonzero := fun v => negb (Qeq_bool v 0%Q);
  round_to := fun _ v => v
|}.

(* ================================================================== *)
(** ** Vocabulary of the statements                                    *)
(* ================================================================== *)

(** [sub] occurs in [s]. *)
Definition occurs_in (sub s : string) : Prop :=
  exists pre post : string, s = (pre ++ sub ++ post)%string.

(** The name of a parameter of one of the stages eligible for
    fine-tuning. *)
Definition later_stage (name : string) : Prop :=
  occurs_in "layer2" name \/ occurs_in "layer3" name \/ occurs_in "layer4" name.

(** The keys of a dictionary after an assignment to key [k], and after
    assignments to the keys [l] in turn, starting from the empty one: the
    distinct keys in the order of their first assignment. *)
Definition add_key (ks : list string) (k : string) : list string :=
  if list_in String.eqb k ks then ks else ks ++ [k].

Definition distinct_keys (l : list string) : list string := fold_left add_key l [].

(** The key under which [VitBackboneAdapter.forward] files index [idx]. *)
Definition stage_key (idx : Z) : string := "stage" ++ str_of_Z idx.

Definition is_assertion_error (e : exn) : bool :=
  match e with AssertionError _ => true | _ => false end.

(** The trace [log'] extends [log] with calls that construct no encoder. *)
Definition no_encoder_since (log log' : list Event) : Prop :=
  exists new, log' = log ++ new /\ existsb constructs_encoder new = false.

Section Statements.

Context {A : Type} {SA : Scalar A}.

(** A feature tensor with at least two dimensions, the last two positive. *)
Definition has_spatial (x : Tensor A) : Prop :=
  exists pre H W, shape x = pre ++ [H; W] /\ 0 < H /\ 0 < W.

(** A feature tensor of shape (B, C, H, W) with positive height and width. *)
Definition is_feature_4d (x : Tensor A) : Prop :=
  exists B C H W, shape x = [B; C; H; W] /\ 0 < H /\ 0 < W.

(** A mask of shape (B, H, W), none of them zero. *)
Definition is_mask_3d (m : Tensor A) : Prop :=
  exists B H W, shape m = [B; H; W] /\ 0 < B /\ 0 < H /\ 0 < W.

(** The mask of a FeatureMap: present, of dtype bool with every entry a
    truth value, three-dimensional, and of the spatial shape of the feature
    tensor it is paired with. *)
Definition mask_matches (ft : NestedTensor A) : Prop :=
  exists m, mask ft = Some m /\ dtype m = torch_bool /\
            (forall idx, exists b : bool, item m idx = of_bool b) /\
            length (shape m) = 3 /\
            slice_from (-2) (shape m) = slice_from (-2) (shape (tensors ft)).

(** The encoder has the four residual stages as children. *)
Definition has_resnet_stages (enc : NNModule A) : Prop :=
  forall s, In s ["layer1"; "layer2"; "layer3"; "layer4"] ->
            In s (map fst (named_children enc)).

End Statements.

(* ================================================================== *)
(** ** Concrete inputs                                                 *)
(* ================================================================== *)

Section Samples.

Context {A : Type} {SA : Scalar A}.

(** A stage that maps (B, _, H, W) to (B, channels, ceil(H/stride),
    ceil(W/stride)) by subsampling channel 0. *)
Definition sample_stage (channels stride : nat) (x : Tensor A) : Tensor A :=
  match shape x with
  | [b; _; h; w] =>
      mkTensor (dtype x)
        [b; channels; (h + stride - 1) / stride; (w + stride - 1) / stride]
        (fun idx => match idx with
                    | [n; _; i; j] => item x [n; 0; i * stride; j * stride]
                    | _ => item x idx
                    end)
  | _ => x
  end.

(** An encoder with the children and strides of a torchvision ResNet-50. *)
Definition sample_resnet : NNModule A :=
  mkNNModule
    [("conv1", sample_stage 64 2); ("bn1", fun x => x); ("relu", fun x => x);
     ("maxpool", sample_stage 64 2); ("layer1", sample_stage 256 1);
     ("layer2", sample_stage 512 2); ("layer3", sample_stage 1024 2);
     ("layer4", sample_stage 2048 2); ("avgpool", fun x => x); ("fc", fun x => x)]
    [mkNamedParameter "conv1.weight" true;
     mkNamedParameter "layer1.0.conv1.weight" true;
     mkNamedParameter "layer2.0.conv1.weight" true;
     mkNamedParameter "layer3.0.conv1.weight" true;
     mkNamedParameter "layer4.0.conv1.weight" true;
     mkNamedParameter "fc.weight" true;
     mkNamedParameter "fc.bias" true].

Definition sample_torchvision_models (name : string) (_ : list bool) (_ : bool)
    (_ : NormLayer A) : result (NNModule A) :=
  Ok sample_resnet.

(** An image batch of shape (2, 3, 64, 96) with an all-true mask. *)
Definition sample_image : Tensor A :=
  mkTensor torch_float32 [2; 3; 64; 96] (fun _ => of_Q 0%Q).

Definition sample_mask : Tensor A :=
  mkTensor torch_bool [2; 64; 96] (fun _ => of_bool true).

Definition sample_batch : NestedTensor A := mkNestedTensor sample_image (Some sample_mask).

Definition sample_batch_no_mask : NestedTensor A := mkNestedTensor sample_image None.

(** A batch of shape (2, 3, 800, 1200) whose mask is true except on the 50
    rightmost columns of the second image. *)
Definition scenario_batch : NestedTensor A :=
  mkNestedTensor
    (mkTensor torch_float32 [2; 3; 800; 1200] (fun _ => of_Q 0%Q))
    (Some (mkTensor torch_bool [2; 800; 1200]
             (fun idx => match idx with
                         | [b; _; j] => of_bool (negb (Nat.eqb b 1 && Nat.leb 1150 j))
                         | _ => of_bool true
                         end))).

(** A transformer encoder that returns two feature tensors. *)
Definition sample_vit : SSLVisionTransformer A :=
  mkSSLVisionTransformer
    (fun x => [sample_stage 320 4 x; sample_stage 640 8 x]).

(** A position-encoding generator: an encoding of the shape of the feature
    tensor, in double precision before the cast of the joiner. *)
Definition sample_position_embedding : PositionEmbedding A :=
  fun x => mkTensor torch_float64 (shape (tensors x)) (fun _ => of_Q 0%Q).

(** For each feature map that the wrapper over [enc] returns: its key, the
    shape of its tensor, and the shape of its mask with the mask entries of
    the second image at the left and right ends of the first row. *)
Definition scenario_summary (enc : NNModule A) (return_interm_indices : list Z)
    (tensor_list : NestedTensor A)
  : result (list (string * list nat * option (list nat * A * A))) :=
  bb <- snd (BackboneBase_init enc true [] return_interm_indices) ;;
  out <- BackboneBase_forward bb tensor_list ;;
  Ok (map (fun kf : string * NestedTensor A =>
             (fst kf, shape (tensors (snd kf)),
              option_map
                (fun m => (shape m, item m [1; 0; 0], item m [1; 0; nth 2 (shape m) 1 - 1]))
                (mask (snd kf))))
          out).

Definition sample_build_position_encoding (_ : Args.t) : result (PositionEmbedding A) :=
  Ok sample_position_embedding.

Definition sample_SSLVisionTransformer_init (_ : VitKwargs.t)
  : result (SSLVisionTransformer A) :=
  Ok sample_vit.

Definition sample_adapter (out_indices : list Z) : VitBackboneAdapter A :=
  VitBackboneAdapter_init sample_vit out_indices (16, 16)%Z.

Definition sample_joiner : Joiner A :=
  Joiner_init (VitBackbone (sample_adapter [4; 11]%Z)) sample_position_embedding.

(** Buffers of a batch norm over three channels. *)
Definition sample_norm : FrozenBatchNorm2d A :=
  mkFrozenBatchNorm2d
    (mkTensor torch_float32 [3] (fun _ => of_Q 2%Q))
    (mkTensor torch_float32 [3] (fun _ => of_Q 1%Q))
    (mkTensor torch_float32 [3] (fun _ => of_Q 0%Q))
    (mkTensor torch_float32 [3] (fun _ => of_Q 4%Q)).

Definition sample_args (backbone : string) (lr_backbone : Q)
    (return_interm_indices out_indices : list Z) : Args.t :=
  Args.mk backbone lr_backbone return_interm_indices false None None
          224 16 1280 32 16 0%Q 4%Q true None out_indices 100.

End Samples.

(* ================================================================== *)
(** ** Vocabulary and inputs for further properties                    *)
(* ================================================================== *)

(** The names of the children of a torchvision ResNet, in order. *)
Definition resnet_child_names : list string :=
  ["conv1"; "bn1"; "relu"; "maxpool"; "layer1"; "layer2"; "layer3"; "layer4";
   "avgpool"; "fc"].

(** The child that [BackboneBase.__init__] reads for position [idx] of a
    selection of [n] stages. *)
Definition tapped_layer (n idx : nat) : string :=
  "layer" ++ str_of_Z (5 - Z.of_nat n + Z.of_nat idx)%Z.

(** The names under which a [BatchNorm2d] persists its state. *)
Definition batch_norm_state_names : list string :=
  ["weight"; "bias"; "running_mean"; "running_var"; "num_batches_tracked"].

Section More_samples.

Context {A : Type} {SA : Scalar A}.

(** The modules [fs] run one after the other on [x]. *)
Definition run_children (fs : list (Tensor A -> Tensor A)) (x : Tensor A) : Tensor A :=
  fold_left (fun x f => f x) fs x.



(** Assignments [out[k] = v] for the entries of a list, in turn. *)
Definition assign_all {V : Type} (entries : list (string * V)) (out : OrderedDict V)
  : OrderedDict V :=
  fold_left (fun out kv => od_set out (fst kv) (snd kv)) entries out.

(** The state dict of a [BatchNorm2d] over three channels under the prefix
    "bn1.": the four statistics and the batch counter. *)
Definition sample_state_dict : OrderedDict (Tensor A) :=
  [("bn1.weight", mkTensor torch_float32 [3] (fun _ => of_Q 2%Q));
   ("bn1.bias", mkTensor torch_float32 [3] (fun _ => of_Q 1%Q));
   ("bn1.running_mean", mkTensor torch_float32 [3] (fun _ => of_Q 0%Q));
   ("bn1.running_var", mkTensor torch_float32 [3] (fun _ => of_Q 4%Q));
   ("bn1.num_batches_tracked", mkTensor torch_float32 [] (fun _ => of_Q 7%Q))].

(** Every buffer has at least one dimension, as the buffers [__init__]
    registers have. *)
Definition buffers_registered (self : FrozenBatchNorm2d A) : Prop :=
  Forall (fun kv : string * Tensor A => shape (snd kv) <> [])
         (FrozenBatchNorm2d_buffers self).

(** What loading does to the buffer [old] under the key [key] of the state
    dict [sd]: a tensor of the shape of the buffer is copied into it, any
    other entry and a missing entry leave it as it is. *)
Definition loaded_buffer (sd : OrderedDict (Tensor A)) (key : string) (old : Tensor A)
  : Tensor A :=
  match od_get sd key with
  | Some input => if list_eqb Nat.eqb (shape input) (shape old) then copy_ old input else old
  | None => old
  end.

Definition sample_load_state (sd : OrderedDict (Tensor A)) : LoadState A :=
  mkLoadState sd [] [] [].

End More_samples.

(* ================================================================== *)
(** ** Strings                                                         *)
(* ================================================================== *)

Lemma prefix_app (sub s : string) :
  String.prefix sub s = true <-> exists post, s = (sub ++ post)%string.
Proof.
  revert s; induction sub as [|c sub IH]; intros s.
  - split; [intros _; now exists s | intros _; now destruct s].
  - destruct s as [|c' s']; simpl.
    + split; [discriminate | intros [post H]; discriminate].
    + destruct (Ascii.ascii_dec c c') as [->|Hne].
      * rewrite IH. split; intros [post H]; exists post.
        -- now rewrite H.
        -- now injection H.
      * split; [discriminate | intros [post H]; injection H; intros; congruence].
Qed.

Lemma str_in_unfold (sub s : string) :
  str_in sub s =
  if String.prefix sub s then true
  else match s with EmptyString => false | String _ s' => str_in sub s' end.
Proof. destruct s; reflexivity. Qed.

Lemma str_in_spec (sub s : string) : str_in sub s = true <-> occurs_in sub s.
Proof.
  unfold occurs_in. induction s as [|c s IH]; rewrite str_in_unfold;
    destruct (String.prefix sub _) eqn:E.
  - split; [intros _ | reflexivity].
    apply prefix_app in E. destruct E as [post E]. now exists "", post.
  - split; [discriminate|].
    intros [pre [post H]]. destruct pre; simpl in H; [|discriminate].
    assert (String.prefix sub "" = true) by (apply prefix_app; now exists post).
    congruence.
  - split; [intros _ | reflexivity].
    apply prefix_app in E. destruct E as [post E]. now exists "", post.
  - rewrite IH. split.
    + intros [pre [post H]]. exists (String c pre), post. simpl. now rewrite H.
    + intros [pre [post H]]. destruct pre as [|c' pre]; simpl in H.
      * assert (String.prefix sub (String c s) = true) by (apply prefix_app; now exists post).
        congruence.
      * injection H as _ H. now exists pre, post.
Qed.

Lemma to_int_not_nil (z : Z) :
  Z.to_int z <> Decimal.Pos Decimal.Nil /\ Z.to_int z <> Decimal.Neg Decimal.Nil.
Proof.
  destruct z; simpl; split; try discriminate.
  - intros H. injection H as H. 
    pose proof (DecimalPos.Unsigned.to_uint_nonnil p). congruence.
  - intros H. injection H as H.
    pose proof (DecimalPos.Unsigned.to_uint_nonnil p). congruence.
Qed.

Lemma str_of_Z_inj (a b : Z) : str_of_Z a = str_of_Z b -> a = b.
Proof.
  unfold str_of_Z. intros H.
  apply DecimalZ.to_int_inj.
  destruct (to_int_not_nil a) as [Ha1 Ha2], (to_int_not_nil b) as [Hb1 Hb2].
  pose proof (NilZero.isi _ Ha1 Ha2) as Ea.
  pose proof (NilZero.isi _ Hb1 Hb2) as Eb.
  rewrite H in Ea. congruence.
Qed.

Lemma stage_key_inj (a b : Z) : stage_key a = stage_key b -> a = b.
Proof.
  unfold stage_key. intros H. simpl in H.
  injection H as H. now apply str_of_Z_inj.
Qed.

Lemma list_in_string_spec (x : string) (l : list string) :
  list_in String.eqb x l = true <-> In x l.
Proof.
  unfold list_in. rewrite existsb_exists. split.
  - intros [y [Hy E]]. apply String.eqb_eq in E. now subst.
  - intros H. exists x. split; [assumption | apply String.eqb_refl].
Qed.

Lemma list_eqb_Z_spec (l1 l2 : list Z) : list_eqb Z.eqb l1 l2 = true <-> l1 = l2.
Proof.
  revert l2; induction l1 as [|x l1 IH]; intros [|y l2]; simpl;
    try (split; [discriminate | discriminate]); try tauto.
  rewrite andb_true_iff, Z.eqb_eq, IH. split.
  - intros [-> ->]; reflexivity.
  - intros H; injection H; auto.
Qed.

Lemma legal_spec (sel : list Z) :
  list_in (list_eqb Z.eqb) sel legal_return_interm_indices = true
  <-> In sel legal_return_interm_indices.
Proof.
  unfold list_in. rewrite existsb_exists. split.
  - intros [y [Hy E]]. apply list_eqb_Z_spec in E. now subst.
  - intros H. exists sel. split; [assumption | now apply list_eqb_Z_spec].
Qed.

(* ================================================================== *)
(** ** Dictionaries                                                    *)
(* ================================================================== *)

Section Dictionaries.

Context {V : Type}.

Lemma od_keys_set (d : OrderedDict V) (k : string) (v : V) :
  od_keys (od_set d k v) = add_key (od_keys d) k.
Proof.
  unfold add_key, list_in. induction d as [|[k' v'] d IH]; simpl.
  - reflexivity.
  - rewrite (String.eqb_sym k k'). destruct (String.eqb k' k) eqn:E; simpl.
    + apply String.eqb_eq in E. now subst.
    + rewrite IH. now destruct (existsb (String.eqb k) (od_keys d)).
Qed.

Lemma od_set_In (d : OrderedDict V) (k : string) (v : V) (kv : string * V) :
  In kv (od_set d k v) -> kv = (k, v) \/ In kv d.
Proof.
  induction d as [|[k' v'] d IH]; simpl.
  - intros [H|[]]; auto.
  - destruct (String.eqb k' k); simpl; intros [H|H]; auto.
    destruct (IH H); auto.
Qed.

Lemma od_get_In (d : OrderedDict V) (k : string) (v : V) :
  od_get d k = Some v -> In (k, v) d.
Proof.
  induction d as [|[k' v'] d IH]; simpl; [discriminate|].
  destruct (String.eqb k' k) eqn:E.
  - apply String.eqb_eq in E. intros H; injection H as ->. subst. now left.
  - intros H. right. auto.
Qed.

Lemma od_get_None (d : OrderedDict V) (k : string) :
  od_get d k = None <-> ~ In k (od_keys d).
Proof.
  induction d as [|[k' v'] d IH]; simpl; [tauto|].
  destruct (String.eqb k' k) eqn:E.
  - apply String.eqb_eq in E. split; [discriminate | intros H; exfalso; auto].
  - apply String.eqb_neq in E. rewrite IH. unfold od_keys. tauto.
Qed.

Lemma In_od_get (d : OrderedDict V) (k : string) (v : V) :
  NoDup (od_keys d) -> In (k, v) d -> od_get d k = Some v.
Proof.
  induction d as [|[k' v'] d IH]; simpl; [tauto|].
  intros Hnd [H|H].
  - injection H as -> ->. now rewrite String.eqb_refl.
  - inversion Hnd as [|? ? Hnotin Hnd']; subst.
    destruct (String.eqb k' k) eqn:E.
    + apply String.eqb_eq in E. subst. exfalso. apply Hnotin.
      unfold od_keys. apply (in_map fst) in H. exact H.
    + auto.
Qed.

End Dictionaries.

Lemma add_key_In (ks : list string) (k x : string) :
  In x (add_key ks k) <-> In x ks \/ x = k.
Proof.
  unfold add_key. destruct (list_in String.eqb k ks) eqn:E.
  - apply list_in_string_spec in E. split; [auto | intros [H| ->]; auto].
  - rewrite in_app_iff. simpl. split; intros [H|H]; auto.
    + destruct H as [H|[]]; auto.
Qed.

Lemma add_key_NoDup (ks : list string) (k : string) :
  NoDup ks -> NoDup (add_key ks k).
Proof.
  unfold add_key. intros H. destruct (list_in String.eqb k ks) eqn:E; [assumption|].
  assert (~ In k ks) as Hk.
  { intros Hin. apply list_in_string_spec in Hin. congruence. }
  apply NoDup_rev in H. rewrite <- (rev_involutive (ks ++ [k])).
  apply NoDup_rev. rewrite rev_app_distr. simpl. constructor; [|assumption].
  now rewrite <- in_rev.
Qed.

Lemma fold_add_key_In (l ks : list string) (x : string) :
  In x (fold_left add_key l ks) <-> In x ks \/ In x l.
Proof.
  revert ks; induction l as [|k l IH]; intros ks; simpl; [tauto|].
  rewrite IH, add_key_In. intuition (subst; auto).
Qed.

Lemma fold_add_key_NoDup (l ks : list string) :
  NoDup ks -> NoDup (fold_left add_key l ks).
Proof.
  revert ks; induction l as [|k l IH]; intros ks H; simpl; [assumption|].
  apply IH. now apply add_key_NoDup.
Qed.

Lemma NoDup_same_elements_length {T : Type} (l l' : list T) :
  NoDup l -> NoDup l' -> (forall x, In x l <-> In x l') -> length l = length l'.
Proof.
  intros H H' E. apply Permutation_length. now apply NoDup_Permutation.
Qed.

Lemma distinct_keys_NoDup (l : list string) : NoDup (distinct_keys l).
Proof. apply fold_add_key_NoDup. constructor. Qed.

Lemma distinct_keys_In (l : list string) (x : string) :
  In x (distinct_keys l) <-> In x l.
Proof. unfold distinct_keys. rewrite fold_add_key_In. simpl. tauto. Qed.

Lemma distinct_keys_length (l : list string) :
  length (distinct_keys l) = length (nodup string_dec l).
Proof.
  apply NoDup_same_elements_length.
  - apply distinct_keys_NoDup.
  - apply NoDup_nodup.
  - intros x. now rewrite distinct_keys_In, nodup_In.
Qed.

Lemma distinct_keys_fixed (l : list string) : NoDup l -> length (distinct_keys l) = length l.
Proof.
  intros H. rewrite distinct_keys_length. now rewrite nodup_fixed_point.
Qed.

Lemma nodup_map_inj_length {X Y : Type} (decX : forall a b : X, {a = b} + {a <> b})
    (decY : forall a b : Y, {a = b} + {a <> b}) (f : X -> Y) (l : list X) :
  (forall a b, f a = f b -> a = b) ->
  length (nodup decY (map f l)) = length (nodup decX l).
Proof.
  intros Hinj. induction l as [|a l IH]; simpl; [reflexivity|].
  destruct (in_dec decY (f a) (map f l)) as [H|H];
    destruct (in_dec decX a l) as [H'|H']; simpl; auto.
  - exfalso. apply in_map_iff in H. destruct H as [b [E Hb]].
    apply Hinj in E. now subst.
  - exfalso. apply H. now apply in_map.
Qed.

Lemma combine_fst_firstn {X Y : Type} (l : list X) (l' : list Y) :
  map fst (combine l l') = firstn (Nat.min (length l) (length l')) l.
Proof.
  revert l'; induction l as [|a l IH]; intros [|b l']; simpl; try reflexivity.
  now rewrite IH.
Qed.

Lemma slice_from_last2 {T : Type} (pre : list T) (a b : T) :
  slice_from (-2) (pre ++ [a; b]) = [a; b].
Proof.
  unfold slice_from. rewrite length_app. simpl length.
  replace (Z.to_nat _) with (length pre).
  - induction pre; simpl; auto.
  - change (-2 <? 0)%Z with true. cbv iota. lia.
Qed.

(* ================================================================== *)
(** ** Tensors and the layer getter                                    *)
(* ================================================================== *)

Section Tensor_facts.

Context {A : Type} {SA : Scalar A}.

Lemma shape_to (d : DType) (t : Tensor A) : shape (to d t) = shape t.
Proof. unfold to. now destruct (dtype_eqb (dtype t) d). Qed.

Lemma dtype_eqb_eq (a b : DType) : dtype_eqb a b = true -> a = b.
Proof. destruct a, b; simpl; congruence. Qed.

Lemma dtype_to (d : DType) (t : Tensor A) : dtype (to d t) = d.
Proof.
  unfold to. destruct (dtype_eqb (dtype t) d) eqn:E; [|reflexivity].
  now apply dtype_eqb_eq.
Qed.

(** Resampling a (B, Hm, Wm) mask to (H, W), as both wrappers do after
    [mask[None].float()]. *)
Lemma interpolate_mask (m : Tensor A) (B Hm Wm H W : nat) :
  shape m = [B; Hm; Wm] -> 0 < B -> 0 < Hm -> 0 < Wm -> 0 < H -> 0 < W ->
  exists r, interpolate (float (unsqueeze0 m)) [H; W] = Ok r /\
            shape r = [1; B; H; W] /\ dtype r = torch_float32.
Proof.
  intros Hs HB HHm HWm HH HW.
  unfold interpolate, float.
  rewrite shape_to, dtype_to. simpl. rewrite Hs. simpl.
  destruct B, Hm, Wm, H, W; try lia. simpl.
  eexists. split; [reflexivity|]. split; reflexivity.
Qed.

Lemma to_bool_item (t : Tensor A) (idx : list nat) :
  dtype t = torch_float32 ->
  item (to torch_bool t) idx = of_bool (nonzero (item t idx)).
Proof. intros Hd. unfold to. rewrite Hd. reflexivity. Qed.

Lemma conv_mask (m x : Tensor A) :
  is_mask_3d m -> has_spatial x ->
  exists r mk,
    interpolate (float (unsqueeze0 m)) (slice_from (-2) (shape x)) = Ok r /\
    select0 (to torch_bool r) = Ok mk /\
    dtype mk = torch_bool /\
    (forall idx, exists b : bool, item mk idx = of_bool b) /\
    length (shape mk) = 3 /\
    slice_from (-2) (shape mk) = slice_from (-2) (shape x).
Proof.
  intros (B & Hm & Wm & Hs & HB & HHm & HWm) (pre & H & W & Hx & HH & HW).
  rewrite Hx, slice_from_last2.
  destruct (interpolate_mask m B Hm Wm H W Hs HB HHm HWm HH HW) as (r & Er & Sr & Dr).
  exists r. unfold select0. rewrite shape_to, Sr.
  eexists. split; [exact Er|]. split; [reflexivity|]. simpl. rewrite dtype_to.
  split; [reflexivity|]. split.
  - intros idx. eexists. now apply to_bool_item.
  - split; [reflexivity|]. apply (slice_from_last2 [B]).
Qed.

Lemma vit_mask (m : Tensor A) (H W : nat) :
  is_mask_3d m -> 0 < H -> 0 < W ->
  exists r r0,
    interpolate (float (unsqueeze0 m)) [H; W] = Ok r /\ select0 r = Ok r0 /\
    dtype r0 = torch_float32 /\
    exists B, shape r0 = [B; H; W].
Proof.
  intros (B & Hm & Wm & Hs & HB & HHm & HWm) HH HW.
  destruct (interpolate_mask m B Hm Wm H W Hs HB HHm HWm HH HW) as (r & Er & Sr & Dr).
  exists r. unfold select0. rewrite Sr.
  eexists. split; [exact Er|]. split; [reflexivity|]. split; [exact Dr|]. now exists B.
Qed.

Lemma interpolate_raises (t : Tensor A) (size : list nat) (e : exn) :
  interpolate t size = Raise e -> is_assertion_error e = false.
Proof.
  unfold interpolate.
  repeat match goal with
         | |- context [if ?c then _ else _] => destruct c
         end; intros H; try discriminate; injection H as <-; reflexivity.
Qed.

Lemma select0_raises (t : Tensor A) (e : exn) :
  select0 t = Raise e -> is_assertion_error e = false.
Proof.
  unfold select0. destruct (shape t) as [|[|n] rest]; intros H; try discriminate;
    injection H as <-; reflexivity.
Qed.

(** *** IntermediateLayerGetter *)

Lemma od_del_keys {V : Type} (d : OrderedDict V) (n k : string) :
  In k (od_keys (od_del d n)) <-> In k (od_keys d) /\ k <> n.
Proof.
  unfold od_del, od_keys. induction d as [|[k' v'] d IH]; simpl; [tauto|].
  destruct (String.eqb k' n) eqn:E; simpl.
  - apply String.eqb_eq in E. subst. rewrite IH. intuition congruence.
  - apply String.eqb_neq in E. rewrite IH. intuition congruence.
Qed.

Lemma od_mem_false {V : Type} (d : OrderedDict V) (k : string) :
  od_mem d k = false <-> ~ In k (od_keys d).
Proof.
  unfold od_mem. rewrite <- od_get_None. destruct (od_get d k); split; congruence.
Qed.

Lemma collect_layers_covers (children : list (string * (Tensor A -> Tensor A)))
    (remaining : OrderedDict string) (k : string) :
  (forall k', In k' (od_keys remaining) -> In k' (map fst children)) ->
  In k (od_keys remaining) -> In k (map fst (collect_layers children remaining)).
Proof.
  revert remaining; induction children as [|[name module] rest IH]; intros remaining Hall Hk.
  - exact (Hall k Hk).
  - simpl. destruct (string_dec name k) as [->|Hne]; [now left|]. right.
    set (remaining' := if od_mem remaining name then od_del remaining name else remaining).
    assert (forall k', In k' (od_keys remaining') -> In k' (od_keys remaining) /\ k' <> name)
      as Hsub.
    { intros k'. unfold remaining'. destruct (od_mem remaining name) eqn:E.
      - apply od_del_keys.
      - apply od_mem_false in E. intros H. split; [assumption | congruence]. }
    assert (In k (od_keys remaining')) as Hk'.
    { unfold remaining'. destruct (od_mem remaining name); [|assumption].
      apply od_del_keys. split; [assumption | congruence]. }
    destruct remaining' as [|kv remaining''] eqn:Er; [destruct Hk'|].
    apply IH; [|assumption].
    intros k' Hin. destruct (Hsub k' Hin) as [H1 H2].
    destruct (Hall k' H1) as [H|H]; [simpl in H; congruence | assumption].
Qed.

Lemma IntermediateLayerGetter_loop_keys (ls : list (string * (Tensor A -> Tensor A)))
    (rl : OrderedDict string) (x : Tensor A) (out : OrderedDict (Tensor A)) (k : string) :
  In k (od_keys (IntermediateLayerGetter_loop ls rl x out)) <->
  In k (od_keys out) \/ exists name, In name (map fst ls) /\ od_get rl name = Some k.
Proof.
  revert x out; induction ls as [|[name module] rest IH]; intros x out; simpl.
  - split; [auto | intros [H|[n [[] _]]]; assumption].
  - rewrite IH. destruct (od_get rl name) as [out_name|] eqn:E.
    + rewrite od_keys_set, add_key_In. split.
      * intros [[H| ->]|[n [Hn En]]]; eauto.
      * intros [H|[n [[<-|Hn] En]]]; eauto.
        left. right. congruence.
    + split.
      * intros [H|[n [Hn En]]]; eauto.
      * intros [H|[n [[<-|Hn] En]]]; eauto. congruence.
Qed.

Lemma IntermediateLayerGetter_loop_NoDup (ls : list (string * (Tensor A -> Tensor A)))
    (rl : OrderedDict string) (x : Tensor A) (out : OrderedDict (Tensor A)) :
  NoDup (od_keys out) -> NoDup (od_keys (IntermediateLayerGetter_loop ls rl x out)).
Proof.
  revert x out; induction ls as [|[name module] rest IH]; intros x out H; simpl; [assumption|].
  apply IH. destruct (od_get rl name); [|assumption].
  rewrite od_keys_set. now apply add_key_NoDup.
Qed.

Lemma IntermediateLayerGetter_forward_keys (model : NNModule A) (rl : OrderedDict string)
    (ilg : IntermediateLayerGetter A) (x : Tensor A) :
  IntermediateLayerGetter_init model rl = Ok ilg -> NoDup (od_keys rl) ->
  NoDup (od_keys (IntermediateLayerGetter_forward ilg x)) /\
  forall k, In k (od_keys (IntermediateLayerGetter_forward ilg x)) <-> In k (od_values rl).
Proof.
  unfold IntermediateLayerGetter_init, IntermediateLayerGetter_forward.
  destruct (forallb _ _) eqn:Hall; [|discriminate].
  intros H Hnd. injection H as <-. simpl. split.
  - apply IntermediateLayerGetter_loop_NoDup. constructor.
  - intros k. rewrite IntermediateLayerGetter_loop_keys. simpl. split.
    + intros [[]|[name [_ E]]]. apply od_get_In in E.
      unfold od_values. apply (in_map snd) in E. exact E.
    + intros H. right. unfold od_values in H. apply in_map_iff in H.
      destruct H as [[name k'] [E Hin]]. simpl in E. subst k'.
      exists name. split; [|now apply In_od_get].
      apply collect_layers_covers.
      * intros k' Hk'. rewrite forallb_forall in Hall.
        apply list_in_string_spec. now apply Hall.
      * unfold od_keys. apply (in_map fst) in Hin. exact Hin.
Qed.

Lemma IntermediateLayerGetter_forward_length (model : NNModule A) (rl : OrderedDict string)
    (ilg : IntermediateLayerGetter A) (x : Tensor A) :
  IntermediateLayerGetter_init model rl = Ok ilg -> NoDup (od_keys rl) ->
  length (IntermediateLayerGetter_forward ilg x) = length (nodup string_dec (od_values rl)).
Proof.
  intros Hi Hnd.
  destruct (IntermediateLayerGetter_forward_keys model rl ilg x Hi Hnd) as [H1 H2].
  rewrite <- (length_map fst). apply NoDup_same_elements_length.
  - exact H1.
  - apply NoDup_nodup.
  - intros k. rewrite nodup_In. apply H2.
Qed.

End Tensor_facts.

(* ================================================================== *)
(** ** The wrappers                                                    *)
(* ================================================================== *)

Section Wrapper_facts.

Context {A : Type} {SA : Scalar A}.

Lemma fold_od_set_keys {X V : Type} (f : OrderedDict V -> X -> OrderedDict V)
    (kf : X -> string) (vf : X -> V) :
  (forall d x, f d x = od_set d (kf x) (vf x)) ->
  forall l d, od_keys (fold_left f l d) = fold_left add_key (map kf l) (od_keys d).
Proof.
  intros Hf. induction l as [|x l IH]; intros d; simpl; [reflexivity|].
  now rewrite IH, Hf, od_keys_set.
Qed.

Lemma make_return_layers_keys (sel : list Z) :
  od_keys (make_return_layers sel) =
  distinct_keys
    (map (fun il : nat * Z =>
            ("layer" ++ str_of_Z (5 - Z.of_nat (length sel) + Z.of_nat (fst il))%Z)%string)
         (combine (seq 0 (length sel)) sel)).
Proof.
  unfold make_return_layers, distinct_keys.
  apply (fold_od_set_keys _ _ (fun il => str_of_Z (snd il))).
  intros d [idx layer_index]. reflexivity.
Qed.

Lemma make_return_layers_NoDup (sel : list Z) : NoDup (od_keys (make_return_layers sel)).
Proof. rewrite make_return_layers_keys. apply distinct_keys_NoDup. Qed.

Lemma make_return_layers_nonempty (sel : list Z) :
  sel <> [] -> make_return_layers sel <> [].
Proof.
  intros Hsel Hrl.
  pose proof (make_return_layers_keys sel) as K. rewrite Hrl in K. simpl in K.
  destruct sel as [|z sel]; [congruence|]. simpl in K.
  match type of K with
  | [] = distinct_keys (?k :: ?l) =>
      assert (In k (distinct_keys (k :: l))) as Hin
        by (apply distinct_keys_In; now left)
  end.
  rewrite <- K in Hin. destruct Hin.
Qed.

Lemma BackboneBase_init_inv (backbone : NNModule A) (train : bool) (nc sel : list Z)
    (bb : BackboneBase A) :
  snd (BackboneBase_init backbone train nc sel) = Ok bb ->
  IntermediateLayerGetter_init (fst (BackboneBase_init backbone train nc sel))
    (make_return_layers sel) = Ok (body bb) /\
  wrapped bb = fst (BackboneBase_init backbone train nc sel) /\
  num_channels bb = nc.
Proof.
  unfold BackboneBase_init. simpl.
  destruct (IntermediateLayerGetter_init _ _) as [ilg|e]; simpl; [|discriminate].
  intros H. injection H as <-. auto.
Qed.

Lemma BackboneBase_forward_loop_ok (tl : NestedTensor A) (m : Tensor A)
    (xs : OrderedDict (Tensor A)) (out : OrderedDict (NestedTensor A)) :
  mask tl = Some m -> is_mask_3d m ->
  Forall (fun kx => has_spatial (snd kx)) xs ->
  exists out', BackboneBase_forward_loop tl xs out = Ok out' /\
    od_keys out' = fold_left add_key (map fst xs) (od_keys out) /\
    forall kf, In kf out' ->
      In kf out \/ (mask_matches (snd kf) /\ In (fst kf, tensors (snd kf)) xs).
Proof.
  intros Hm Hm3. revert out.
  induction xs as [|[name x] rest IH]; intros out Hall; simpl.
  - exists out. auto.
  - rewrite Hm. inversion Hall as [|? ? Hx Hrest]; subst. simpl in Hx.
    destruct (conv_mask m x Hm3 Hx) as (r & mk & Er & Emk & Dmk & Vmk & Lmk & Smk).
    rewrite Er. simpl. rewrite Emk. simpl.
    destruct (IH (od_set out name (mkNestedTensor x (Some mk))) Hrest)
      as (out' & E & K & I).
    exists out'. split; [exact E|]. split.
    + rewrite K, od_keys_set. reflexivity.
    + intros kf Hkf. destruct (I kf Hkf) as [H|[H1 H2]]; [|now auto].
      apply od_set_In in H. destruct H as [->|H]; [|now left].
      right. simpl. split; [|now left].
      exists mk. simpl. auto.
Qed.

Lemma BackboneBase_forward_loop_raises (tl : NestedTensor A) (m : Tensor A)
    (xs : OrderedDict (Tensor A)) (out : OrderedDict (NestedTensor A)) (e : exn) :
  mask tl = Some m -> BackboneBase_forward_loop tl xs out = Raise e ->
  is_assertion_error e = false.
Proof.
  intros Hm. revert out. induction xs as [|[name x] rest IH]; intros out; simpl.
  - discriminate.
  - rewrite Hm. destruct (interpolate _ _) as [r|e'] eqn:Er; simpl.
    + destruct (select0 _) as [mk|e'] eqn:Emk; simpl.
      * apply IH.
      * intros H; injection H as <-. eapply select0_raises; eauto.
    + intros H; injection H as <-. eapply interpolate_raises; eauto.
Qed.

Lemma VitBackboneAdapter_forward_loop_ok (m : Tensor A) (pairs : list (Z * Tensor A))
    (out : OrderedDict (NestedTensor A)) :
  is_mask_3d m -> Forall (fun p => is_feature_4d (snd p)) pairs ->
  exists out', VitBackboneAdapter_forward_loop (Some m) pairs out = Ok out' /\
    od_keys out' = fold_left add_key (map (fun p => stage_key (fst p)) pairs) (od_keys out) /\
    forall kf, In kf out' ->
      In kf out \/
      (mask_matches (snd kf) /\
       exists idx, fst kf = stage_key idx /\ In (idx, tensors (snd kf)) pairs).
Proof.
  intros Hm3. revert out.
  induction pairs as [|[idx feat] rest IH]; intros out Hall; simpl.
  - exists out. auto.
  - inversion Hall as [|? ? Hx Hrest]; subst. simpl in Hx.
    destruct Hx as (B & C & H & W & Hs & HH & HW). rewrite Hs.
    destruct (vit_mask m H W Hm3 HH HW) as (r & r0 & Er & Er0 & Dr0 & B' & Sr0).
    rewrite Er. simpl. rewrite Er0. simpl.
    destruct (IH (od_set out (stage_key idx)
                    (mkNestedTensor feat (Some (to torch_bool r0)))) Hrest)
      as (out' & E & K & I).
    exists out'. split; [exact E|]. split.
    + rewrite K, od_keys_set. reflexivity.
    + intros kf Hkf. destruct (I kf Hkf) as [Hin|[H1 [idx' [H2 H3]]]].
      * apply od_set_In in Hin. destruct Hin as [->|Hin]; [|now left].
        right. simpl. split.
        -- exists (to torch_bool r0). simpl. rewrite dtype_to, shape_to, Sr0, Hs.
           split; [reflexivity|]. split; [reflexivity|]. split.
           ++ intros idx'. eexists. now apply to_bool_item.
           ++ split; reflexivity.
        -- exists idx. split; [reflexivity | now left].
      * right. split; [assumption|]. exists idx'. split; [assumption | now right].
Qed.

Lemma Forall_combine_snd {X Y : Type} (P : Y -> Prop) (l : list X) (l' : list Y) :
  Forall P l' -> Forall (fun p => P (snd p)) (combine l l').
Proof.
  intros H. revert l; induction H as [|b l' Hb H IH]; intros [|a l]; simpl; constructor; auto.
Qed.

Lemma In_combine_nth_error {X Y : Type} (l : list X) (l' : list Y) (a : X) (b : Y) :
  In (a, b) (combine l l') ->
  exists i, nth_error l i = Some a /\ nth_error l' i = Some b.
Proof.
  revert l'; induction l as [|x l IH]; intros [|y l']; simpl; try tauto.
  intros [H|H].
  - injection H as -> ->. now exists 0.
  - destruct (IH l' H) as [i Hi]. now exists (S i).
Qed.

(** What [VitBackboneAdapter.forward] returns on a batch with a mask. *)
Lemma VitBackboneAdapter_forward_ok (self : VitBackboneAdapter A) (tl : NestedTensor A)
    (m : Tensor A) :
  mask tl = Some m -> is_mask_3d m ->
  Forall is_feature_4d (vit_forward (vit self) (tensors tl)) ->
  exists out, VitBackboneAdapter_forward self tl = Ok out /\
    od_keys out =
      distinct_keys
        (map stage_key
           (firstn (Nat.min (length (out_indices self))
                            (length (vit_forward (vit self) (tensors tl))))
                   (out_indices self))) /\
    forall kf, In kf out ->
      mask_matches (snd kf) /\
      exists i idx, nth_error (out_indices self) i = Some idx /\
                    nth_error (vit_forward (vit self) (tensors tl)) i = Some (tensors (snd kf)) /\
                    fst kf = stage_key idx.
Proof.
  intros Hm Hm3 Hall. unfold VitBackboneAdapter_forward. rewrite Hm.
  destruct (VitBackboneAdapter_forward_loop_ok m
              (combine (out_indices self) (vit_forward (vit self) (tensors tl))) []
              Hm3 (Forall_combine_snd _ _ _ Hall)) as (out & E & K & I).
  exists out. split; [exact E|]. split.
  - rewrite K. unfold distinct_keys. simpl.
    rewrite <- combine_fst_firstn, map_map. reflexivity.
  - intros kf Hkf. destruct (I kf Hkf) as [[]|[H1 [idx [H2 H3]]]].
    split; [assumption|].
    apply In_combine_nth_error in H3. destruct H3 as [i [Hi1 Hi2]].
    now exists i, idx.
Qed.

Lemma od_length_keys {V : Type} (d : OrderedDict V) : length d = length (od_keys d).
Proof. unfold od_keys. now rewrite length_map. Qed.

Lemma distinct_stage_keys_length (l : list Z) :
  length (distinct_keys (map stage_key l)) = length (nodup Z.eq_dec l).
Proof.
  rewrite distinct_keys_length.
  apply nodup_map_inj_length. exact stage_key_inj.
Qed.

Lemma nodup_length_le {T : Type} (dec : forall a b : T, {a = b} + {a <> b}) (l : list T) :
  length (nodup dec l) <= length l.
Proof.
  apply NoDup_incl_length; [apply NoDup_nodup|].
  intros x Hx. now apply nodup_In in Hx.
Qed.

End Wrapper_facts.

(* ================================================================== *)
(** ** BackboneBase: freezing policy and the mask precondition         *)
(* ================================================================== *)

Lemma later_stage_spec (name : string) :
  str_in "layer2" name || str_in "layer3" name || str_in "layer4" name = true
  <-> later_stage name.
Proof.
  unfold later_stage. rewrite !orb_true_iff, !str_in_spec. tauto.
Qed.

Lemma freeze_spec (train : bool) (p : NamedParameter) :
  p_name (freeze train p) = p_name p /\
  (requires_grad (freeze train p) = true <->
   requires_grad p = true /\ train = true /\ later_stage (p_name p)).
Proof.
  unfold freeze. rewrite <- later_stage_spec.
  destruct train, (str_in "layer2" (p_name p)), (str_in "layer3" (p_name p)),
    (str_in "layer4" (p_name p)); simpl; split; try reflexivity;
    intuition congruence.
Qed.

(** C8.  [BackboneBase.__init__] leaves every named parameter of the wrapped
    encoder under its name, and the parameter requires a gradient afterwards
    exactly when it did before, the trainable flag is true and its name
    contains layer2, layer3 or layer4.  So gradient computation is switched
    off whenever the flag is false or the name is not one of a later stage,
    and a parameter that was trainable is switched off exactly in that
    case. *)
Theorem BackboneBase_init_freezing_policy :
  forall (A : Type) (backbone : NNModule A) (train_backbone : bool)
         (num_channels return_interm_indices : list Z),
    let after :=
      named_parameters
        (fst (BackboneBase_init backbone train_backbone num_channels return_interm_indices)) in
    length after = length (named_parameters backbone) /\
    (forall bb,
        snd (BackboneBase_init backbone train_backbone num_channels return_interm_indices)
        = Ok bb -> named_parameters (wrapped bb) = after) /\
    forall i p,
      nth_error (named_parameters backbone) i = Some p ->
      exists p',
        nth_error after i = Some p' /\ p_name p' = p_name p /\
        (requires_grad p' = true <->
         requires_grad p = true /\ train_backbone = true /\ later_stage (p_name p)) /\
        (train_backbone = false \/ ~ later_stage (p_name p) -> requires_grad p' = false) /\
        (requires_grad p = true ->
         (requires_grad p' = false <->
          train_backbone = false \/ ~ later_stage (p_name p))).
Proof.
  intros A backbone train nc sel after.
  assert (after = map (freeze train) (named_parameters backbone)) as -> by reflexivity.
  split; [apply length_map|]. split.
  - intros bb H. apply BackboneBase_init_inv in H. destruct H as (_ & -> & _). reflexivity.
  - intros i p Hp. exists (freeze train p). split.
    + now rewrite nth_error_map, Hp.
    + destruct (freeze_spec train p) as [Hn Hg]. split; [exact Hn|].
      split; [exact Hg|]. split.
      * intros Hc. destruct (requires_grad (freeze train p)) eqn:E; [|reflexivity].
        exfalso. destruct Hg as [Hg _]. destruct (Hg eq_refl) as (_ & Ht & Hl).
        destruct Hc as [Hc|Hc]; [congruence | contradiction].
      * intros Hrg. split.
        -- intros Hf. destruct train; [right | now left].
           intros Hl. destruct Hg as [_ Hg]. rewrite Hg in Hf; [discriminate | auto].
        -- intros Hc. destruct (requires_grad (freeze train p)) eqn:E; [|reflexivity].
           exfalso. destruct Hg as [Hg _]. destruct (Hg eq_refl) as (_ & Ht & Hl).
           destruct Hc as [Hc|Hc]; [congruence | contradiction].
Qed.

(** C9.  For a wrapper that [BackboneBase.__init__] built over at least one
    selected stage, the encoder body emits a feature, and [forward] on a
    batch without mask raises the assertion error at that first feature;
    on a batch with a mask, [forward] raises no assertion error. *)
Theorem BackboneBase_forward_mask_precondition :
  forall (A : Type) (SA : Scalar A) (backbone : NNModule A) (train_backbone : bool)
         (num_channels return_interm_indices : list Z) (bb : BackboneBase A)
         (tensor_list : NestedTensor A),
    return_interm_indices <> [] ->
    snd (BackboneBase_init backbone train_backbone num_channels return_interm_indices)
    = Ok bb ->
    IntermediateLayerGetter_forward (body bb) (tensors tensor_list) <> [] /\
    (mask tensor_list = None ->
     BackboneBase_forward bb tensor_list = Raise (AssertionError "")) /\
    (forall m, mask tensor_list = Some m ->
       forall e, BackboneBase_forward bb tensor_list = Raise e ->
                 is_assertion_error e = false).
Proof.
  intros A SA backbone train nc sel bb tl Hsel Hinit.
  apply BackboneBase_init_inv in Hinit. destruct Hinit as (Hilg & _ & _).
  assert (IntermediateLayerGetter_forward (body bb) (tensors tl) <> []) as Hne.
  { destruct (IntermediateLayerGetter_forward_keys _ _ _ (tensors tl) Hilg
                (make_return_layers_NoDup sel)) as [_ Hk].
    pose proof (make_return_layers_nonempty sel Hsel) as Hrl.
    destruct (make_return_layers sel) as [|[name k] rl] eqn:E; [congruence|].
    intros Hnil. rewrite Hnil in Hk. apply (Hk k). simpl. now left. }
  split; [exact Hne|]. split.
  - intros Hm. unfold BackboneBase_forward.
    destruct (IntermediateLayerGetter_forward (body bb) (tensors tl)) as [|[name x] rest];
      [congruence|].
    simpl. now rewrite Hm.
  - intros m Hm e. unfold BackboneBase_forward.
    now apply BackboneBase_forward_loop_raises with (m := m).
Qed.

(* ================================================================== *)
(** ** Number of feature maps and shape of their masks                 *)
(* ================================================================== *)

Lemma legal_return_layers (sel : list Z) :
  In sel legal_return_interm_indices ->
  length (nodup string_dec (od_values (make_return_layers sel))) = length sel.
Proof.
  intros [<-|[<-|[<-|[]]]]; reflexivity.
Qed.

(** C3 (as amended).  On the convolutional path, for a wrapper built by
    [BackboneBase.__init__] from a legal stage selection, [forward] on a
    batch with a (B, H, W) mask returns as many feature maps as stages were
    selected.  On the transformer path, [forward] returns one feature map
    per distinct index among the configured indices that the encoder
    returned a feature for, which is the number of configured indices when
    these are distinct and the encoder returns one feature for each.  On
    both paths every returned mask is a boolean tensor whose last two
    dimensions are those of the feature tensor it is paired with. *)
Theorem feature_maps_count_and_masks :
  forall (A : Type) (SA : Scalar A),
    (forall (backbone : NNModule A) (train_backbone : bool)
            (num_channels return_interm_indices : list Z) (bb : BackboneBase A)
            (tensor_list : NestedTensor A) (m : Tensor A),
        In return_interm_indices legal_return_interm_indices ->
        snd (BackboneBase_init backbone train_backbone num_channels return_interm_indices)
        = Ok bb ->
        mask tensor_list = Some m -> is_mask_3d m ->
        Forall (fun kx => has_spatial (snd kx))
               (IntermediateLayerGetter_forward (body bb) (tensors tensor_list)) ->
        exists out,
          BackboneBase_forward bb tensor_list = Ok out /\
          length out = length return_interm_indices /\
          Forall (fun kf => mask_matches (snd kf)) out)
    /\
    (forall (self : VitBackboneAdapter A) (tensor_list : NestedTensor A) (m : Tensor A),
        mask tensor_list = Some m -> is_mask_3d m ->
        Forall is_feature_4d (vit_forward (vit self) (tensors tensor_list)) ->
        exists out,
          VitBackboneAdapter_forward self tensor_list = Ok out /\
          length out =
            length (nodup Z.eq_dec
                      (firstn (length (vit_forward (vit self) (tensors tensor_list)))
                              (out_indices self))) /\
          (NoDup (out_indices self) ->
           length (vit_forward (vit self) (tensors tensor_list))
           = length (out_indices self) ->
           length out = length (out_indices self)) /\
          Forall (fun kf => mask_matches (snd kf)) out).
Proof.
  intros A SA. split.
  - intros backbone train nc sel bb tl m Hlegal Hinit Hm Hm3 Hall.
    apply BackboneBase_init_inv in Hinit. destruct Hinit as (Hilg & _ & _).
    pose proof (IntermediateLayerGetter_forward_keys _ _ _ (tensors tl) Hilg
                  (make_return_layers_NoDup sel)) as [Hnd _].
    pose proof (IntermediateLayerGetter_forward_length _ _ _ (tensors tl) Hilg
                  (make_return_layers_NoDup sel)) as Hlen.
    rewrite (legal_return_layers sel Hlegal) in Hlen.
    unfold BackboneBase_forward.
    destruct (BackboneBase_forward_loop_ok tl m _ [] Hm Hm3 Hall) as (out & E & K & I).
    exists out. split; [exact E|]. split.
    + rewrite od_length_keys, K. simpl.
      change (fold_left add_key ?l []) with (distinct_keys l).
      rewrite distinct_keys_fixed by exact Hnd.
      rewrite length_map. exact Hlen.
    + apply Forall_forall. intros kf Hkf. destruct (I kf Hkf) as [[]|[H _]]. exact H.
  - intros self tl m Hm Hm3 Hall.
    destruct (VitBackboneAdapter_forward_ok self tl m Hm Hm3 Hall) as (out & E & K & I).
    exists out. split; [exact E|].
    assert (length out =
            length (nodup Z.eq_dec
                      (firstn (length (vit_forward (vit self) (tensors tl)))
                              (out_indices self)))) as Hlen.
    { rewrite od_length_keys, K, distinct_stage_keys_length.
      f_equal. f_equal.
      destruct (Nat.le_ge_cases (length (out_indices self))
                  (length (vit_forward (vit self) (tensors tl)))) as [Hle|Hle].
      - rewrite Nat.min_l by exact Hle. now rewrite !firstn_all2.
      - now rewrite Nat.min_r. }
    split; [exact Hlen|]. split.
    + intros Hnd Heq. rewrite Hlen, Heq, firstn_all. now rewrite nodup_fixed_point.
    + apply Forall_forall. intros kf Hkf. now destruct (I kf Hkf).
Qed.

(** C10 (as amended).  [VitBackboneAdapter.forward] pairs the configured
    indices with the returned features by position and stops at the shorter
    of the two without raising.  It files the i-th feature under the key of
    the i-th index, so it returns one entry per distinct index among the
    first min(#indices, #features): at most that many entries, and exactly
    that many when these indices are pairwise distinct. *)
Theorem VitBackboneAdapter_forward_pairs :
  forall (A : Type) (SA : Scalar A) (self : VitBackboneAdapter A)
         (tensor_list : NestedTensor A) (m : Tensor A),
    mask tensor_list = Some m -> is_mask_3d m ->
    Forall is_feature_4d (vit_forward (vit self) (tensors tensor_list)) ->
    let feats := vit_forward (vit self) (tensors tensor_list) in
    let n := Nat.min (length (out_indices self)) (length feats) in
    exists out,
      VitBackboneAdapter_forward self tensor_list = Ok out /\
      od_keys out = distinct_keys (map stage_key (firstn n (out_indices self))) /\
      (forall kf, In kf out ->
         exists i idx, nth_error (out_indices self) i = Some idx /\
                       nth_error feats i = Some (tensors (snd kf)) /\
                       fst kf = stage_key idx) /\
      length out = length (nodup Z.eq_dec (firstn n (out_indices self))) /\
      length out <= n /\
      (NoDup (firstn n (out_indices self)) -> length out = n).
Proof.
  intros A SA self tl m Hm Hm3 Hall feats n.
  destruct (VitBackboneAdapter_forward_ok self tl m Hm Hm3 Hall) as (out & E & K & I).
  fold feats in K, I. fold n in K.
  assert (length (firstn n (out_indices self)) = n) as Hn.
  { rewrite length_firstn. unfold n. lia. }
  assert (length out = length (nodup Z.eq_dec (firstn n (out_indices self)))) as Hlen.
  { now rewrite od_length_keys, K, distinct_stage_keys_length. }
  exists out. split; [exact E|]. split; [exact K|]. split.
  - intros kf Hkf. now destruct (I kf Hkf).
  - split; [exact Hlen|]. split.
    + rewrite Hlen. rewrite <- Hn at 2. apply nodup_length_le.
    + intros Hnd. rewrite Hlen, nodup_fixed_point by exact Hnd. exact Hn.
Qed.

(* ================================================================== *)
(** ** Joiner                                                          *)
(* ================================================================== *)

Lemma Joiner_forward_loop_spec {A : Type} {SA : Scalar A} (self : Joiner A)
    (xs : OrderedDict (NestedTensor A)) (out : list (NestedTensor A)) (pos : list (Tensor A)) :
  Joiner_forward_loop self xs out pos =
  (out ++ map snd xs,
   pos ++ map (fun kx => to (dtype (tensors (snd kx))) (joiner_position_embedding self (snd kx)))
              xs).
Proof.
  revert out pos; induction xs as [|[name x] rest IH]; intros out pos; simpl.
  - now rewrite !app_nil_r.
  - rewrite IH, <- !app_assoc. reflexivity.
Qed.

(** C4.  When the backbone returns the ordered mapping [xs],
    [Joiner.forward] returns two lists as long as [xs]: the i-th feature map
    of [xs], and at the same position the result of the position-encoding
    generator on that feature map, cast to the dtype of its tensor.  When
    the backbone raises, [Joiner.forward] raises the same error. *)
Theorem Joiner_forward_parallel_lists :
  forall (A : Type) (SA : Scalar A) (self : Joiner A) (tensor_list : NestedTensor A),
    match backbone_forward (joiner_backbone self) tensor_list with
    | Ok xs =>
        exists out pos,
          Joiner_forward self tensor_list = Ok (out, pos) /\
          length out = length xs /\ length pos = length xs /\
          forall i name x,
            nth_error xs i = Some (name, x) ->
            nth_error out i = Some x /\
            exists p,
              nth_error pos i = Some p /\
              p = to (dtype (tensors x)) (joiner_position_embedding self x) /\
              dtype p = dtype (tensors x)
    | Raise e => Joiner_forward self tensor_list = Raise e
    end.
Proof.
  intros A SA self tl. unfold Joiner_forward.
  destruct (backbone_forward (joiner_backbone self) tl) as [xs|e]; simpl; [|reflexivity].
  rewrite Joiner_forward_loop_spec. simpl.
  eexists _, _. split; [reflexivity|].
  rewrite !length_map. split; [reflexivity|]. split; [reflexivity|].
  intros i name x Hi. rewrite !nth_error_map, Hi. simpl.
  split; [reflexivity|]. eexists. split; [reflexivity|]. split; [reflexivity|].
  apply dtype_to.
Qed.

(* ================================================================== *)
(** ** FrozenBatchNorm2d                                               *)
(* ================================================================== *)

Section FrozenBatchNorm2d_facts.












End FrozenBatchNorm2d_facts.


(* ================================================================== *)
(** ** Construction: Backbone and build_backbone                       *)
(* ================================================================== *)

Section Construction_facts.

Context {A : Type} {SA : Scalar A}.

Variable torchvision_models :
  string -> list bool -> bool -> NormLayer A -> result (NNModule A).
Variable is_main_process : bool.

(** [Backbone.__init__], branch by branch. *)
Lemma Backbone_init_unfold (name : string) (train dilation : bool) (sel : list Z)
    (batch_norm : NormLayer A) (log : list Event) :
  Backbone_init torchvision_models is_main_process name train dilation sel batch_norm log =
  if list_in String.eqb name ["resnet18"; "resnet34"; "resnet50"; "resnet101"] then
    let log' :=
      log ++ [Call_torchvision_models name [false; false; dilation] is_main_process] in
    match torchvision_models name [false; false; dilation] is_main_process batch_norm with
    | Raise e => (Raise e, log')
    | Ok backbone =>
        if list_in String.eqb name ["resnet18"; "resnet34"] then
          (Raise (AssertionError "Only resnet50 and resnet101 are available."), log')
        else if list_in (list_eqb Z.eqb) sel legal_return_interm_indices then
          (snd (BackboneBase_init backbone train
                  (slice_from (4 - Z.of_nat (length sel))%Z [256; 512; 1024; 2048]%Z) sel),
           log')
        else (Raise (AssertionError ""), log')
    end
  else (Raise (NotImplementedError ("Why you can get here with name " ++ name)), log).
Proof.
  unfold Backbone_init, bindM, call, lift, raise, assert.
  destruct (list_in String.eqb name ["resnet18"; "resnet34"; "resnet50"; "resnet101"]);
    [|reflexivity].
  destruct (torchvision_models name _ _ _); [|reflexivity].
  destruct (list_in String.eqb name ["resnet18"; "resnet34"]); [reflexivity|].
  destruct (list_in (list_eqb Z.eqb) sel legal_return_interm_indices); reflexivity.
Qed.

Lemma BackboneBase_init_legal_ok (enc : NNModule A) (train : bool) (nc sel : list Z) :
  In sel legal_return_interm_indices -> has_resnet_stages enc ->
  exists bb, snd (BackboneBase_init enc train nc sel) = Ok bb /\ num_channels bb = nc.
Proof.
  intros Hlegal Henc.
  assert (forall s, In s ["layer1"; "layer2"; "layer3"; "layer4"] ->
                    list_in String.eqb s (map fst (named_children enc)) = true) as Hin.
  { intros s Hs. apply list_in_string_spec. now apply Henc. }
  unfold BackboneBase_init, IntermediateLayerGetter_init. cbn [snd named_children].
  assert (forallb (fun k => list_in String.eqb k (map fst (named_children enc)))
                  (od_keys (make_return_layers sel)) = true) as ->.
  { destruct Hlegal as [<-|[<-|[<-|[]]]]; cbn [make_return_layers od_keys]; simpl;
      rewrite ?Hin; simpl; auto 6. }
  simpl. eexists. split; reflexivity.
Qed.

Lemma legal_num_channels (sel : list Z) :
  In sel legal_return_interm_indices ->
  length (slice_from (4 - Z.of_nat (length sel))%Z [256; 512; 1024; 2048]%Z) = length sel.
Proof. intros [<-|[<-|[<-|[]]]]; reflexivity. Qed.

Context {FA : FloatArith A}.

Variable build_position_encoding : Args.t -> result (PositionEmbedding A).
Variable SSLVisionTransformer_init : VitKwargs.t -> result (SSLVisionTransformer A).

Local Abbreviation build := (build_backbone torchvision_models is_main_process
                     build_position_encoding SSLVisionTransformer_init).
Local Abbreviation branches := (build_backbone_branches torchvision_models is_main_process
                        build_position_encoding SSLVisionTransformer_init).

(** The statements after the branches read [num_channels] and
    [position_embedding], each of which only one branch assigns. *)
Lemma build_backbone_after_branches (args : Args.t) (log : list Event) :
  build args log =
  match branches args log with
  | (Raise e, log') => (Raise e, log')
  | (Ok locals, log') =>
      match l_backbone locals, l_position_embedding locals, l_num_channels locals with
      | None, _, _ => (Raise (UnboundLocalError "backbone"), log')
      | Some _, None, _ => (Raise (UnboundLocalError "position_embedding"), log')
      | Some _, Some _, None => (Raise (UnboundLocalError "num_channels"), log')
      | Some b, Some p, Some n => (Ok (mkJoiner b p (Some n)), log')
      end
  end.
Proof.
  unfold build_backbone, bindM, lift, ret, load_fast.
  destruct (branches args log) as [[locals|e] log']; [|reflexivity].
  destruct (l_backbone locals), (l_position_embedding locals), (l_num_channels locals);
    reflexivity.
Qed.

(** The convolutional branch, step by step. *)
Lemma branches_conv (args : Args.t) (log : list Event) :
  In (Args.backbone args) ["resnet50"; "resnet101"] ->
  branches args log =
  let log1 := log ++ [Call_build_position_encoding] in
  match build_position_encoding args with
  | Raise e => (Raise e, log1)
  | Ok position_embedding =>
      if Qle_bool (Args.lr_backbone args) 0 then
        (Raise (ValueError "Please set lr_backbone > 0"), log1)
      else if negb (list_in (list_eqb Z.eqb) (Args.return_interm_indices args)
                      legal_return_interm_indices) then
        (Raise (AssertionError ""), log1)
      else
        match Backbone_init torchvision_models is_main_process (Args.backbone args) true
                (Args.dilation args) (Args.return_interm_indices args)
                FrozenBatchNorm2d_class log1 with
        | (Raise e, log2) => (Raise e, log2)
        | (Ok backbone, log2) =>
            if Nat.eqb (length (num_channels backbone))
                       (length (Args.return_interm_indices args))
            then (Ok (mkLocals (Some position_embedding) (Some (ConvBackbone backbone))
                               (Some (num_channels backbone)) None), log2)
            else (Raise (AssertionError
                           ("len(bb_num_channels) "
                            ++ str_of_nat (length (num_channels backbone))
                            ++ " != len(return_interm_indices) "
                            ++ str_of_nat (length (Args.return_interm_indices args)))),
                  log2)
        end
  end.
Proof.
  intros Hname. apply list_in_string_spec in Hname.
  unfold build_backbone_branches. rewrite Hname.
  unfold bindM, call, lift, raise, ret, assert, Qltb.
  destruct (build_position_encoding args); [|reflexivity].
  destruct (Qle_bool (Args.lr_backbone args) 0); [reflexivity|]. cbn [negb].
  destruct (list_in (list_eqb Z.eqb) _ _); [|reflexivity]. cbn [negb].
  destruct (Backbone_init _ _ _ _ _ _ _ _) as [[backbone|e] log2]; [|reflexivity].
  destruct (Nat.eqb _ _); reflexivity.
Qed.

(** The transformer branch. *)
Lemma branches_vit (args : Args.t) (log : list Event) :
  In (Args.backbone args) ["SSLVisionTransformer"; "ssl_vit"] ->
  branches args log =
  let kwargs := SSLVisionTransformer_kwargs args in
  match SSLVisionTransformer_init kwargs with
  | Raise e => (Raise e, log ++ [Call_SSLVisionTransformer kwargs])
  | Ok vit =>
      (Ok (mkLocals None
             (Some (VitBackbone
                      (VitBackboneAdapter_init vit (Args.out_indices args)
                         (Args.patch_size args, Args.patch_size args))))
             None
             (Some [320; 640; Args.embed_dim args; Args.embed_dim args]%Z)),
       log ++ [Call_SSLVisionTransformer kwargs])
  end.
Proof.
  intros Hname.
  assert (list_in String.eqb (Args.backbone args) ["resnet50"; "resnet101"] = false) as Hc.
  { destruct Hname as [<-|[<-|[]]]; reflexivity. }
  apply list_in_string_spec in Hname.
  unfold build_backbone_branches. rewrite Hc, Hname.
  unfold bindM, call, ret.
  destruct (SSLVisionTransformer_init _); reflexivity.
Qed.

Lemma branches_other (args : Args.t) (log : list Event) :
  ~ In (Args.backbone args) ["resnet50"; "resnet101"] ->
  ~ In (Args.backbone args) ["SSLVisionTransformer"; "ssl_vit"] ->
  branches args log =
  (Raise (NotImplementedError ("Unknown backbone " ++ Args.backbone args)), log).
Proof.
  intros H1 H2. unfold build_backbone_branches.
  destruct (list_in String.eqb (Args.backbone args) ["resnet50"; "resnet101"]) eqn:E1.
  { apply list_in_string_spec in E1. contradiction. }
  destruct (list_in String.eqb (Args.backbone args) ["SSLVisionTransformer"; "ssl_vit"]) eqn:E2.
  { apply list_in_string_spec in E2. contradiction. }
  reflexivity.
Qed.

(** Every run of [build_backbone] ends in an exception. *)
Lemma build_backbone_never_returns (args : Args.t) (log : list Event) :
  exists e, fst (build args log) = Raise e.
Proof.
  rewrite build_backbone_after_branches.
  destruct (in_dec string_dec (Args.backbone args) ["resnet50"; "resnet101"]) as [Hc|Hc].
  - rewrite (branches_conv args log Hc). cbv zeta.
    destruct (build_position_encoding args); [|simpl; eauto].
    destruct (Qle_bool (Args.lr_backbone args) 0); [simpl; eauto|].
    destruct (negb (list_in (list_eqb Z.eqb) (Args.return_interm_indices args)
                      legal_return_interm_indices)); [simpl; eauto|].
    destruct (Backbone_init torchvision_models is_main_process (Args.backbone args) true
                (Args.dilation args) (Args.return_interm_indices args)
                FrozenBatchNorm2d_class (log ++ [Call_build_position_encoding]))
      as [[backbone|e] log2]; [|simpl; eauto].
    destruct (Nat.eqb (length (num_channels backbone))
                (length (Args.return_interm_indices args))); simpl; eauto.
  - destruct (in_dec string_dec (Args.backbone args) ["SSLVisionTransformer"; "ssl_vit"])
      as [Hv|Hv].
    + rewrite (branches_vit args log Hv). cbv zeta.
      destruct (SSLVisionTransformer_init _); simpl; eauto.
    + rewrite (branches_other args log Hc Hv). simpl. eauto.
Qed.

Lemma Qle_bool_false (x y : Q) : Qle_bool x y = false <-> (y < x)%Q.
Proof.
  split.
  - intros H. apply Qnot_le_lt. intros Hle. apply Qle_bool_iff in Hle. congruence.
  - intros H. destruct (Qle_bool x y) eqn:E; [|reflexivity].
    apply Qle_bool_iff in E. exfalso. exact (Qlt_not_le _ _ H E).
Qed.

Lemma supported_names (name : string) :
  In name ["resnet50"; "resnet101"] ->
  list_in String.eqb name ["resnet18"; "resnet34"; "resnet50"; "resnet101"] = true /\
  list_in String.eqb name ["resnet18"; "resnet34"] = false.
Proof. intros [<-|[<-|[]]]; split; reflexivity. Qed.

(** [Backbone.__init__] on a supported depth and a legal selection. *)
Lemma Backbone_init_legal (name : string) (train dilation : bool) (sel : list Z)
    (bn : NormLayer A) (log : list Event) (enc : NNModule A) :
  In name ["resnet50"; "resnet101"] ->
  torchvision_models name [false; false; dilation] is_main_process bn = Ok enc ->
  has_resnet_stages enc ->
  In sel legal_return_interm_indices ->
  exists bb,
    Backbone_init torchvision_models is_main_process name train dilation sel bn log
    = (Ok bb, log ++ [Call_torchvision_models name [false; false; dilation]
                        is_main_process]) /\
    length (num_channels bb) = length sel.
Proof.
  intros Hname Htv Henc Hlegal.
  rewrite Backbone_init_unfold. destruct (supported_names name Hname) as [-> ->]. cbv zeta.
  rewrite Htv. pose proof Hlegal as Hl. apply legal_spec in Hl. rewrite Hl.
  destruct (BackboneBase_init_legal_ok enc train
              (slice_from (4 - Z.of_nat (length sel))%Z [256; 512; 1024; 2048]%Z) sel
              Hlegal Henc) as (bb & -> & Hnc).
  exists bb. split; [reflexivity|]. rewrite Hnc. now apply legal_num_channels.
Qed.

(** The convolutional branch of [build_backbone] on a configuration that
    passes its checks: it assigns [position_embedding], [backbone] and
    [bb_num_channels], and leaves [num_channels] unassigned. *)
Lemma branches_conv_legal (args : Args.t) (log : list Event) (pe : PositionEmbedding A)
    (enc : NNModule A) :
  In (Args.backbone args) ["resnet50"; "resnet101"] ->
  (0 < Args.lr_backbone args)%Q ->
  build_position_encoding args = Ok pe ->
  In (Args.return_interm_indices args) legal_return_interm_indices ->
  torchvision_models (Args.backbone args) [false; false; Args.dilation args]
    is_main_process FrozenBatchNorm2d_class = Ok enc ->
  has_resnet_stages enc ->
  exists bb,
    branches args log =
      (Ok (mkLocals (Some pe) (Some (ConvBackbone bb)) (Some (num_channels bb)) None),
       log ++ [Call_build_position_encoding;
               Call_torchvision_models (Args.backbone args)
                 [false; false; Args.dilation args] is_main_process]) /\
    length (num_channels bb) = length (Args.return_interm_indices args).
Proof.
  intros Hname Hlr Hpe Hlegal Htv Henc. apply Qle_bool_false in Hlr.
  rewrite (branches_conv args log Hname). cbv zeta. rewrite Hpe, Hlr.
  pose proof Hlegal as Hl. apply legal_spec in Hl. rewrite Hl. cbn [negb].
  destruct (Backbone_init_legal (Args.backbone args) true (Args.dilation args)
              (Args.return_interm_indices args) FrozenBatchNorm2d_class
              (log ++ [Call_build_position_encoding]) enc Hname Htv Henc Hlegal)
    as (bb & -> & L).
  rewrite L, Nat.eqb_refl, <- app_assoc.
  exists bb. split; [reflexivity | exact L].
Qed.

(** C7 (as amended).  [Backbone.__init__] returns no backbone for a name
    other than resnet50 and resnet101.  For a name outside the four residual
    names it raises NotImplementedError and calls no constructor.  For
    resnet18 and resnet34 it first calls the torchvision constructor of that
    depth, and when this returns an encoder it raises the assertion error
    "Only resnet50 and resnet101 are available.". *)
Theorem Backbone_init_unsupported_depth :
  forall (name : string) (train_backbone dilation : bool)
         (return_interm_indices : list Z) (batch_norm : NormLayer A) (log : list Event),
    name <> "resnet50" -> name <> "resnet101" ->
    let r := Backbone_init torchvision_models is_main_process name train_backbone dilation
               return_interm_indices batch_norm log in
    (exists e, fst r = Raise e) /\
    (~ In name ["resnet18"; "resnet34"] ->
     r = (Raise (NotImplementedError ("Why you can get here with name " ++ name)), log)) /\
    (In name ["resnet18"; "resnet34"] ->
     snd r = log ++ [Call_torchvision_models name [false; false; dilation] is_main_process] /\
     forall enc,
       torchvision_models name [false; false; dilation] is_main_process batch_norm = Ok enc ->
       fst r = Raise (AssertionError "Only resnet50 and resnet101 are available.")).
Proof.
  intros name train dilation sel bn log H50 H101 r. unfold r.
  rewrite Backbone_init_unfold. cbv zeta.
  destruct (list_in String.eqb name ["resnet18"; "resnet34"; "resnet50"; "resnet101"]) eqn:E4.
  - apply list_in_string_spec in E4.
    assert (In name ["resnet18"; "resnet34"]) as H2.
    { simpl in E4 |- *. intuition congruence. }
    pose proof H2 as H2b. apply list_in_string_spec in H2b. rewrite H2b.
    split; [|split].
    + destruct (torchvision_models name _ _ _); simpl; eauto.
    + intros Hn. contradiction.
    + intros _. split.
      * destruct (torchvision_models name _ _ _); reflexivity.
      * intros enc ->. reflexivity.
  - split; [simpl; eauto|]. split; [reflexivity|].
    intros H2. exfalso.
    assert (In name ["resnet18"; "resnet34"; "resnet50"; "resnet101"]) as H4.
    { simpl in H2 |- *. intuition. }
    apply list_in_string_spec in H4. congruence.
Qed.


(** C6.  For a convolutional backbone and a fine-tune learning rate that is
    zero or negative, [build_backbone] raises: the position-encoding builder
    is the only constructor it has called by then, so no encoder has been
    constructed, and when that builder returned, the error is the
    ValueError "Please set lr_backbone > 0". *)
Theorem build_backbone_nonpositive_lr :
  forall (args : Args.t) (log : list Event),
    In (Args.backbone args) ["resnet50"; "resnet101"] ->
    (Args.lr_backbone args <= 0)%Q ->
    (exists e, fst (build args log) = Raise e) /\
    snd (build args log) = log ++ [Call_build_position_encoding] /\
    no_encoder_since log (snd (build args log)) /\
    (forall pe, build_position_encoding args = Ok pe ->
                fst (build args log) = Raise (ValueError "Please set lr_backbone > 0")).
Proof.
  intros args log Hname Hlr. apply Qle_bool_iff in Hlr.
  assert (build args log =
          (match build_position_encoding args with
           | Ok _ => Raise (ValueError "Please set lr_backbone > 0")
           | Raise e => Raise e
           end, log ++ [Call_build_position_encoding])) as E.
  { rewrite build_backbone_after_branches, (branches_conv args log Hname). cbv zeta.
    rewrite Hlr. destruct (build_position_encoding args); reflexivity. }
  rewrite E. cbn [fst snd]. split; [|split; [|split]].
  - destruct (build_position_encoding args); eauto.
  - reflexivity.
  - exists [Call_build_position_encoding]. split; reflexivity.
  - intros pe ->. reflexivity.
Qed.

(** C1 (the code departs from it).  For a convolutional configuration that
    passes the validation, [build_backbone] builds the backbone and then
    raises UnboundLocalError for [num_channels], which only the transformer
    branch assigns; for a transformer configuration it raises
    UnboundLocalError for [position_embedding], which only the convolutional
    branch assigns.  No configuration makes it return a joiner. *)
Theorem build_backbone_unbound_locals :
  forall (args : Args.t) (log : list Event),
    (In (Args.backbone args) ["resnet50"; "resnet101"] ->
     (0 < Args.lr_backbone args)%Q ->
     In (Args.return_interm_indices args) legal_return_interm_indices ->
     forall pe enc,
       build_position_encoding args = Ok pe ->
       torchvision_models (Args.backbone args) [false; false; Args.dilation args]
         is_main_process FrozenBatchNorm2d_class = Ok enc ->
       has_resnet_stages enc ->
       fst (build args log) = Raise (UnboundLocalError "num_channels")) /\
    (In (Args.backbone args) ["SSLVisionTransformer"; "ssl_vit"] ->
     forall v,
       SSLVisionTransformer_init (SSLVisionTransformer_kwargs args) = Ok v ->
       fst (build args log) = Raise (UnboundLocalError "position_embedding")) /\
    (forall joiner, fst (build args log) <> Ok joiner).
Proof.
  intros args log. split; [|split].
  - intros Hname Hlr Hlegal pe enc Hpe Htv Henc.
    destruct (branches_conv_legal args log pe enc Hname Hlr Hpe Hlegal Htv Henc)
      as (bb & E & _).
    rewrite build_backbone_after_branches, E. reflexivity.
  - intros Hname v Hv.
    rewrite build_backbone_after_branches, (branches_vit args log Hname). cbv zeta.
    rewrite Hv. reflexivity.
  - intros joiner H. destruct (build_backbone_never_returns args log) as [e He].
    congruence.
Qed.

End Construction_facts.

(* ================================================================== *)
(** ** The statements at concrete inputs                               *)
(* ================================================================== *)

Lemma sample_resnet_stages {A : Type} : has_resnet_stages (@sample_resnet A).
Proof.
  intros s Hs. simpl in Hs |- *.
  repeat (destruct Hs as [<-|Hs]; [auto 10|]). destruct Hs.
Qed.

Lemma sample_mask_3d {A : Type} {SA : Scalar A} : is_mask_3d (@sample_mask A SA).
Proof. exists 2, 64, 96. repeat split; simpl; lia. Qed.

Lemma not_later_stage_layer1 : ~ later_stage "layer1.0.conv1.weight".
Proof.
  intros H. apply later_stage_spec in H. discriminate H.
Qed.

(** [build_backbone] on a ResNet-50 configuration with a positive rate and
    the selection [1,2,3], and on a transformer configuration. *)
Lemma build_backbone_unbound_locals_witness :
  fst (run (build_backbone (A := R) sample_torchvision_models true
              sample_build_position_encoding sample_SSLVisionTransformer_init
              (sample_args "resnet50" (1 # 100000)%Q [1; 2; 3]%Z [])))
  = Raise (UnboundLocalError "num_channels")
  /\
  fst (run (build_backbone (A := R) sample_torchvision_models true
              sample_build_position_encoding sample_SSLVisionTransformer_init
              (sample_args "ssl_vit" 0%Q [] [4; 11]%Z)))
  = Raise (UnboundLocalError "position_embedding").
Proof.
  split.
  - destruct (build_backbone_unbound_locals (A := R) sample_torchvision_models true
                sample_build_position_encoding sample_SSLVisionTransformer_init
                (sample_args "resnet50" (1 # 100000)%Q [1; 2; 3]%Z []) []) as (Hconv & _ & _).
    apply (Hconv (or_introl eq_refl) eq_refl (or_intror (or_introl eq_refl))
             sample_position_embedding sample_resnet eq_refl eq_refl sample_resnet_stages).
  - destruct (build_backbone_unbound_locals (A := R) sample_torchvision_models true
                sample_build_position_encoding sample_SSLVisionTransformer_init
                (sample_args "ssl_vit" 0%Q [] [4; 11]%Z) []) as (_ & Hvit & _).
    apply (Hvit (or_intror (or_introl eq_refl)) sample_vit eq_refl).
Defined.


(** The sample encoder with the selection [1,2,3], and the sample
    transformer with two distinct indices, on the sample batch. *)
Lemma feature_maps_count_and_masks_witness :
  (exists bb out,
      snd (BackboneBase_init (A := Q) sample_resnet true [512; 1024; 2048]%Z [1; 2; 3]%Z)
      = Ok bb /\
      BackboneBase_forward bb sample_batch = Ok out /\ length out = 3 /\
      Forall (fun kf => mask_matches (snd kf)) out)
  /\
  (exists out,
      VitBackboneAdapter_forward (A := Q) (sample_adapter [4; 11]%Z) sample_batch = Ok out /\
      length out = 2 /\ Forall (fun kf => mask_matches (snd kf)) out).
Proof.
  destruct (feature_maps_count_and_masks Q Scalar_Q) as [Hconv Hvit]. split.
  - destruct (BackboneBase_init_legal_ok (A := Q) sample_resnet true
                [512; 1024; 2048]%Z [1; 2; 3]%Z (or_intror (or_introl eq_refl))
                sample_resnet_stages) as (bb & Hbb & _).
    destruct (Hconv sample_resnet true [512; 1024; 2048]%Z [1; 2; 3]%Z bb sample_batch
                sample_mask (or_intror (or_introl eq_refl)) Hbb eq_refl sample_mask_3d)
      as (out & E & L & M).
    + revert Hbb. cbv [BackboneBase_init snd IntermediateLayerGetter_init].
      simpl. intros Hbb. injection Hbb as <-.
      cbv [IntermediateLayerGetter_forward body layers return_layers].
      simpl.
      repeat constructor; simpl.
      * exists [2; 512], 8, 12. repeat split; lia.
      * exists [2; 1024], 4, 6. repeat split; lia.
      * exists [2; 2048], 2, 3. repeat split; lia.
    + exists bb, out. auto.
  - destruct (Hvit (sample_adapter [4; 11]%Z) sample_batch sample_mask eq_refl
                sample_mask_3d) as (out & E & L & _ & M).
    + repeat constructor.
      * exists 2, 320, 16, 24. repeat split; simpl; lia.
      * exists 2, 640, 8, 12. repeat split; simpl; lia.
    + exists out. auto.
Defined.

(** Four configured indices and an encoder that returns two features: the
    adapter returns two feature maps, which is neither the number of
    configured indices nor the size of a legal stage selection. *)
Lemma feature_maps_count_counterexample :
  exists out,
    VitBackboneAdapter_forward (A := Q) (sample_adapter [4; 11; 17; 23]%Z) sample_batch
    = Ok out /\
    od_keys out = ["stage4"; "stage11"] /\
    length out <> length (out_indices (A := Q) (sample_adapter [4; 11; 17; 23]%Z)) /\
    forall return_interm_indices,
      In return_interm_indices legal_return_interm_indices ->
      length out <> length return_interm_indices.
Proof.
  eexists. split; [reflexivity|]. split; [reflexivity|]. split.
  - simpl. discriminate.
  - intros sel [<-|[<-|[<-|[]]]]; simpl; discriminate.
Qed.

(** The sample joiner on the sample batch: two feature maps and two
    encodings, each encoding of the dtype of its feature tensor. *)
Lemma Joiner_forward_parallel_lists_witness :
  exists out pos,
    Joiner_forward (A := Q) sample_joiner sample_batch = Ok (out, pos) /\
    length out = 2 /\ length pos = 2 /\
    map (fun p => dtype p) pos = map (fun x => dtype (tensors x)) out.
Proof.
  pose proof (Joiner_forward_parallel_lists Q Scalar_Q sample_joiner sample_batch) as H.
  destruct (backbone_forward (joiner_backbone sample_joiner) sample_batch) as [xs|e] eqn:E;
    [|discriminate E].
  destruct H as (out & pos & Ej & Lo & Lp & _).
  exists out, pos. split; [exact Ej|].
  injection E as <-. split; [exact Lo|]. split; [exact Lp|].
  injection Ej as <- <-. reflexivity.
Defined.


(** ResNet-101 with a learning rate of zero. *)
Lemma build_backbone_nonpositive_lr_witness :
  run (build_backbone (A := R) sample_torchvision_models true
         sample_build_position_encoding sample_SSLVisionTransformer_init
         (sample_args "resnet101" 0%Q [1; 2; 3]%Z []))
  = (Raise (ValueError "Please set lr_backbone > 0"), [Call_build_position_encoding]).
Proof.
  destruct (build_backbone_nonpositive_lr (A := R) sample_torchvision_models true
              sample_build_position_encoding sample_SSLVisionTransformer_init
              (sample_args "resnet101" 0%Q [1; 2; 3]%Z []) [])
    as (_ & Hlog & _ & Herr).
  - right. left. reflexivity.
  - discriminate.
  - unfold run. rewrite (surjective_pairing (build_backbone _ _ _ _ _ _)).
    rewrite (Herr sample_position_embedding eq_refl), Hlog. reflexivity.
Defined.

(** resnet18: the torchvision constructor is called, and the error is the
    assertion error, not NotImplementedError. *)
Lemma Backbone_init_unsupported_depth_counterexample :
  run (Backbone_init (A := R) sample_torchvision_models true "resnet18" true false
         [3]%Z FrozenBatchNorm2d_class)
  = (Raise (AssertionError "Only resnet50 and resnet101 are available."),
     [Call_torchvision_models "resnet18" [false; false; false] true]) /\
  (forall msg,
      fst (run (Backbone_init (A := R) sample_torchvision_models true "resnet18" true false
                  [3]%Z FrozenBatchNorm2d_class))
      <> Raise (NotImplementedError msg)) /\
  existsb constructs_encoder
    (snd (run (Backbone_init (A := R) sample_torchvision_models true "resnet18" true false
                 [3]%Z FrozenBatchNorm2d_class))) = true.
Proof.
  split; [reflexivity|]. split; [intros msg H; discriminate H | reflexivity].
Qed.

Lemma Backbone_init_unsupported_depth_witness :
  run (Backbone_init (A := R) sample_torchvision_models true "resnet152" true false
         [3]%Z FrozenBatchNorm2d_class)
  = (Raise (NotImplementedError "Why you can get here with name resnet152"), []) /\
  run (Backbone_init (A := R) sample_torchvision_models true "resnet34" true false
         [3]%Z FrozenBatchNorm2d_class)
  = (Raise (AssertionError "Only resnet50 and resnet101 are available."),
     [Call_torchvision_models "resnet34" [false; false; false] true]).
Proof.
  split.
  - pose proof (Backbone_init_unsupported_depth (A := R) sample_torchvision_models true
                  "resnet152" true false [3]%Z FrozenBatchNorm2d_class []
                  ltac:(discriminate) ltac:(discriminate)) as H.
    cbv zeta in H. destruct H as (_ & H & _).
    apply H. intros [E|[E|[]]]; discriminate E.
  - pose proof (Backbone_init_unsupported_depth (A := R) sample_torchvision_models true
                  "resnet34" true false [3]%Z FrozenBatchNorm2d_class []
                  ltac:(discriminate) ltac:(discriminate)) as H.
    cbv zeta in H. destruct H as (_ & _ & H).
    destruct (H (or_intror (or_introl eq_refl))) as [Hlog Herr].
    unfold run. rewrite (surjective_pairing (Backbone_init _ _ _ _ _ _ _ _)).
    rewrite (Herr sample_resnet eq_refl), Hlog. reflexivity.
Defined.

(** The first stage of the sample encoder stays frozen under a true
    trainable flag. *)
Lemma BackboneBase_init_freezing_policy_witness :
  exists p',
    nth_error
      (named_parameters
         (fst (BackboneBase_init (A := Q) sample_resnet true [2048]%Z [3]%Z))) 1
    = Some p' /\
    p_name p' = "layer1.0.conv1.weight" /\ requires_grad p' = false.
Proof.
  destruct (BackboneBase_init_freezing_policy Q sample_resnet true [2048]%Z [3]%Z)
    as (_ & _ & H).
  destruct (H 1 (mkNamedParameter "layer1.0.conv1.weight" true) eq_refl)
    as (p' & E & Hn & _ & Hoff & _).
  exists p'. split; [exact E|]. split; [exact Hn|].
  apply Hoff. right. exact not_later_stage_layer1.
Defined.

(** The sample encoder with the selection [3] on a batch without mask. *)
Lemma BackboneBase_forward_mask_precondition_witness :
  exists bb,
    snd (BackboneBase_init (A := Q) sample_resnet true [2048]%Z [3]%Z) = Ok bb /\
    BackboneBase_forward bb sample_batch_no_mask = Raise (AssertionError "").
Proof.
  destruct (BackboneBase_init_legal_ok (A := Q) sample_resnet true [2048]%Z [3]%Z
              (or_intror (or_intror (or_introl eq_refl))) sample_resnet_stages)
    as (bb & Hbb & _).
  exists bb. split; [exact Hbb|].
  destruct (BackboneBase_forward_mask_precondition Q Scalar_Q sample_resnet true [2048]%Z
              [3]%Z bb sample_batch_no_mask) as (_ & H & _).
  - discriminate.
  - exact Hbb.
  - apply H. reflexivity.
Defined.

(** A repeated index: two indices, two features, one entry. *)
Lemma VitBackboneAdapter_forward_pairs_counterexample :
  exists out,
    VitBackboneAdapter_forward (A := Q) (sample_adapter [2; 2]%Z) sample_batch = Ok out /\
    Nat.min (length (out_indices (A := Q) (sample_adapter [2; 2]%Z)))
            (length (vit_forward (A := Q) sample_vit sample_image)) = 2 /\
    od_keys out = ["stage2"] /\
    length out <> 2.
Proof.
  eexists. split; [reflexivity|]. split; [reflexivity|]. split; [reflexivity|].
  simpl. discriminate.
Qed.

(** Four indices and two features: two entries, no error. *)
Lemma VitBackboneAdapter_forward_pairs_witness :
  exists out,
    VitBackboneAdapter_forward (A := Q) (sample_adapter [4; 11; 17; 23]%Z) sample_batch
    = Ok out /\
    od_keys out = ["stage4"; "stage11"] /\ length out = 2.
Proof.
  destruct (VitBackboneAdapter_forward_pairs Q Scalar_Q (sample_adapter [4; 11; 17; 23]%Z)
              sample_batch sample_mask eq_refl sample_mask_3d)
    as (out & E & K & _ & _ & _ & L).
  - repeat constructor.
    + exists 2, 320, 16, 24. repeat split; simpl; lia.
    + exists 2, 640, 8, 12. repeat split; simpl; lia.
  - exists out. split; [exact E|]. split; [exact K|].
    apply L. repeat constructor; simpl; intuition discriminate.
Defined.

(** The scenario of the specification: the selection [1,2,3] on a batch of
    shape (2, 3, 800, 1200) gives three feature maps at strides 8, 16 and 32
    with masks of their spatial shapes; in each mask the left end of the
    second image is true and its padded right end is false. *)
Example scenario_strides_8_16_32 :
  scenario_summary (A := Q) sample_resnet [1; 2; 3]%Z scenario_batch
  = Ok [("1", [2; 512; 100; 150], Some ([2; 100; 150], 1%Q, 0%Q));
        ("2", [2; 1024; 50; 75], Some ([2; 50; 75], 1%Q, 0%Q));
        ("3", [2; 2048; 25; 38], Some ([2; 25; 38], 1%Q, 0%Q))].
Proof. vm_compute. reflexivity. Qed.

(* ================================================================== *)
(** ** Further properties: restoring the state of FrozenBatchNorm2d    *)
(* ================================================================== *)

Lemma string_app_inj (p a b : string) : (p ++ a = p ++ b)%string -> a = b.
Proof. induction p as [|c p IH]; simpl; intros H; [assumption|]. injection H. exact IH. Qed.

Lemma prefix_of_app (p s : string) : String.prefix p (p ++ s) = true.
Proof. apply prefix_app. now exists s. Qed.

Lemma substring_all (s : string) : String.substring 0 (String.length s) s = s.
Proof. induction s as [|c s IH]; simpl; [reflexivity | now rewrite IH]. Qed.

Lemma str_drop_app (p s : string) : str_drop (String.length p) (p ++ s) = s.
Proof.
  unfold str_drop. induction p as [|c p IH]; simpl.
  - rewrite Nat.sub_0_r. apply substring_all.
  - exact IH.
Qed.

Section Dictionary_deletion.

Context {V : Type}.

Lemma od_del_get (d : OrderedDict V) (k k' : string) :
  od_get (od_del d k) k' = if String.eqb k' k then None else od_get d k'.
Proof.
  unfold od_del. induction d as [|[k0 v0] d IH]; simpl.
  - now destruct (String.eqb k' k).
  - destruct (String.eqb k0 k) eqn:E0; simpl.
    + apply String.eqb_eq in E0. subst k0. rewrite IH.
      destruct (String.eqb k' k) eqn:E1; [reflexivity|].
      rewrite String.eqb_sym in E1. now rewrite E1.
    + rewrite IH. destruct (String.eqb k0 k') eqn:E1; [|reflexivity].
      apply String.eqb_eq in E1. subst k0. now rewrite E0.
Qed.

Lemma od_del_absent (d : OrderedDict V) (k : string) :
  ~ In k (od_keys d) -> od_del d k = d.
Proof.
  unfold od_del, od_keys. induction d as [|[k0 v0] d IH]; simpl; [reflexivity|].
  intros H. destruct (String.eqb k0 k) eqn:E; simpl.
  - apply String.eqb_eq in E. tauto.
  - f_equal. apply IH. tauto.
Qed.

Lemma od_del_not_in (d : OrderedDict V) (k : string) : ~ In k (od_keys (od_del d k)).
Proof. rewrite od_del_keys. tauto. Qed.

Lemma od_del_idem (d : OrderedDict V) (k : string) : od_del (od_del d k) k = od_del d k.
Proof. apply od_del_absent, od_del_not_in. Qed.

Lemma od_mem_true (d : OrderedDict V) (k : string) : od_mem d k = true <-> In k (od_keys d).
Proof.
  destruct (od_mem d k) eqn:E.
  - split; [intros _ | reflexivity].
    destruct (in_dec string_dec k (od_keys d)) as [H|H]; [assumption|].
    apply od_mem_false in H. congruence.
  - apply od_mem_false in E. split; [discriminate | contradiction].
Qed.

(** [if k in d: del d[k]] *)
Lemma od_del_if_mem (d : OrderedDict V) (k : string) :
  (if od_mem d k then od_del d k else d) = od_del d k.
Proof.
  destruct (od_mem d k) eqn:E; [reflexivity|].
  apply od_mem_false in E. symmetry. now apply od_del_absent.
Qed.

End Dictionary_deletion.

Section Load_facts.

Context {A : Type} {SA : Scalar A}.

Lemma shape_eqb_spec (s1 s2 : list nat) : list_eqb Nat.eqb s1 s2 = true <-> s1 = s2.
Proof.
  revert s2; induction s1 as [|a s1 IH]; intros [|b s2]; simpl;
    try (split; [discriminate | discriminate]); try tauto.
  rewrite andb_true_iff, Nat.eqb_eq, IH. split.
  - intros [-> ->]; reflexivity.
  - intros H; injection H; auto.
Qed.

(** One step of the loop over the buffers: what it may change. *)
Lemma load_param_inv (prefix : string) (strict : bool) (name : string) (param : Tensor A)
    (st : LoadState A) (r : Tensor A * LoadState A) :
  load_param prefix strict name param st = Ok r ->
  state_dict (snd r) = state_dict st /\
  unexpected_keys (snd r) = unexpected_keys st /\
  shape (fst r) = shape param /\ dtype (fst r) = dtype param /\
  missing_keys (snd r) =
    missing_keys st
    ++ (if strict && negb (od_mem (state_dict st) (prefix ++ name))
        then [(prefix ++ name)%string] else []) /\
  (od_get (state_dict st) (prefix ++ name) = None ->
   fst r = param /\ error_msgs (snd r) = error_msgs st) /\
  (forall input, od_get (state_dict st) (prefix ++ name) = Some input ->
     shape param <> [] ->
     (shape input = shape param ->
      fst r = copy_ param input /\ error_msgs (snd r) = error_msgs st) /\
     (shape input <> shape param ->
      fst r = param /\
      error_msgs (snd r)
      = error_msgs st ++ [size_mismatch (prefix ++ name) (shape input) (shape param)])).
Proof.
  unfold load_param, od_mem.
  destruct (od_get (state_dict st) (prefix ++ name)) as [input|] eqn:Eg.
  - rewrite andb_false_r, app_nil_r.
    destruct (Nat.eqb (length (shape param)) 0 && Nat.eqb (length (shape input)) 1) eqn:Ec.
    + apply andb_true_iff in Ec. destruct Ec as [Ec _]. apply Nat.eqb_eq in Ec.
      apply length_zero_iff_nil in Ec.
      destruct (select0 input) as [i0|e]; simpl; [|discriminate].
      destruct (negb (list_eqb Nat.eqb (shape i0) (shape param))); intros H;
        injection H as <-; simpl; repeat split; try reflexivity; try discriminate;
        intros; congruence.
    + simpl. destruct (list_eqb Nat.eqb (shape input) (shape param)) eqn:Es; simpl;
        intros H; injection H as <-; simpl.
      * apply shape_eqb_spec in Es.
        repeat split; try reflexivity; try discriminate; intros; congruence.
      * assert (shape input <> shape param) as Hne.
        { intros Heq. apply shape_eqb_spec in Heq. congruence. }
        repeat split; try reflexivity; try discriminate; intros; congruence.
  - rewrite andb_true_r. destruct strict; intros H; injection H as <-; simpl;
      repeat split; try reflexivity; try (now rewrite app_nil_r); intros; discriminate.
Qed.

Lemma load_param_total (prefix : string) (strict : bool) (name : string) (param : Tensor A)
    (st : LoadState A) :
  shape param <> [] -> exists r, load_param prefix strict name param st = Ok r.
Proof.
  intros Hp. unfold load_param.
  destruct (od_get (state_dict st) (prefix ++ name)) as [input|].
  - destruct (shape param) as [|d s] eqn:E; [congruence|]. simpl.
    destruct (negb _); eauto.
  - destruct strict; eauto.
Qed.

Lemma load_param_buffer (prefix : string) (strict : bool) (name : string) (param : Tensor A)
    (st : LoadState A) (r : Tensor A * LoadState A) :
  shape param <> [] ->
  load_param prefix strict name param st = Ok r ->
  fst r = loaded_buffer (state_dict st) (prefix ++ name) param.
Proof.
  intros Hp H. destruct (load_param_inv _ _ _ _ _ _ H) as (_ & _ & _ & _ & _ & Hn & Hs).
  unfold loaded_buffer. destruct (od_get (state_dict st) (prefix ++ name)) as [input|].
  - destruct (Hs input eq_refl Hp) as [H1 H2].
    destruct (list_eqb Nat.eqb (shape input) (shape param)) eqn:E.
    + apply shape_eqb_spec in E. now destruct (H1 E).
    + apply H2. intros Heq. apply shape_eqb_spec in Heq. congruence.
  - now destruct (Hn eq_refl).
Qed.

(** The loop over the buffers. *)
Lemma load_local_state_inv (prefix : string) (strict : bool)
    (ls : list (string * Tensor A)) (st : LoadState A) :
  Forall (fun kv => shape (snd kv) <> []) ls ->
  exists st',
    load_local_state prefix strict ls st
    = Ok (map (fun kv => (fst kv, loaded_buffer (state_dict st) (prefix ++ fst kv) (snd kv))) ls,
          st') /\
    state_dict st' = state_dict st /\
    unexpected_keys st' = unexpected_keys st /\
    missing_keys st' =
      missing_keys st
      ++ (if strict
          then map (fun n => (prefix ++ n)%string)
                   (filter (fun n => negb (od_mem (state_dict st) (prefix ++ n)))
                           (map fst ls))
          else []) /\
    (forall e, In e (error_msgs st') <->
       In e (error_msgs st) \/
       exists name param input,
         In (name, param) ls /\ od_get (state_dict st) (prefix ++ name) = Some input /\
         shape input <> shape param /\
         e = size_mismatch (prefix ++ name) (shape input) (shape param)).
Proof.
  intros Hall. revert st. induction Hall as [|[name param] ls Hp Hall IH]; intros st.
  - exists st. simpl. repeat split; auto.
    + destruct strict; now rewrite app_nil_r.
    + intros [H|(n & p & i & [] & _)]. exact H.
  - simpl in Hp. cbn [load_local_state].
    destruct (load_param_total prefix strict name param st Hp) as [r Er].
    rewrite Er. cbn [Py.bind].
    pose proof (load_param_buffer _ _ _ _ _ _ Hp Er) as Hb.
    destruct (load_param_inv _ _ _ _ _ _ Er) as (Hsd & Hu & _ & _ & Hm & Hn & Hs).
    destruct (IH (snd r)) as (st' & E & Hsd' & Hu' & Hm' & He').
    rewrite E. cbn [Py.bind fst snd map]. rewrite Hsd, Hb.
    exists st'. split; [reflexivity|]. split; [congruence|]. split; [congruence|]. split.
    + rewrite Hm', Hm, Hsd, <- app_assoc. f_equal.
      destruct strict; [|reflexivity]. cbn [andb filter map].
      now destruct (negb (od_mem (state_dict st) (prefix ++ name))).
    + intros e. rewrite He', Hsd. split.
      * intros [H|(n & p & i & Hin & Hg & Hne & ->)].
        -- destruct (od_get (state_dict st) (prefix ++ name)) as [input|] eqn:Eg.
           ++ destruct (Hs input eq_refl Hp) as [H1 H2].
              destruct (list_eq_dec Nat.eq_dec (shape input) (shape param)) as [Heq|Hne].
              ** destruct (H1 Heq) as [_ Her]. rewrite Her in H. now left.
              ** destruct (H2 Hne) as [_ Her]. rewrite Her in H.
                 apply in_app_iff in H. destruct H as [H|[<-|[]]]; [now left|].
                 right. exists name, param, input. simpl. auto.
           ++ destruct (Hn eq_refl) as [_ Her]. rewrite Her in H. now left.
        -- right. exists n, p, i. simpl. auto.
      * intros [H|(n & p & i & [Hin|Hin] & Hg & Hne & ->)].
        -- left. destruct (od_get (state_dict st) (prefix ++ name)) as [input|] eqn:Eg.
           ++ destruct (Hs input eq_refl Hp) as [H1 H2].
              destruct (list_eq_dec Nat.eq_dec (shape input) (shape param)) as [Heq|Hne].
              ** destruct (H1 Heq) as [_ Her]. now rewrite Her.
              ** destruct (H2 Hne) as [_ Her]. rewrite Her. apply in_app_iff. now left.
           ++ destruct (Hn eq_refl) as [_ Her]. now rewrite Her.
        -- injection Hin as <- <-. left.
           destruct (Hs i Hg Hp) as [_ H2]. destruct (H2 Hne) as [_ Her].
           rewrite Her. apply in_app_iff. right. now left.
        -- right. exists n, p, i. auto.
Qed.

End Load_facts.

Section FrozenBatchNorm2d_load_facts.

Context {A : Type} {SA : Scalar A}.

Lemma buffer_key_not_legacy (prefix name : string) :
  In name ["weight"; "bias"; "running_mean"; "running_var"] ->
  String.eqb (prefix ++ name) (prefix ++ "num_batches_tracked") = false.
Proof.
  intros Hn. apply String.eqb_neq. intros H. apply string_app_inj in H. subst name.
  simpl in Hn. intuition discriminate.
Qed.

Lemma loaded_buffer_del (sd : OrderedDict (Tensor A)) (prefix name : string) (old : Tensor A) :
  In name ["weight"; "bias"; "running_mean"; "running_var"] ->
  loaded_buffer (od_del sd (prefix ++ "num_batches_tracked")) (prefix ++ name) old
  = loaded_buffer sd (prefix ++ name) old.
Proof.
  intros Hn. unfold loaded_buffer. now rewrite od_del_get, buffer_key_not_legacy.
Qed.

Lemma od_mem_del (sd : OrderedDict (Tensor A)) (prefix name : string) :
  In name ["weight"; "bias"; "running_mean"; "running_var"] ->
  od_mem (od_del sd (prefix ++ "num_batches_tracked")) (prefix ++ name)
  = od_mem sd (prefix ++ name).
Proof.
  intros Hn. unfold od_mem. now rewrite od_del_get, buffer_key_not_legacy.
Qed.

(** The deletion at the head of [_load_from_state_dict]. *)
Lemma drop_legacy_key (st : LoadState A) (key : string) :
  (if od_mem (state_dict st) key
   then mkLoadState (od_del (state_dict st) key) (missing_keys st) (unexpected_keys st)
          (error_msgs st)
   else st)
  = mkLoadState (od_del (state_dict st) key) (missing_keys st) (unexpected_keys st)
      (error_msgs st).
Proof.
  destruct (od_mem (state_dict st) key) eqn:E; [reflexivity|].
  apply od_mem_false in E. rewrite (od_del_absent _ _ E). now destruct st.
Qed.

(** [FrozenBatchNorm2d._load_from_state_dict], in full. *)
Lemma FrozenBatchNorm2d_load_spec (self : FrozenBatchNorm2d A) (st : LoadState A)
    (prefix : string) (strict : bool) :
  buffers_registered self ->
  let sd := state_dict st in
  let sd' := od_del sd (prefix ++ "num_batches_tracked") in
  let names := ["weight"; "bias"; "running_mean"; "running_var"] in
  exists self' st',
    FrozenBatchNorm2d_load_from_state_dict self st prefix strict = Ok (self', st') /\
    FrozenBatchNorm2d_buffers self'
    = map (fun kv => (fst kv, loaded_buffer sd (prefix ++ fst kv) (snd kv)))
          (FrozenBatchNorm2d_buffers self) /\
    state_dict st' = sd' /\
    missing_keys st' =
      missing_keys st
      ++ (if strict
          then map (fun n => (prefix ++ n)%string)
                   (filter (fun n => negb (od_mem sd (prefix ++ n))) names)
          else []) /\
    unexpected_keys st' =
      unexpected_keys st
      ++ (if strict
          then (if od_mem sd' (prefix ++ "_extra_state")
                then [(prefix ++ "_extra_state")%string] else [])
               ++ filter (is_unexpected prefix [] names) (od_keys sd')
          else []) /\
    (forall e, In e (error_msgs st') <->
       In e (error_msgs st) \/
       exists name param input,
         In (name, param) (FrozenBatchNorm2d_buffers self) /\
         od_get sd (prefix ++ name) = Some input /\
         shape input <> shape param /\
         e = size_mismatch (prefix ++ name) (shape input) (shape param)).
Proof.
  intros Hreg sd sd' names.
  unfold FrozenBatchNorm2d_load_from_state_dict. rewrite drop_legacy_key.
  unfold Module_load_from_state_dict.
  destruct (load_local_state_inv prefix strict (FrozenBatchNorm2d_buffers self)
              (mkLoadState sd' (missing_keys st) (unexpected_keys st) (error_msgs st)) Hreg)
    as (st1 & E & Hsd & Hu & Hm & He).
  fold sd sd'. rewrite E. cbn [Py.bind fst snd]. cbn [state_dict missing_keys unexpected_keys
    error_msgs] in Hsd, Hu, Hm, He.
  eexists _, _. split; [reflexivity|]. split; [|split; [|split; [|split]]].
  - cbn [FrozenBatchNorm2d_buffers map fst snd FrozenBatchNorm2d_set_buffers od_get
         String.eqb Ascii.eqb Bool.eqb weight bias running_mean running_var].
    cbn [state_dict]. unfold sd'. rewrite !loaded_buffer_del by (simpl; auto). reflexivity.
  - destruct strict; cbn [andb]; [destruct (od_mem _ _)|]; simpl; exact Hsd.
  - destruct strict; cbn [andb]; [destruct (od_mem _ _)|]; simpl; rewrite Hm;
      try reflexivity; f_equal; cbn [FrozenBatchNorm2d_buffers map fst filter];
      unfold sd'; rewrite !od_mem_del by (simpl; auto); reflexivity.
  - destruct strict; cbn [andb].
    + rewrite Hsd. destruct (od_mem sd' (prefix ++ "_extra_state")); simpl;
        rewrite Hu, ?Hsd; [now rewrite <- app_assoc | reflexivity].
    + simpl. now rewrite Hu, app_nil_r.
  - intros e.
    assert (In e (error_msgs st1) <->
            In e (error_msgs st) \/
            exists name param input,
              In (name, param) (FrozenBatchNorm2d_buffers self) /\
              od_get sd (prefix ++ name) = Some input /\
              shape input <> shape param /\
              e = size_mismatch (prefix ++ name) (shape input) (shape param)) as Hiff.
    { rewrite He. split; (intros [H|(n & p & i & Hin & Hg & Hne & ->)]; [now left|]);
        right; exists n, p, i; (split; [exact Hin|]); (split; [|now split]).
      - unfold sd' in Hg. rewrite od_del_get, buffer_key_not_legacy in Hg; [exact Hg|].
        apply (in_map fst) in Hin. exact Hin.
      - unfold sd'. rewrite od_del_get, buffer_key_not_legacy; [exact Hg|].
        apply (in_map fst) in Hin. exact Hin. }
    destruct strict; cbn [andb]; [destruct (od_mem _ _)|]; simpl; exact Hiff.
Qed.

End FrozenBatchNorm2d_load_facts.

(** X1.  [FrozenBatchNorm2d._load_from_state_dict] returns for a module with
    registered buffers, and leaves the state dict without the key
    prefix + "num_batches_tracked" and with every other entry as it was;
    the key is added neither to the unexpected nor to the missing keys. *)
Theorem load_state_drops_num_batches_tracked :
  forall (A : Type) (SA : Scalar A) (self : FrozenBatchNorm2d A) (st : LoadState A)
         (prefix : string) (strict : bool),
    buffers_registered self ->
    exists self' st',
      FrozenBatchNorm2d_load_from_state_dict self st prefix strict = Ok (self', st') /\
      ~ In (prefix ++ "num_batches_tracked")%string (od_keys (state_dict st')) /\
      (forall k, k <> (prefix ++ "num_batches_tracked")%string ->
                 od_get (state_dict st') k = od_get (state_dict st) k) /\
      (~ In (prefix ++ "num_batches_tracked")%string (unexpected_keys st) ->
       ~ In (prefix ++ "num_batches_tracked")%string (unexpected_keys st')) /\
      (~ In (prefix ++ "num_batches_tracked")%string (missing_keys st) ->
       ~ In (prefix ++ "num_batches_tracked")%string (missing_keys st')).
Proof.
  intros A SA self st prefix strict Hreg.
  destruct (FrozenBatchNorm2d_load_spec self st prefix strict Hreg)
    as (self' & st' & E & _ & Hsd & Hm & Hu & _).
  exists self', st'. split; [exact E|]. rewrite Hsd. split; [apply od_del_not_in|]. split.
  - intros k Hk. rewrite od_del_get. apply String.eqb_neq in Hk. now rewrite Hk.
  - split.
    + intros Hold Hin. rewrite Hu in Hin. apply in_app_iff in Hin.
      destruct Hin as [Hin|Hin]; [contradiction|].
      destruct strict; [|destruct Hin]. apply in_app_iff in Hin. destruct Hin as [Hin|Hin].
      * destruct (od_mem _ _); [|destruct Hin]. destruct Hin as [Hin|[]].
        apply string_app_inj in Hin. discriminate Hin.
      * apply filter_In in Hin. destruct Hin as [Hin _].
        exact (od_del_not_in _ _ Hin).
    + intros Hold Hin. rewrite Hm in Hin. apply in_app_iff in Hin.
      destruct Hin as [Hin|Hin]; [contradiction|].
      destruct strict; [|destruct Hin]. apply in_map_iff in Hin.
      destruct Hin as (n & En & Hn). apply string_app_inj in En. subst n.
      apply filter_In in Hn. destruct Hn as [Hn _]. simpl in Hn. intuition discriminate.
Qed.

(** X2.  A state dict loads as it does after its entry
    prefix + "num_batches_tracked" has been removed: the module and the
    updated arguments are the same, in strict mode or not. *)
Theorem load_state_same_without_num_batches_tracked :
  forall (A : Type) (SA : Scalar A) (self : FrozenBatchNorm2d A) (st : LoadState A)
         (prefix : string) (strict : bool),
    FrozenBatchNorm2d_load_from_state_dict self st prefix strict
    = FrozenBatchNorm2d_load_from_state_dict self
        (mkLoadState (od_del (state_dict st) (prefix ++ "num_batches_tracked"))
           (missing_keys st) (unexpected_keys st) (error_msgs st))
        prefix strict.
Proof.
  intros A SA self st prefix strict.
  unfold FrozenBatchNorm2d_load_from_state_dict. rewrite !drop_legacy_key.
  cbn [state_dict missing_keys unexpected_keys error_msgs]. now rewrite od_del_idem.
Qed.

Lemma batch_norm_key_expected (prefix k : string) :
  In k (map (fun n => (prefix ++ n)%string) batch_norm_state_names) ->
  k <> (prefix ++ "num_batches_tracked")%string ->
  is_unexpected prefix [] ["weight"; "bias"; "running_mean"; "running_var"] k = false.
Proof.
  intros Hin Hk. apply in_map_iff in Hin. destruct Hin as (n & <- & Hn).
  unfold is_unexpected. rewrite str_drop_app.
  simpl in Hn. destruct Hn as [<-|[<-|[<-|[<-|[<-|[]]]]]];
    try (rewrite andb_false_iff; right; reflexivity).
  exfalso. now apply Hk.
Qed.

(** X3.  The state of a [BatchNorm2d] loads cleanly in strict mode.  When
    the state dict holds, under the prefix, a tensor of the shape of each of
    the four buffers and otherwise at most the batch counter, the call
    returns, reports no missing key, no unexpected key and no size mismatch,
    and each buffer holds the entries of its tensor of the state dict, in
    the dtype of the buffer. *)
Theorem load_state_batch_norm_checkpoint :
  forall (A : Type) (SA : Scalar A) (self : FrozenBatchNorm2d A) (st : LoadState A)
         (prefix : string),
    buffers_registered self ->
    Forall (fun kv => exists input,
                od_get (state_dict st) (prefix ++ fst kv) = Some input /\
                shape input = shape (snd kv))
           (FrozenBatchNorm2d_buffers self) ->
    (forall k, In k (od_keys (state_dict st)) -> String.prefix prefix k = true ->
               In k (map (fun n => (prefix ++ n)%string) batch_norm_state_names)) ->
    exists self' st',
      FrozenBatchNorm2d_load_from_state_dict self st prefix true = Ok (self', st') /\
      missing_keys st' = missing_keys st /\
      unexpected_keys st' = unexpected_keys st /\
      (forall e, In e (error_msgs st') <-> In e (error_msgs st)) /\
      Forall2 (fun kv kv' =>
                 fst kv' = fst kv /\
                 exists input,
                   od_get (state_dict st) (prefix ++ fst kv) = Some input /\
                   snd kv' = copy_ (snd kv) input /\
                   forall idx, item (snd kv') idx = item (to (dtype (snd kv)) input) idx)
              (FrozenBatchNorm2d_buffers self) (FrozenBatchNorm2d_buffers self').
Proof.
  intros A SA self st prefix Hreg Hall Hkeys.
  destruct (FrozenBatchNorm2d_load_spec self st prefix true Hreg)
    as (self' & st' & E & Hb & Hsd & Hm & Hu & He).
  exists self', st'. split; [exact E|].
  assert (forall n, In n ["weight"; "bias"; "running_mean"; "running_var"] ->
            exists input, od_get (state_dict st) (prefix ++ n) = Some input) as Hget.
  { intros n Hn. rewrite Forall_forall in Hall.
    assert (exists t, In (n, t) (FrozenBatchNorm2d_buffers self)) as [t Ht].
    { simpl in Hn |- *. destruct Hn as [<-|[<-|[<-|[<-|[]]]]]; eauto 6. }
    destruct (Hall _ Ht) as (input & Hi & _). now exists input. }
  split; [|split; [|split]].
  - rewrite Hm. rewrite <- app_nil_r. f_equal.
    cbn [filter]. unfold od_mem.
    destruct (Hget "weight") as [? ->]; [simpl; auto|].
    destruct (Hget "bias") as [? ->]; [simpl; auto|].
    destruct (Hget "running_mean") as [? ->]; [simpl; auto|].
    destruct (Hget "running_var") as [? ->]; [simpl; auto|].
    reflexivity.
  - rewrite Hu. rewrite <- app_nil_r. f_equal.
    assert (forall k, In k (od_keys (od_del (state_dict st) (prefix ++ "num_batches_tracked"))) ->
              String.prefix prefix k = true ->
              In k (map (fun n => (prefix ++ n)%string) batch_norm_state_names) /\
              k <> (prefix ++ "num_batches_tracked")%string) as Hk'.
    { intros k Hk Hp. apply od_del_keys in Hk. destruct Hk as [Hk Hne]. auto. }
    assert (od_mem (od_del (state_dict st) (prefix ++ "num_batches_tracked"))
                   (prefix ++ "_extra_state") = false) as ->.
    { apply od_mem_false. intros Hin.
      destruct (Hk' _ Hin (prefix_of_app _ _)) as [Hx _].
      apply in_map_iff in Hx. destruct Hx as (n & En & Hn).
      apply string_app_inj in En. subst n. simpl in Hn. intuition discriminate. }
    simpl.
    match goal with
    | |- filter ?f ?l = [] =>
        assert (forall k, In k l -> f k = false) as Hf
    end.
    { intros k Hk. destruct (String.prefix prefix k) eqn:Ep.
      - destruct (Hk' k Hk Ep) as [H1 H2]. now apply batch_norm_key_expected.
      - unfold is_unexpected. now rewrite Ep. }
    clear -Hf. induction (od_keys _) as [|k l IH]; [reflexivity|]. simpl.
    rewrite (Hf k) by now left. apply IH. intros k' Hk'. apply Hf. now right.
  - intros e. rewrite He. split; [|now left].
    intros [H|(n & p & i & Hin & Hg & Hne & _)]; [exact H|].
    rewrite Forall_forall in Hall. destruct (Hall _ Hin) as (input & Hi & Hs).
    simpl in Hi, Hs. congruence.
  - rewrite Hb. clear -Hall.
    induction Hall as [|[n t] l (input & Hi & Hs) Hall IH]; simpl; constructor.
    + simpl. split; [reflexivity|]. exists input. simpl in Hi, Hs.
      unfold loaded_buffer. rewrite Hi.
      assert (list_eqb Nat.eqb (shape input) (shape t) = true) as ->
          by now apply shape_eqb_spec.
      auto.
    + exact IH.
Qed.

(** X4.  What a load does to the buffers and what it reports.  Each buffer
    is replaced by the tensor under its key when that tensor has the shape
    of the buffer, and is left as it is when the key is absent or the shape
    differs, so no buffer changes its shape or dtype.  In strict mode the
    keys of the absent buffers are appended to the missing keys, in the
    order of the buffers, and otherwise nothing is; a size mismatch is
    reported for exactly the buffers whose tensor has another shape. *)
Theorem load_state_buffers_and_reports :
  forall (A : Type) (SA : Scalar A) (self : FrozenBatchNorm2d A) (st : LoadState A)
         (prefix : string) (strict : bool),
    buffers_registered self ->
    exists self' st',
      FrozenBatchNorm2d_load_from_state_dict self st prefix strict = Ok (self', st') /\
      FrozenBatchNorm2d_buffers self'
      = map (fun kv => (fst kv, loaded_buffer (state_dict st) (prefix ++ fst kv) (snd kv)))
            (FrozenBatchNorm2d_buffers self) /\
      Forall2 (fun kv kv' => shape (snd kv') = shape (snd kv) /\
                             dtype (snd kv') = dtype (snd kv))
              (FrozenBatchNorm2d_buffers self) (FrozenBatchNorm2d_buffers self') /\
      missing_keys st' =
        missing_keys st
        ++ (if strict
            then map (fun n => (prefix ++ n)%string)
                     (filter (fun n => negb (od_mem (state_dict st) (prefix ++ n)))
                             ["weight"; "bias"; "running_mean"; "running_var"])
            else []) /\
      (forall e, In e (error_msgs st') <->
         In e (error_msgs st) \/
         exists name param input,
           In (name, param) (FrozenBatchNorm2d_buffers self) /\
           od_get (state_dict st) (prefix ++ name) = Some input /\
           shape input <> shape param /\
           e = size_mismatch (prefix ++ name) (shape input) (shape param)).
Proof.
  intros A SA self st prefix strict Hreg.
  destruct (FrozenBatchNorm2d_load_spec self st prefix strict Hreg)
    as (self' & st' & E & Hb & Hsd & Hm & Hu & He).
  exists self', st'. split; [exact E|]. split; [exact Hb|]. split; [|split; assumption].
  rewrite Hb. generalize (FrozenBatchNorm2d_buffers self).
  induction l as [|[n t] l IH]; simpl; constructor; [|exact IH].
  simpl. unfold loaded_buffer. destruct (od_get _ _) as [input|]; [|auto].
  destruct (list_eqb Nat.eqb (shape input) (shape t)); auto.
Qed.

(* ================================================================== *)
(** ** Further properties: FrozenBatchNorm2d.forward                   *)
(* ================================================================== *)

Section Forward_shapes.

Context {A : Type} {SA : Scalar A} {FA : FloatArith A}.

(** Broadcasting a (B, C, H, W) shape with a (1, n, 1, 1) one. *)
Lemma broadcast_channels (B C H W n : nat) :
  broadcast_shapes [B; C; H; W] [1; n; 1; 1] =
  if Nat.eqb C n then Some [B; C; H; W]
  else if Nat.eqb C 1 then Some [B; n; H; W]
  else if Nat.eqb n 1 then Some [B; C; H; W]
  else None.
Proof.
  unfold broadcast_shapes. simpl.
  destruct (Nat.eqb B 1) eqn:EB; [apply Nat.eqb_eq in EB; subst B|];
    (destruct (Nat.eqb C n); [|destruct (Nat.eqb C 1); [|destruct (Nat.eqb n 1)]]);
    (destruct (Nat.eqb H 1) eqn:EH; [apply Nat.eqb_eq in EH; subst H|]);
    (destruct (Nat.eqb W 1) eqn:EW; [apply Nat.eqb_eq in EW; subst W|]);
    reflexivity.
Qed.

Lemma binary_op_shape (f : DType -> A -> A -> A) (t1 t2 : Tensor A) :
  match broadcast_shapes (shape t1) (shape t2) with
  | Some s => exists out, binary_op f t1 t2 = Ok out /\ shape out = s
  | None => exists msg, binary_op f t1 t2 = Raise (RuntimeError msg)
  end.
Proof.
  unfold binary_op. destruct (broadcast_shapes _ _); eauto.
Qed.

End Forward_shapes.

(** X5.  The shapes [FrozenBatchNorm2d.forward] accepts.  With buffers of
    length n, an input of shape (B, C, H, W) is accepted exactly when
    C = n, C = 1 or n = 1; the result has shape (B, C, H, W), except that a
    single-channel input is broadcast to (B, n, H, W).  Any other channel
    count raises a RuntimeError. *)
Theorem FrozenBatchNorm2d_forward_shapes :
  forall (A : Type) (SA : Scalar A) (FA : FloatArith A) (self : FrozenBatchNorm2d A)
         (x : Tensor A) (B C H W n : nat),
    shape x = [B; C; H; W] ->
    Forall (fun kv : string * Tensor A => shape (snd kv) = [n])
           (FrozenBatchNorm2d_buffers self) ->
    (C = n \/ C = 1 \/ n = 1 ->
     exists out, FrozenBatchNorm2d_forward self x = Ok out /\
                 shape out = [B; if Nat.eqb C 1 then n else C; H; W]) /\
    (C <> n -> C <> 1 -> n <> 1 ->
     exists msg, FrozenBatchNorm2d_forward self x = Raise (RuntimeError msg)).
Proof.
  intros A SA FA self x B C H W n Hx Hbuf.
  inversion Hbuf as [|? ? Hw Hbuf1]; subst. inversion Hbuf1 as [|? ? Hb Hbuf2]; subst.
  inversion Hbuf2 as [|? ? Hm Hbuf3]; subst. inversion Hbuf3 as [|? ? Hv _]; subst.
  simpl in Hw, Hb, Hm, Hv.
  assert (forall t : Tensor A, shape t = [n] -> shape (reshape_1_m1_1_1 t) = [1; n; 1; 1]) as Hr.
  { intros t Ht. unfold reshape_1_m1_1_1, numel. simpl. rewrite Ht. simpl.
    now rewrite Nat.mul_1_r. }
  assert (broadcast_shapes [1; n; 1; 1] [1; n; 1; 1] = Some [1; n; 1; 1]) as Hnn.
  { rewrite broadcast_channels. now rewrite Nat.eqb_refl. }
  unfold FrozenBatchNorm2d_forward.
  pose proof (binary_op_shape fmul (reshape_1_m1_1_1 (weight self))
                (unary_op frsqrt (scalar_op fadd (reshape_1_m1_1_1 (running_var self))
                                    (1 # 100000)%Q))) as H1.
  cbn [unary_op scalar_op shape] in H1. rewrite !Hr in H1 by assumption. rewrite Hnn in H1.
  destruct H1 as (scale & -> & Ss). cbn [Py.bind].
  pose proof (binary_op_shape fmul (reshape_1_m1_1_1 (running_mean self)) scale) as H2.
  rewrite Hr, Ss, Hnn in H2 by assumption. destruct H2 as (rm_scale & -> & Sr). cbn [Py.bind].
  pose proof (binary_op_shape fsub (reshape_1_m1_1_1 (bias self)) rm_scale) as H3.
  rewrite Hr, Sr, Hnn in H3 by assumption. destruct H3 as (bias' & -> & Sb). cbn [Py.bind].
  pose proof (binary_op_shape fmul x scale) as H4.
  rewrite Hx, Ss, broadcast_channels in H4.
  split.
  - intros Hc.
    assert (exists x_scale, binary_op fmul x scale = Ok x_scale /\
              shape x_scale = [B; if Nat.eqb C 1 then n else C; H; W]) as (x_scale & -> & Sx).
    { destruct (Nat.eqb C n) eqn:E1.
      - apply Nat.eqb_eq in E1. subst n. destruct H4 as (o & Eo & So). exists o.
        split; [exact Eo|]. rewrite So. destruct (Nat.eqb C 1) eqn:E2; [|reflexivity].
        apply Nat.eqb_eq in E2. now subst.
      - destruct (Nat.eqb C 1) eqn:E2; [exact H4|].
        destruct (Nat.eqb n 1) eqn:E3; [exact H4|].
        apply Nat.eqb_neq in E1, E2, E3. lia. }
    cbn [Py.bind].
    pose proof (binary_op_shape fadd x_scale bias') as H5.
    rewrite Sx, Sb, broadcast_channels in H5.
    destruct (Nat.eqb C 1) eqn:E2.
    + rewrite Nat.eqb_refl in H5. exact H5.
    + destruct (Nat.eqb C n) eqn:E1; [exact H5|].
      rewrite E2 in H5. destruct (Nat.eqb n 1) eqn:E3; [exact H5|].
      apply Nat.eqb_neq in E1, E2, E3. lia.
  - intros H1 H2 H3. apply Nat.eqb_neq in H1, H2, H3. rewrite H1, H2, H3 in H4.
    destruct H4 as [msg ->]. now exists msg.
Qed.




(* ================================================================== *)
(** ** Further properties: BackboneBase                                *)
(* ================================================================== *)

Lemma od_set_fresh {V : Type} (d : OrderedDict V) (k : string) (v : V) :
  ~ In k (od_keys d) -> od_set d k v = d ++ [(k, v)].
Proof.
  induction d as [|[k' v'] d IH]; simpl; [reflexivity|].
  intros H. destruct (String.eqb k' k) eqn:E.
  - apply String.eqb_eq in E. tauto.
  - f_equal. apply IH. tauto.
Qed.

Lemma tapped_layer_inj (n i j : nat) : tapped_layer n i = tapped_layer n j -> i = j.
Proof.
  unfold tapped_layer. intros H. apply string_app_inj in H. apply str_of_Z_inj in H. lia.
Qed.

Lemma tapped_layer_last (n : nat) : tapped_layer (S n) n = "layer4".
Proof.
  unfold tapped_layer.
  replace (5 - Z.of_nat (S n) + Z.of_nat n)%Z with 4%Z by lia. reflexivity.
Qed.

Lemma return_layers_fold (n : nat) (l : list (nat * Z)) (d : OrderedDict string) :
  NoDup (od_keys d ++ map (fun il => tapped_layer n (fst il)) l) ->
  fold_left
    (fun return_layers (il : nat * Z) =>
       let (idx, layer_index) := il in
       od_set return_layers
         ("layer" ++ str_of_Z (5 - Z.of_nat n + Z.of_nat idx)%Z)%string
         (str_of_Z layer_index)) l d
  = d ++ map (fun il => (tapped_layer n (fst il), str_of_Z (snd il))) l.
Proof.
  revert d; induction l as [|[idx li] l IH]; intros d Hnd; simpl.
  - now rewrite app_nil_r.
  - change ("layer" ++ str_of_Z (5 - Z.of_nat n + Z.of_nat idx)%Z)%string
      with (tapped_layer n idx).
    simpl in Hnd. rewrite od_set_fresh.
    + rewrite IH.
      * now rewrite <- app_assoc.
      * unfold od_keys. rewrite map_app, <- app_assoc. exact Hnd.
    + apply NoDup_remove_2 in Hnd. intros Hin. apply Hnd. apply in_app_iff. now left.
Qed.

Lemma nth_error_combine {X Y : Type} (l : list X) (l' : list Y) (i : nat) (a : X) (b : Y) :
  nth_error l i = Some a -> nth_error l' i = Some b ->
  nth_error (combine l l') i = Some (a, b).
Proof.
  revert l l'; induction i as [|i IH]; intros [|x l] [|y l']; simpl; try discriminate.
  - intros H1 H2. injection H1 as ->. injection H2 as ->. reflexivity.
  - apply IH.
Qed.

Section Return_layers.

Variable sel : list Z.

Local Abbreviation n := (length sel).

Lemma tapped_layers_NoDup : NoDup (map (tapped_layer n) (seq 0 n)).
Proof.
  apply NoDup_map_NoDup_ForallPairs; [|apply seq_NoDup].
  intros i j _ _. apply tapped_layer_inj.
Qed.

Lemma make_return_layers_combine :
  make_return_layers sel
  = combine (map (tapped_layer n) (seq 0 n)) (map str_of_Z sel).
Proof.
  unfold make_return_layers. rewrite return_layers_fold.
  - simpl. generalize (seq 0 n). generalize n. intros k l. revert l.
    induction sel as [|z l' IH]; intros [|i l]; simpl; try reflexivity.
    now rewrite IH.
  - simpl. rewrite <- (map_map fst (tapped_layer n)).
    rewrite combine_fst_firstn, length_seq, Nat.min_id.
    rewrite firstn_all2 by (rewrite length_seq; lia). exact tapped_layers_NoDup.
Qed.

Lemma make_return_layers_tapped :
  od_keys (make_return_layers sel) = map (tapped_layer n) (seq 0 n).
Proof.
  rewrite make_return_layers_combine. unfold od_keys.
  rewrite combine_fst_firstn, !length_map, length_seq, Nat.min_id.
  apply firstn_all2. rewrite length_map, length_seq. lia.
Qed.

Lemma make_return_layers_get (i : nat) (layer_index : Z) :
  nth_error sel i = Some layer_index ->
  od_get (make_return_layers sel) (tapped_layer n i) = Some (str_of_Z layer_index).
Proof.
  intros Hi. apply In_od_get.
  - rewrite make_return_layers_tapped. apply tapped_layers_NoDup.
  - rewrite make_return_layers_combine.
    assert (i < n) as Hlt by (apply nth_error_Some; congruence).
    apply (nth_error_In _ i). apply nth_error_combine.
    + rewrite nth_error_map, nth_error_seq.
      destruct (Nat.ltb_spec i n); [reflexivity | lia].
    + now rewrite nth_error_map, Hi.
Qed.

End Return_layers.

(** X8.  The [return_layers] that [BackboneBase.__init__] builds from a
    selection of n indices pairs, position by position, the child
    "layer(5-n+i)" with the decimal string of the i-th index: no entry is
    lost or overwritten, whatever the indices are, and the last position
    always reads "layer4". *)
Theorem return_layers_by_position :
  forall (return_interm_indices : list Z),
    let n := length return_interm_indices in
    make_return_layers return_interm_indices
    = combine (map (tapped_layer n) (seq 0 n)) (map str_of_Z return_interm_indices) /\
    length (make_return_layers return_interm_indices) = n /\
    NoDup (od_keys (make_return_layers return_interm_indices)) /\
    (forall i layer_index,
        nth_error return_interm_indices i = Some layer_index ->
        od_get (make_return_layers return_interm_indices) (tapped_layer n i)
        = Some (str_of_Z layer_index)) /\
    (return_interm_indices <> [] ->
     option_map fst (nth_error (make_return_layers return_interm_indices) (n - 1))
     = Some "layer4").
Proof.
  intros sel n.
  pose proof (make_return_layers_combine sel) as E.
  pose proof (make_return_layers_tapped sel) as K. fold n in E, K.
  split; [exact E|]. split; [|split; [|split]].
  - rewrite od_length_keys, K, length_map, length_seq. reflexivity.
  - rewrite K. apply tapped_layers_NoDup.
  - apply make_return_layers_get.
  - intros Hne. rewrite E.
    assert (n = length sel) as Hn by reflexivity. clearbody n. clear E K.
    destruct n as [|m]; [destruct sel; [congruence | discriminate]|].
    replace (S m - 1) with m by lia.
    destruct (nth_error sel m) as [z|] eqn:Ez.
    + rewrite (nth_error_combine _ _ m (tapped_layer (S m) m) (str_of_Z z)).
      * simpl. f_equal. apply tapped_layer_last.
      * rewrite nth_error_map, nth_error_seq.
        destruct (Nat.ltb_spec m (S m)); [reflexivity | lia].
      * now rewrite nth_error_map, Ez.
    + apply nth_error_None in Ez. lia.
Qed.

Section Init_facts.

Context {A : Type} {SA : Scalar A}.

Lemma forallb_tapped (names : list string) (sel : list Z) :
  forallb (fun k => list_in String.eqb k names) (od_keys (make_return_layers sel)) = true
  <-> forall i, i < length sel -> In (tapped_layer (length sel) i) names.
Proof.
  rewrite make_return_layers_tapped, forallb_forall. split.
  - intros H i Hi. apply list_in_string_spec, H. apply in_map, in_seq. lia.
  - intros H k Hk. apply in_map_iff in Hk. destruct Hk as (i & <- & Hi).
    apply in_seq in Hi. apply list_in_string_spec, H. lia.
Qed.

Lemma freeze_name (train : bool) (p : NamedParameter) : p_name (freeze train p) = p_name p.
Proof. unfold freeze. now destruct (_ || _). Qed.

End Init_facts.

(** X9.  [BackboneBase.__init__] returns exactly when the encoder has every
    child "layer(5-n+i)", i < n, that the selection of n indices taps, and
    raises the ValueError of the layer getter as soon as one is missing.
    When it returns, the wrapper holds the layer getter over the built
    [return_layers] and the channel list as it was passed, whatever its
    length.  In both cases the encoder keeps its children and the names and
    order of its parameters. *)
Theorem BackboneBase_init_tapped_layers :
  forall (A : Type) (SA : Scalar A) (backbone : NNModule A) (train_backbone : bool)
         (num_channels_arg return_interm_indices : list Z),
    let n := length return_interm_indices in
    let r := BackboneBase_init backbone train_backbone num_channels_arg
               return_interm_indices in
    ((forall i, i < n -> In (tapped_layer n i) (map fst (named_children backbone))) ->
     exists bb, snd r = Ok bb /\ wrapped bb = fst r /\
                num_channels bb = num_channels_arg /\
                return_layers (body bb) = make_return_layers return_interm_indices) /\
    (forall i, i < n -> ~ In (tapped_layer n i) (map fst (named_children backbone)) ->
               snd r = Raise (ValueError "return_layers are not present in model")) /\
    named_children (fst r) = named_children backbone /\
    map p_name (named_parameters (fst r)) = map p_name (named_parameters backbone).
Proof.
  intros A SA backbone train nc sel n r.
  pose proof (forallb_tapped (map fst (named_children backbone)) sel) as Hall.
  fold n in Hall.
  unfold r, BackboneBase_init, IntermediateLayerGetter_init. cbn [fst snd named_children].
  split; [|split; [|split]].
  - intros H. apply Hall in H. rewrite H. simpl. eexists. repeat split.
  - intros i Hi Hmiss.
    destruct (forallb _ _) eqn:E; [|reflexivity].
    exfalso. apply Hmiss. now apply Hall.
  - reflexivity.
  - cbn [named_parameters]. rewrite map_map. apply map_ext. intros p. apply freeze_name.
Qed.

Lemma tapped_layer_not_resnet (n : nat) :
  5 <= n -> ~ In (tapped_layer n 0) resnet_child_names.
Proof.
  intros Hn Hin. unfold tapped_layer in Hin.
  assert (forall z : Z, (1 <= z <= 4)%Z ->
            ("layer" ++ str_of_Z z)%string
            <> ("layer" ++ str_of_Z (5 - Z.of_nat n + Z.of_nat 0)%Z)%string) as Hz.
  { intros z Hz H. apply string_app_inj, str_of_Z_inj in H. lia. }
  simpl in Hin.
  destruct Hin as [H|[H|[H|[H|[H|[H|[H|[H|[H|[H|[]]]]]]]]]]]; try discriminate H.
  - now apply (Hz 1%Z); [lia|].
  - now apply (Hz 2%Z); [lia|].
  - now apply (Hz 3%Z); [lia|].
  - now apply (Hz 4%Z); [lia|].
Qed.

Lemma fold_od_set_fresh {V : Type} (l d : OrderedDict V) :
  NoDup (od_keys d ++ od_keys l) ->
  assign_all l d = d ++ l.
Proof.
  unfold assign_all.
  revert d; induction l as [|[k v] l IH]; intros d Hnd; simpl.
  - now rewrite app_nil_r.
  - simpl in Hnd. rewrite od_set_fresh.
    + rewrite IH.
      * now rewrite <- app_assoc.
      * unfold od_keys. rewrite map_app, <- app_assoc. exact Hnd.
    + apply NoDup_remove_2 in Hnd. intros Hin. apply Hnd. apply in_app_iff. now left.
Qed.

Lemma combine_fst_same_length {X Y : Type} (l : list X) (l' : list Y) :
  length l = length l' -> map fst (combine l l') = l.
Proof.
  intros H. rewrite combine_fst_firstn, <- H, Nat.min_id. apply firstn_all.
Qed.

Section Resnet_body.

Context {A : Type} {SA : Scalar A}.

Variable f0 f1 f2 f3 f4 f5 f6 f7 f8 f9 : Tensor A -> Tensor A.

Local Abbreviation fs := [f0; f1; f2; f3; f4; f5; f6; f7; f8; f9].

(** The layer getter over a ResNet, for the taps of a selection of one to
    four stages filed under arbitrary names. *)
Lemma resnet_getter (params : list NamedParameter) (names : list string) (x : Tensor A) :
  1 <= length names <= 4 ->
  exists ilg,
    IntermediateLayerGetter_init (mkNNModule (combine resnet_child_names fs) params)
      (combine (map (tapped_layer (length names)) (seq 0 (length names))) names) = Ok ilg /\
    map fst (layers ilg) = firstn 8 resnet_child_names /\
    IntermediateLayerGetter_forward ilg x
    = assign_all
        (combine names
           (map (fun i => run_children (firstn (9 - length names + i) fs) x)
                (seq 0 (length names)))) [].
Proof.
  intros Hn.
  destruct names as [|a [|b [|c [|d [|e ?]]]]]; simpl in Hn; try lia;
    (eexists; split; [reflexivity|]; split; reflexivity).
Qed.

End Resnet_body.

(** X10.  Over an encoder with the ten children of a torchvision ResNet, a
    selection of one to four indices makes [BackboneBase.__init__] return a
    wrapper whose body keeps the children up to layer4 and drops avgpool and
    fc; its body files, under the decimal string of the i-th index, the
    output of the children up to "layer(5-n+i)" run in sequence on the
    input, in the order of the selection when the indices are distinct.  An
    empty selection gives a body that returns no feature, and a selection of
    five or more indices raises the ValueError. *)
Theorem resnet_body_features :
  forall (A : Type) (SA : Scalar A) (fs : list (Tensor A -> Tensor A))
         (params : list NamedParameter) (train_backbone : bool)
         (num_channels_arg return_interm_indices : list Z) (x : Tensor A),
    length fs = 10 ->
    let n := length return_interm_indices in
    let backbone := mkNNModule (combine resnet_child_names fs) params in
    let r := snd (BackboneBase_init backbone train_backbone num_channels_arg
                    return_interm_indices) in
    let feats :=
      combine (map str_of_Z return_interm_indices)
              (map (fun i => run_children (firstn (9 - n + i) fs) x) (seq 0 n)) in
    (1 <= n <= 4 ->
     exists bb,
       r = Ok bb /\
       map fst (layers (body bb)) = firstn 8 resnet_child_names /\
       IntermediateLayerGetter_forward (body bb) x
       = assign_all feats [] /\
       (NoDup return_interm_indices ->
        IntermediateLayerGetter_forward (body bb) x = feats)) /\
    (n = 0 ->
     exists bb, r = Ok bb /\ IntermediateLayerGetter_forward (body bb) x = []) /\
    (5 <= n -> r = Raise (ValueError "return_layers are not present in model")).
Proof.
  intros A SA fs params train nc sel x Hfs n backbone r feats.
  destruct fs as [|f0 [|f1 [|f2 [|f3 [|f4 [|f5 [|f6 [|f7 [|f8 [|f9 [|? ?]]]]]]]]]]];
    try discriminate Hfs. clear Hfs.
  assert (length (map str_of_Z sel) = n) as Hlen by apply length_map.
  split; [|split].
  - intros Hn.
    destruct (resnet_getter f0 f1 f2 f3 f4 f5 f6 f7 f8 f9
                (map (freeze train) params) (map str_of_Z sel) x)
      as (ilg & Hinit & Hlayers & Hfwd); [rewrite Hlen; exact Hn|].
    rewrite Hlen in Hinit, Hfwd.
    unfold r, backbone, BackboneBase_init. cbn [snd named_children named_parameters].
    rewrite make_return_layers_combine. fold n. rewrite Hinit. simpl.
    eexists. split; [reflexivity|]. cbn [body]. split; [exact Hlayers|].
    split; [exact Hfwd|]. intros Hnd. rewrite Hfwd. apply (fold_od_set_fresh _ []).
    simpl. unfold od_keys. rewrite combine_fst_same_length.
    + apply NoDup_map_NoDup_ForallPairs; [|exact Hnd].
      intros a b _ _. apply str_of_Z_inj.
    + now rewrite !length_map, length_seq.
  - intros Hn. destruct sel; [|discriminate]. eexists. split; reflexivity.
  - intros Hn.
    pose proof (forallb_tapped (map fst (combine resnet_child_names
                  [f0; f1; f2; f3; f4; f5; f6; f7; f8; f9])) sel) as Hall.
    unfold r, backbone, BackboneBase_init, IntermediateLayerGetter_init.
    cbn [snd named_children].
    destruct (forallb _ _) eqn:E; [|reflexivity].
    exfalso. apply (tapped_layer_not_resnet n Hn).
    apply proj1 in Hall. specialize (Hall eq_refl 0). apply Hall. unfold n in Hn. lia.
Qed.

(* ================================================================== *)
(** ** Further properties: the two forward passes                      *)
(* ================================================================== *)

Section Dictionary_assignment.

Context {V : Type}.





Lemma assign_all_keys (l : list (string * V)) (d : OrderedDict V) :
  od_keys (assign_all l d) = fold_left add_key (map fst l) (od_keys d).
Proof.
  revert d; induction l as [|[k0 v0] l IH]; intros d; [reflexivity|].
  change (assign_all ((k0, v0) :: l) d) with (assign_all l (od_set d k0 v0)).
  now rewrite IH, od_keys_set.
Qed.

End Dictionary_assignment.



Section Mask_pixels.

Context {A : Type} {SA : Scalar A}.







End Mask_pixels.





Section Forward_entries.

Context {A : Type} {SA : Scalar A}.


End Forward_entries.






(* ================================================================== *)
(** ** Further properties: construction                                *)
(* ================================================================== *)

Section More_construction_facts.

Context {A : Type} {SA : Scalar A}.

Variable torchvision_models :
  string -> list bool -> bool -> NormLayer A -> result (NNModule A).
Variable is_main_process : bool.

Lemma legal_widths (sel : list Z) :
  In sel legal_return_interm_indices ->
  slice_from (4 - Z.of_nat (length sel))%Z [256; 512; 1024; 2048]%Z
  = map (fun s => (256 * 2 ^ s)%Z) sel.
Proof. intros [<-|[<-|[<-|[]]]]; reflexivity. Qed.

(** X14.  When [Backbone.__init__] returns a backbone, the name is resnet50
    or resnet101 and the selection is one of the three legal ones; the
    torchvision constructor of that name has been called exactly once, with
    dilation requested for the last stage only and pretrained weights on
    the main process only, and the encoder it returned has every tapped
    layer; the wrapper holds that encoder with the freezing policy applied,
    and one channel width 256 * 2^s for every selected stage s. *)
Theorem Backbone_init_returns :
  forall (name : string) (train_backbone dilation : bool)
         (return_interm_indices : list Z) (batch_norm : NormLayer A)
         (log log' : list Event) (bb : BackboneBase A),
    Backbone_init torchvision_models is_main_process name train_backbone dilation
      return_interm_indices batch_norm log = (Ok bb, log') ->
    In name ["resnet50"; "resnet101"] /\
    In return_interm_indices legal_return_interm_indices /\
    log' = log ++ [Call_torchvision_models name [false; false; dilation] is_main_process] /\
    num_channels bb = map (fun s => (256 * 2 ^ s)%Z) return_interm_indices /\
    exists enc,
      torchvision_models name [false; false; dilation] is_main_process batch_norm = Ok enc /\
      (forall i, i < length return_interm_indices ->
                 In (tapped_layer (length return_interm_indices) i)
                    (map fst (named_children enc))) /\
      named_children (wrapped bb) = named_children enc /\
      named_parameters (wrapped bb) = map (freeze train_backbone) (named_parameters enc).
Proof.
  intros name train dilation sel bn log log' bb H.
  rewrite Backbone_init_unfold in H. cbv zeta in H.
  destruct (list_in String.eqb name ["resnet18"; "resnet34"; "resnet50"; "resnet101"])
    eqn:E4; [|discriminate].
  destruct (torchvision_models name [false; false; dilation] is_main_process bn)
    as [enc|e] eqn:Etv; [|discriminate].
  destruct (list_in String.eqb name ["resnet18"; "resnet34"]) eqn:E2; [discriminate|].
  destruct (list_in (list_eqb Z.eqb) sel legal_return_interm_indices) eqn:El;
    [|discriminate].
  injection H as Hbb <-.
  apply legal_spec in El.
  assert (In name ["resnet50"; "resnet101"]) as Hname.
  { apply list_in_string_spec in E4.
    destruct E4 as [<-|[<-|[<-|[<-|[]]]]]; try discriminate E2; simpl; auto. }
  split; [exact Hname|]. split; [exact El|]. split; [reflexivity|].
  pose proof (BackboneBase_init_inv _ _ _ _ _ Hbb) as (Hilg & Hw & Hnc).
  split; [rewrite Hnc; now apply legal_widths|].
  exists enc. split; [reflexivity|]. split; [|split].
  - apply (forallb_tapped (map fst (named_children enc)) sel).
    unfold IntermediateLayerGetter_init in Hilg. cbn [fst BackboneBase_init named_children] in Hilg.
    destruct (forallb _ _); [reflexivity | discriminate].
  - now rewrite Hw.
  - now rewrite Hw.
Qed.

Context {FA : FloatArith A}.

Variable build_position_encoding : Args.t -> result (PositionEmbedding A).
Variable SSLVisionTransformer_init : VitKwargs.t -> result (SSLVisionTransformer A).

Local Abbreviation build := (build_backbone torchvision_models is_main_process
                     build_position_encoding SSLVisionTransformer_init).
Local Abbreviation branches := (build_backbone_branches torchvision_models is_main_process
                        build_position_encoding SSLVisionTransformer_init).

(** X15.  For a backbone name other than resnet50, resnet101,
    SSLVisionTransformer and ssl_vit, [build_backbone] raises
    NotImplementedError "Unknown backbone <name>" and calls no constructor
    at all; this includes resnet18 and resnet34, which [Backbone.__init__]
    itself would pass on to torchvision. *)
Theorem build_backbone_unknown_backbone :
  forall (args : Args.t) (log : list Event),
    ~ In (Args.backbone args)
         ["resnet50"; "resnet101"; "SSLVisionTransformer"; "ssl_vit"] ->
    build args log
    = (Raise (NotImplementedError ("Unknown backbone " ++ Args.backbone args)), log).
Proof.
  intros args log Hname.
  rewrite build_backbone_after_branches, branches_other; [reflexivity| |];
    intros H; apply Hname; simpl in *; tauto.
Qed.

Lemma Backbone_init_trace (name : string) (train dilation : bool) (sel : list Z)
    (bn : NormLayer A) (log : list Event) :
  In name ["resnet50"; "resnet101"] ->
  snd (Backbone_init torchvision_models is_main_process name train dilation sel bn log)
  = log ++ [Call_torchvision_models name [false; false; dilation] is_main_process].
Proof.
  intros Hname. rewrite Backbone_init_unfold.
  destruct (supported_names name Hname) as [-> ->]. cbv zeta.
  destruct (torchvision_models _ _ _ _); [|reflexivity].
  destruct (list_in _ _ _); reflexivity.
Qed.

(** X16.  The constructor calls of a run of [build_backbone], in order.  A
    convolutional name calls [build_position_encoding] first and then at
    most the torchvision constructor of that name; a transformer name calls
    [SSLVisionTransformer] alone, with the keyword arguments read from
    [args] and the fixed checkpoint path, and never
    [build_position_encoding]; any other name calls nothing.  No run
    constructs more than one encoder. *)
Theorem build_backbone_constructor_calls :
  forall (args : Args.t) (log : list Event),
    exists new,
      snd (build args log) = log ++ new /\
      (In (Args.backbone args) ["resnet50"; "resnet101"] ->
       new = [Call_build_position_encoding] \/
       new = [Call_build_position_encoding;
              Call_torchvision_models (Args.backbone args)
                [false; false; Args.dilation args] is_main_process]) /\
      (~ In (Args.backbone args) ["resnet50"; "resnet101"] ->
       In (Args.backbone args) ["SSLVisionTransformer"; "ssl_vit"] ->
       new = [Call_SSLVisionTransformer (SSLVisionTransformer_kwargs args)]) /\
      (~ In (Args.backbone args) ["resnet50"; "resnet101"] ->
       ~ In (Args.backbone args) ["SSLVisionTransformer"; "ssl_vit"] ->
       new = []) /\
      length (filter constructs_encoder new) <= 1.
Proof.
  intros args log.
  assert (forall r : result (Locals A) * list Event,
             snd (match r with
                  | (Raise e, log') => (@Raise (Joiner A) e, log')
                  | (Ok locals, log') =>
                      match l_backbone locals, l_position_embedding locals,
                            l_num_channels locals with
                      | None, _, _ => (Raise (UnboundLocalError "backbone"), log')
                      | Some _, None, _ =>
                          (Raise (UnboundLocalError "position_embedding"), log')
                      | Some _, Some _, None =>
                          (Raise (UnboundLocalError "num_channels"), log')
                      | Some b, Some p, Some n => (Ok (mkJoiner b p (Some n)), log')
                      end
                  end) = snd r) as Hsnd.
  { intros [[locals|e] log']; [|reflexivity].
    destruct (l_backbone locals), (l_position_embedding locals), (l_num_channels locals);
      reflexivity. }
  rewrite build_backbone_after_branches, Hsnd. clear Hsnd.
  destruct (in_dec string_dec (Args.backbone args) ["resnet50"; "resnet101"]) as [Hc|Hc].
  - rewrite (branches_conv _ _ _ _ args log Hc). cbv zeta.
    pose proof (Backbone_init_trace (Args.backbone args) true (Args.dilation args)
                  (Args.return_interm_indices args) FrozenBatchNorm2d_class
                  (log ++ [Call_build_position_encoding]) Hc) as Htr.
    assert (exists new,
               (new = [Call_build_position_encoding] \/
                new = [Call_build_position_encoding;
                       Call_torchvision_models (Args.backbone args)
                         [false; false; Args.dilation args] is_main_process]) /\
               snd (match build_position_encoding args with
                    | Raise e => (@Raise (Locals A) e, log ++ [Call_build_position_encoding])
                    | Ok position_embedding => _
                    end) = log ++ new) as (new & Hnew & ->).
    { destruct (build_position_encoding args); [|eexists; split; [left|]; reflexivity].
      destruct (Qle_bool _ _); [eexists; split; [left|]; reflexivity|].
      destruct (negb _); [eexists; split; [left|]; reflexivity|].
      destruct (Backbone_init _ _ _ _ _ _ _ _) as [[backbone|e] log2]; simpl in Htr; subst log2.
      - exists [Call_build_position_encoding;
                Call_torchvision_models (Args.backbone args)
                  [false; false; Args.dilation args] is_main_process].
        split; [now right|]. destruct (Nat.eqb _ _); simpl; now rewrite <- app_assoc.
      - eexists. split; [right; reflexivity|]. simpl. now rewrite <- app_assoc. }
    exists new. split; [reflexivity|]. split; [auto|]. split; [tauto|]. split; [tauto|].
    destruct Hnew as [->| ->]; simpl; lia.
  - destruct (in_dec string_dec (Args.backbone args) ["SSLVisionTransformer"; "ssl_vit"])
      as [Hv|Hv].
    + rewrite (branches_vit _ _ _ _ args log Hv). cbv zeta.
      exists [Call_SSLVisionTransformer (SSLVisionTransformer_kwargs args)].
      split; [destruct (SSLVisionTransformer_init _); reflexivity|].
      split; [tauto|]. split; [auto|]. split; [tauto|]. simpl. lia.
    + rewrite (branches_other _ _ _ _ args log Hc Hv).
      exists []. rewrite app_nil_r. split; [reflexivity|].
      split; [tauto|]. split; [tauto|]. split; [auto|]. simpl. lia.
Qed.

(** X17.  Errors of the collaborators pass through [build_backbone]
    unchanged and end the run at the failing call.  On the convolutional
    path an error of [build_position_encoding] is raised whatever the
    learning rate and the selection are, since the generator is built
    first; an error of the torchvision constructor is raised after both
    calls; an encoder that lacks a tapped layer gives the ValueError of the
    layer getter.  On the transformer path an error of
    [SSLVisionTransformer] is raised after that one call. *)
Theorem build_backbone_collaborator_errors :
  forall (args : Args.t) (log : list Event) (e : exn),
    (In (Args.backbone args) ["resnet50"; "resnet101"] ->
     build_position_encoding args = Raise e ->
     build args log = (Raise e, log ++ [Call_build_position_encoding])) /\
    (In (Args.backbone args) ["resnet50"; "resnet101"] ->
     (0 < Args.lr_backbone args)%Q ->
     In (Args.return_interm_indices args) legal_return_interm_indices ->
     forall pe,
       build_position_encoding args = Ok pe ->
       let log2 := log ++ [Call_build_position_encoding;
                           Call_torchvision_models (Args.backbone args)
                             [false; false; Args.dilation args] is_main_process] in
       (torchvision_models (Args.backbone args) [false; false; Args.dilation args]
          is_main_process FrozenBatchNorm2d_class = Raise e ->
        build args log = (Raise e, log2)) /\
       (forall enc i,
           torchvision_models (Args.backbone args) [false; false; Args.dilation args]
             is_main_process FrozenBatchNorm2d_class = Ok enc ->
           i < length (Args.return_interm_indices args) ->
           ~ In (tapped_layer (length (Args.return_interm_indices args)) i)
                (map fst (named_children enc)) ->
           build args log
           = (Raise (ValueError "return_layers are not present in model"), log2))) /\
    (In (Args.backbone args) ["SSLVisionTransformer"; "ssl_vit"] ->
     SSLVisionTransformer_init (SSLVisionTransformer_kwargs args) = Raise e ->
     build args log
     = (Raise e, log ++ [Call_SSLVisionTransformer (SSLVisionTransformer_kwargs args)])).
Proof.
  intros args log e. split; [|split].
  - intros Hc Hpe.
    rewrite build_backbone_after_branches, (branches_conv _ _ _ _ args log Hc). cbv zeta.
    now rewrite Hpe.
  - intros Hc Hlr Hlegal pe Hpe log2.
    apply Qle_bool_false in Hlr. apply legal_spec in Hlegal.
    destruct (supported_names _ Hc) as [E4 E2].
    assert (forall r,
               Backbone_init torchvision_models is_main_process (Args.backbone args) true
                 (Args.dilation args) (Args.return_interm_indices args)
                 FrozenBatchNorm2d_class (log ++ [Call_build_position_encoding])
               = (Raise r, log2) ->
               build args log = (Raise r, log2)) as Hbuild.
    { intros r Hr.
      rewrite build_backbone_after_branches, (branches_conv _ _ _ _ args log Hc). cbv zeta.
      rewrite Hpe, Hlr, Hlegal. cbn [negb]. now rewrite Hr. }
    split.
    + intros Htv. apply Hbuild.
      rewrite Backbone_init_unfold, E4. cbv zeta. rewrite Htv.
      unfold log2. now rewrite <- app_assoc.
    + intros enc i Htv Hi Hmiss. apply Hbuild.
      rewrite Backbone_init_unfold, E4. cbv zeta. rewrite Htv, E2, Hlegal.
      unfold log2. rewrite <- app_assoc. cbn [app]. f_equal.
      unfold BackboneBase_init, IntermediateLayerGetter_init. cbn [snd named_children].
      destruct (forallb _ _) eqn:E; [|reflexivity].
      exfalso. apply Hmiss.
      now apply (forallb_tapped (map fst (named_children enc))
                   (Args.return_interm_indices args)).
  - intros Hv Hssl.
    rewrite build_backbone_after_branches, (branches_vit _ _ _ _ args log Hv). cbv zeta.
    now rewrite Hssl.
Qed.

End More_construction_facts.

(* ================================================================== *)
(** ** The further properties at concrete inputs                       *)
(* ================================================================== *)

Lemma sample_norm_registered {A : Type} {SA : Scalar A} :
  buffers_registered (@sample_norm A SA).
Proof. repeat constructor; discriminate. Qed.



(** The state dict of a BatchNorm2d under "bn1." loaded into the sample
    batch norm: the counter is gone from the state dict. *)
Lemma load_state_drops_num_batches_tracked_witness :
  exists self' st',
    FrozenBatchNorm2d_load_from_state_dict (A := Q) sample_norm
      (sample_load_state sample_state_dict) "bn1." true = Ok (self', st') /\
    ~ In "bn1.num_batches_tracked" (od_keys (state_dict st')).
Proof.
  destruct (load_state_drops_num_batches_tracked Q Scalar_Q sample_norm
              (sample_load_state sample_state_dict) "bn1." true sample_norm_registered)
    as (self' & st' & E & Hnot & _).
  exists self', st'. split; [exact E | exact Hnot].
Defined.

(** The same state dict in strict mode: nothing is missing or unexpected. *)
Lemma load_state_batch_norm_checkpoint_witness :
  exists self' st',
    FrozenBatchNorm2d_load_from_state_dict (A := Q) sample_norm
      (sample_load_state sample_state_dict) "bn1." true = Ok (self', st') /\
    missing_keys st' = [] /\ unexpected_keys st' = [].
Proof.
  destruct (load_state_batch_norm_checkpoint Q Scalar_Q sample_norm
              (sample_load_state sample_state_dict) "bn1." sample_norm_registered)
    as (self' & st' & E & Hmiss & Hunexp & _).
  - repeat constructor; eexists; split; reflexivity.
  - intros k Hk _. simpl in Hk |- *.
    repeat (destruct Hk as [<-|Hk]; [auto 10|]). destruct Hk.
  - exists self', st'. split; [exact E|]. split; [exact Hmiss | exact Hunexp].
Defined.

(** An empty state dict in strict mode: the four buffers are reported
    missing, in the order of their registration. *)
Lemma load_state_buffers_and_reports_witness :
  exists self' st',
    FrozenBatchNorm2d_load_from_state_dict (A := Q) sample_norm
      (sample_load_state []) "bn1." true = Ok (self', st') /\
    missing_keys st' = ["bn1.weight"; "bn1.bias"; "bn1.running_mean"; "bn1.running_var"].
Proof.
  destruct (load_state_buffers_and_reports Q Scalar_Q sample_norm
              (sample_load_state []) "bn1." true sample_norm_registered)
    as (self' & st' & E & _ & _ & Hmiss & _).
  exists self', st'. split; [exact E | exact Hmiss].
Defined.

(** The sample batch norm over three channels on the sample image. *)
Lemma FrozenBatchNorm2d_forward_shapes_witness :
  exists out,
    FrozenBatchNorm2d_forward (A := R) sample_norm sample_image = Ok out /\
    shape out = [2; 3; 64; 96].
Proof.
  destruct (FrozenBatchNorm2d_forward_shapes R Scalar_R FloatArith_R sample_norm
              sample_image 2 3 64 96 3 eq_refl) as [Hok _].
  - repeat constructor.
  - apply Hok. now left.
Defined.



(** The selection [1,2,3]: position 0 taps layer2, the last one layer4. *)
Lemma return_layers_by_position_witness :
  od_get (make_return_layers [1; 2; 3]%Z) "layer2" = Some "1" /\
  option_map fst (nth_error (make_return_layers [1; 2; 3]%Z) 2) = Some "layer4".
Proof.
  pose proof (return_layers_by_position [1; 2; 3]%Z) as H. cbv zeta in H.
  destruct H as (_ & _ & _ & Hget & Hlast). split.
  - exact (Hget 0 1%Z eq_refl).
  - apply Hlast. discriminate.
Defined.

(** The sample encoder with a channel list of another length, and an
    encoder without children. *)
Lemma BackboneBase_init_tapped_layers_witness :
  (exists bb,
      snd (BackboneBase_init (A := Q) sample_resnet true [1; 2]%Z [1; 2; 3]%Z) = Ok bb /\
      num_channels bb = [1; 2]%Z) /\
  snd (BackboneBase_init (A := Q) (mkNNModule [] []) true [] [3]%Z)
  = Raise (ValueError "return_layers are not present in model").
Proof.
  split.
  - pose proof (BackboneBase_init_tapped_layers Q Scalar_Q sample_resnet true [1; 2]%Z
                  [1; 2; 3]%Z) as H. cbv zeta in H. destruct H as (Hok & _).
    destruct Hok as (bb & E & _ & Hnc & _).
    + intros i Hi. simpl in Hi.
      destruct i as [|[|[|i]]]; [simpl; auto 10 .. | lia].
    + exists bb. split; [exact E | exact Hnc].
  - pose proof (BackboneBase_init_tapped_layers Q Scalar_Q (mkNNModule [] []) true []
                  [3]%Z) as H. cbv zeta in H. destruct H as (_ & Hmiss & _).
    apply (Hmiss 0); [simpl; lia | intros []].
Defined.

(** The children of the sample encoder with the selection [1,2,3]. *)
Lemma resnet_body_features_witness :
  exists bb,
    snd (BackboneBase_init (A := Q)
           (mkNNModule
              (combine resnet_child_names (map snd (named_children (A := Q) sample_resnet)))
              [])
           true [] [1; 2; 3]%Z) = Ok bb /\
    map fst (layers (body bb)) = firstn 8 resnet_child_names.
Proof.
  pose proof (resnet_body_features Q Scalar_Q
                (map snd (named_children (A := Q) sample_resnet)) [] true [] [1; 2; 3]%Z
                sample_image eq_refl) as H.
  cbv zeta in H. destruct H as (Hok & _).
  destruct Hok as (bb & E & Hl & _); [simpl; lia|].
  exists bb. split; [exact E | exact Hl].
Defined.




(** ResNet-50 with the selection [1,2,3]: the widths of stages 1 to 3. *)
Lemma Backbone_init_returns_witness :
  exists bb,
    fst (run (Backbone_init (A := R) sample_torchvision_models true "resnet50" true false
                [1; 2; 3]%Z FrozenBatchNorm2d_class)) = Ok bb /\
    num_channels bb = [512; 1024; 2048]%Z.
Proof.
  destruct (Backbone_init_legal (A := R) sample_torchvision_models true "resnet50" true
              false [1; 2; 3]%Z FrozenBatchNorm2d_class [] sample_resnet
              (or_introl eq_refl) eq_refl sample_resnet_stages
              (or_intror (or_introl eq_refl))) as (bb & E & _).
  exists bb. split; [unfold run; now rewrite E|].
  destruct (Backbone_init_returns (A := R) sample_torchvision_models true "resnet50" true
              false [1; 2; 3]%Z FrozenBatchNorm2d_class [] _ bb E)
    as (_ & _ & _ & Hnc & _).
  exact Hnc.
Defined.

(** The factory on the name resnet18. *)
Lemma build_backbone_unknown_backbone_witness :
  run (build_backbone (A := R) sample_torchvision_models true
         sample_build_position_encoding sample_SSLVisionTransformer_init
         (sample_args "resnet18" (1 # 100000)%Q [3]%Z []))
  = (Raise (NotImplementedError "Unknown backbone resnet18"), []).
Proof.
  apply (build_backbone_unknown_backbone (A := R) sample_torchvision_models true
           sample_build_position_encoding sample_SSLVisionTransformer_init
           (sample_args "resnet18" (1 # 100000)%Q [3]%Z []) []).
  intros [E|[E|[E|[E|[]]]]]; discriminate E.
Defined.

(** The factory on a transformer configuration: one constructor call. *)
Lemma build_backbone_constructor_calls_witness :
  snd (run (build_backbone (A := R) sample_torchvision_models true
              sample_build_position_encoding sample_SSLVisionTransformer_init
              (sample_args "ssl_vit" 0%Q [] [4; 11]%Z)))
  = [Call_SSLVisionTransformer
       (SSLVisionTransformer_kwargs (sample_args "ssl_vit" 0%Q [] [4; 11]%Z))].
Proof.
  destruct (build_backbone_constructor_calls (A := R) sample_torchvision_models true
              sample_build_position_encoding sample_SSLVisionTransformer_init
              (sample_args "ssl_vit" 0%Q [] [4; 11]%Z) [])
    as (new & Hsnd & _ & Hvit & _).
  unfold run. rewrite Hsnd, Hvit.
  - reflexivity.
  - intros [E|[E|[]]]; discriminate E.
  - right. left. reflexivity.
Defined.

(** A position-encoding builder that fails, with a learning rate of zero. *)
Lemma build_backbone_collaborator_errors_witness :
  run (build_backbone (A := R) sample_torchvision_models true
         (fun _ => Raise (RuntimeError "position encoding"))
         sample_SSLVisionTransformer_init
         (sample_args "resnet50" 0%Q [0; 2]%Z []))
  = (Raise (RuntimeError "position encoding"), [Call_build_position_encoding]).
Proof.
  destruct (build_backbone_collaborator_errors (A := R) sample_torchvision_models true
              (fun _ => Raise (RuntimeError "position encoding"))
              sample_SSLVisionTransformer_init
              (sample_args "resnet50" 0%Q [0; 2]%Z []) []
              (RuntimeError "position encoding")) as (Hpe & _).
  apply Hpe; [now left | reflexivity].
Defined.

